(** * SmartCityParking: spatial validation triggers and query functions

    A shallow embedding of the PL/pgSQL functions of the database
    initialisation scripts (spatial validation triggers, session-driven bay
    status, radius search, zone occupancy, geometry normalisers), with the
    properties the specification states about them.

    Conventions of the model:
    - DOUBLE PRECISION and NUMERIC values are the rationals they stand for
      ([Q]); a float quotient is rounded to a double, and the division
      raises on a zero divisor and out of the range of the doubles, as
      PostgreSQL's does ([Float8], [float8div]).
    - SQL NULL is [None]; a comparison with NULL is not true, so an [IF] or
      a [WHERE] on it does not pass.
    - Tables are finite maps from the primary key to the row. A statement
      applies the type modifier of a geometry column to the value
      assigned, then fires the BEFORE ROW triggers in name order, then
      checks the keys; the first error rolls it back.
    - PostGIS is an external library: its measuring and predicate functions
      are the fields of the class [PostGIS]; the structural ones
      (GeometryType, ST_NumGeometries, ST_GeometryN, ST_MakePoint,
      ST_SetSRID) are computed on the geometry value. *)

From Stdlib Require Import QArith Qabs Qround Lqa ZArith Lia.
From stdpp Require Import base option list gmap sorting strings.

Local Open Scope Q_scope.

(** ** Numbers *)

Definition Qlt_bool (x y : Q) : bool := negb (Qle_bool y x).

(** DOUBLE PRECISION: a float8 value is the rational it stands for, and the
    result of an operation, or the value of a literal, is the exact one
    rounded to a double by [float8]. [float8_max] is the largest double;
    [float8_numeric] is the cast of a float8 to NUMERIC, which keeps 15
    significant digits. What is used of the rounding is that it keeps the
    order and leaves 1/2 and the largest double as they are. *)
Class Float8 : Type := {
  float8 : Q -> Q;
  float8_max : Q;
  float8_numeric : Q -> Q;
  float8_le : forall x y, x <= y -> float8 x <= float8 y;
  float8_half : float8 (1 # 2) == 1 # 2;
  float8_max_max : float8 float8_max == float8_max
}.

(** ROUND(x, 2) on NUMERIC: to two decimals, ties away from zero. *)
Definition ROUND2 (x : Q) : Q :=
  if Qle_bool 0 x
  then inject_Z (Qfloor (x * 100 + (1 # 2))) / 100
  else - (inject_Z (Qfloor (- x * 100 + (1 # 2))) / 100).

(** ** Geometry values *)

Record coord : Type := mkCoord { cx : Q; cy : Q }.

Definition ring : Type := list coord.

#[warnings="-register-all"]
Inductive Shape : Type :=
  | Point (p : coord)
  | LineString (pts : list coord)
  | Polygon (rings : list ring)
  | MultiPoint (pts : list coord)
  | MultiLineString (lines : list (list coord))
  | MultiPolygon (polys : list (list ring))
  | GeometryCollection (members : list Shape).

Record Geometry : Type := mkGeometry { ST_SRID : Z; shape : Shape }.

Definition GeometryType (g : Geometry) : string :=
  match shape g with
  | Point _ => "POINT"
  | LineString _ => "LINESTRING"
  | Polygon _ => "POLYGON"
  | MultiPoint _ => "MULTIPOINT"
  | MultiLineString _ => "MULTILINESTRING"
  | MultiPolygon _ => "MULTIPOLYGON"
  | GeometryCollection _ => "GEOMETRYCOLLECTION"
  end.

Definition ST_NumGeometries (g : Geometry) : nat :=
  match shape g with
  | MultiPoint pts => length pts
  | MultiLineString ls => length ls
  | MultiPolygon ps => length ps
  | GeometryCollection ms => length ms
  | _ => 1
  end.

(** ST_GeometryN is 1-based and NULL out of range. *)
Definition ST_GeometryN (g : Geometry) (i : nat) : option Geometry :=
  match i with
  | O => None
  | S k =>
      mkGeometry (ST_SRID g) <$>
        match shape g with
        | MultiPoint pts => Point <$> pts !! k
        | MultiLineString ls => LineString <$> ls !! k
        | MultiPolygon ps => Polygon <$> ps !! k
        | GeometryCollection ms => ms !! k
        | s => if decide (k = O) then Some s else None
        end
  end.

Definition ST_MakePoint (x y : Q) : Shape := Point (mkCoord x y).
Definition ST_SetSRID (s : Shape) (srid : Z) : Geometry := mkGeometry srid s.

(** ** The PostGIS functions the scripts call *)

Class PostGIS : Type := {
  ST_IsValid : Geometry -> bool;
  ST_Within : Geometry -> Geometry -> bool;
  ST_Contains : Geometry -> Geometry -> bool;
  ST_Intersection : Geometry -> Geometry -> Geometry;
  ST_Centroid : Geometry -> Geometry;
  (* planar, on geometry *)
  ST_Area : Geometry -> Q;
  (* geodesic, on the ::geography cast, in metres *)
  ST_Area_geography : Geometry -> Q;
  ST_Length_geography : Geometry -> Q;
  ST_Distance_geography : Geometry -> Geometry -> Q;
  ST_DWithin_geography : Geometry -> Geometry -> Q -> bool;
  ST_Buffer_geography : Geometry -> Q -> Geometry;
  (* ST_DWithin is documented as: the distance is at most the given one *)
  ST_DWithin_spec : forall a b d,
    ST_DWithin_geography a b d = true <-> ST_Distance_geography a b <= d
}.

(** ** Rows and tables *)

Inductive bay_status : Type := available | occupied | closed | reserved.
Inductive session_status : Type := active | completed | overstay | cancelled.
Inductive user_role : Type := driver | operator | officer | admin.

Global Instance bay_status_eq_dec : EqDecision bay_status.
Proof. solve_decision. Defined.
Global Instance session_status_eq_dec : EqDecision session_status.
Proof. solve_decision. Defined.
Global Instance user_role_eq_dec : EqDecision user_role.
Proof. solve_decision. Defined.

(** Timestamps are seconds on some clock; CURRENT_TIMESTAMP is an argument. *)
Definition timestamp : Type := Z.

Record parking_zone : Type := mkZone {
  pz_name : string;
  pz_zone_type : string;
  pz_max_duration_minutes : option Z;
  pz_tariff_schedule_id : option Z;
  pz_is_active : option bool;
  pz_geom : Geometry
}.

Record parking_bay : Type := mkBay {
  pb_zone_id : Z;
  pb_bay_number : string;
  pb_is_disabled_only : option bool;
  pb_is_electric : option bool;
  pb_status : option bay_status;
  pb_last_status_update : option timestamp;
  pb_geom : Geometry
}.

Record sensor : Type := mkSensor {
  sn_bay_id : option Z;
  sn_geom : Geometry
}.

Record violation : Type := mkViolation {
  vl_bay_id : option Z;
  vl_officer_id : Z;
  vl_geom : Geometry
}.

Record parking_session : Type := mkSession {
  ps_bay_id : Z;
  ps_status : option session_status
}.

Record database : Type := mkDb {
  parking_zones : gmap Z parking_zone;
  parking_bays : gmap Z parking_bay;
  sensors : gmap Z sensor;
  violations : gmap Z violation;
  parking_sessions : gmap Z parking_session;
  users : gmap Z user_role
}.

(** ** Errors and trigger results *)

Inductive pg_error : Type :=
  | geometry_must_be (table kind : string) (got : string)
  | geometry_must_have_SRID_4326 (table : string) (got : Z)
  | geometry_is_not_valid (table : string)
  | zone_does_not_exist (zone_id : Z)
  | bay_does_not_exist (bay_id : option Z)
  | user_does_not_exist (user_id : Z)
  | only_officers_or_admins (role : user_role)
  | bay_overlaps_zone_by_less_than_90 (zone_name : string) (zone_id : Z)
  | sensor_must_be_within (threshold distance : Q)
  | violation_must_be_inside_bay (bay_number : string) (bay_id : option Z)
  | division_by_zero
  | float_overflow
  | float_underflow
  | geometry_does_not_match_column (table : string)
  | unique_violation (table : string) (key : Z)
  | foreign_key_violation (table : string) (key : Z).

Inductive trigger_result (row : Type) : Type :=
  | RETURN (new : row)
  | RAISE (e : pg_error).
Arguments RETURN {row} new.
Arguments RAISE {row} e.

(** float8 division, with the errors of PostgreSQL's operator: division by
    zero, value out of range on overflow, and on underflow (a zero quotient
    of a dividend that is not zero). *)
Definition float8div `{F : Float8} (x y : Q) : pg_error + Q :=
  if Qeq_bool y 0 then inl division_by_zero
  else
    let result := float8 (x / y) in
    if Qlt_bool float8_max (Qabs result) then inl float_overflow
    else if Qeq_bool result 0 && negb (Qeq_bool x 0) then inl float_underflow
    else inr result.

(** The type modifier of a column declared GEOMETRY(kind, 4326), as geom is
    in every table of the schema: the value assigned to the column must be
    of that type and SRID. It is applied when the row is formed, before any
    trigger fires. *)
Definition column_typmod (table kind : string) (g : Geometry)
    : option pg_error :=
  if String.eqb (GeometryType g) kind && (ST_SRID g =? 4326)%Z then None
  else Some (geometry_does_not_match_column table).

(** The type modifier on an UPDATE: only when the column is assigned. *)
Definition assigned_typmod (assigned : bool) (table kind : string)
    (g : Geometry) : option pg_error :=
  if assigned then column_typmod table kind g else None.

(** BEFORE ROW triggers of one table fire in name order; the first
    exception aborts the statement. *)
Definition and_then {row : Type} (r : trigger_result row)
    (k : row -> trigger_result row) : trigger_result row :=
  match r with
  | RETURN new => k new
  | RAISE e => RAISE e
  end.

(** SQL comparison of a nullable column with a constant: true only on a
    non-NULL value. *)
Definition sql_eq {A : Type} `{EqDecision A} (x : option A) (v : A) : bool :=
  match x with
  | Some a => bool_decide (a = v)
  | None => false
  end.

Definition sql_ne {A : Type} `{EqDecision A} (x : option A) (v : A) : bool :=
  match x with
  | Some a => negb (bool_decide (a = v))
  | None => false
  end.

Section Triggers.
Context `{K : PostGIS} `{F : Float8}.

(** ** Triggers on parking_bays *)

Definition validate_bay_geometry_type (NEW : parking_bay)
    : trigger_result parking_bay :=
  if negb (String.eqb (GeometryType (pb_geom NEW)) "POLYGON") then
    RAISE (geometry_must_be "ParkingBay" "POLYGON" (GeometryType (pb_geom NEW)))
  else if negb (ST_SRID (pb_geom NEW) =? 4326)%Z then
    RAISE (geometry_must_have_SRID_4326 "ParkingBay" (ST_SRID (pb_geom NEW)))
  else if negb (ST_IsValid (pb_geom NEW)) then
    RAISE (geometry_is_not_valid "ParkingBay")
  else RETURN NEW.

Definition validate_bay_within_zone (db : database) (NEW : parking_bay)
    : trigger_result parking_bay :=
  match parking_zones db !! pb_zone_id NEW with
  | None => RAISE (zone_does_not_exist (pb_zone_id NEW))
  | Some zone =>
      let zone_geom := pz_geom zone in
      let zone_name := pz_name zone in
      if negb (ST_Within (pb_geom NEW) zone_geom) then
        match float8div (ST_Area (ST_Intersection (pb_geom NEW) zone_geom))
                        (ST_Area (pb_geom NEW)) with
        | inl e => RAISE e
        | inr ratio =>
            if Qlt_bool ratio (float8 (9 # 10)) then
              RAISE (bay_overlaps_zone_by_less_than_90 zone_name
                       (pb_zone_id NEW))
            else RETURN NEW
        end
      else RETURN NEW
  end.

(** ** Triggers on sensors *)

Definition validate_sensor_geometry_type (NEW : sensor)
    : trigger_result sensor :=
  if negb (String.eqb (GeometryType (sn_geom NEW)) "POINT") then
    RAISE (geometry_must_be "Sensor" "POINT" (GeometryType (sn_geom NEW)))
  else if negb (ST_SRID (sn_geom NEW) =? 4326)%Z then
    RAISE (geometry_must_have_SRID_4326 "Sensor" (ST_SRID (sn_geom NEW)))
  else RETURN NEW.

Definition validate_sensor_near_bay (db : database) (NEW : sensor)
    : trigger_result sensor :=
  let threshold_meters : Q := 3 in
  match sn_bay_id NEW with
  | None => RETURN NEW
  | Some bay_id =>
      match parking_bays db !! bay_id with
      | None => RAISE (bay_does_not_exist (Some bay_id))
      | Some bay =>
          let bay_geom := pb_geom bay in
          if ST_Within (sn_geom NEW) bay_geom then RETURN NEW
          else
            let distance_meters :=
              ST_Distance_geography (sn_geom NEW) bay_geom in
            if Qlt_bool threshold_meters distance_meters then
              RAISE (sensor_must_be_within threshold_meters
                       (ROUND2 (float8_numeric distance_meters)))
            else RETURN NEW
      end
  end.

(** ** Triggers on violations *)

Definition validate_violation_geometry_type (NEW : violation)
    : trigger_result violation :=
  if negb (String.eqb (GeometryType (vl_geom NEW)) "POINT") then
    RAISE (geometry_must_be "Violation" "POINT" (GeometryType (vl_geom NEW)))
  else if negb (ST_SRID (vl_geom NEW) =? 4326)%Z then
    RAISE (geometry_must_have_SRID_4326 "Violation" (ST_SRID (vl_geom NEW)))
  else RETURN NEW.

Definition validate_violation_inside_bay (db : database) (NEW : violation)
    : trigger_result violation :=
  match vl_bay_id NEW ≫= (λ bay_id, parking_bays db !! bay_id) with
  | None => RAISE (bay_does_not_exist (vl_bay_id NEW))
  | Some bay =>
      let v_bay_geom := pb_geom bay in
      let v_bay_number := pb_bay_number bay in
      if ST_Contains v_bay_geom (vl_geom NEW) then RETURN NEW
      else if ST_DWithin_geography (vl_geom NEW) v_bay_geom 2 then RETURN NEW
      else RAISE (violation_must_be_inside_bay v_bay_number (vl_bay_id NEW))
  end.

Definition validate_officer_role (db : database) (NEW : violation)
    : trigger_result violation :=
  match users db !! vl_officer_id NEW with
  | None => RAISE (user_does_not_exist (vl_officer_id NEW))
  | Some role =>
      if negb (bool_decide (role = officer))
         && negb (bool_decide (role = admin))
      then RAISE (only_officers_or_admins role)
      else RETURN NEW
  end.

End Triggers.

(** ** Statements *)

Definition with_parking_zones (db : database) (t : gmap Z parking_zone) :=
  mkDb t (parking_bays db) (sensors db) (violations db)
       (parking_sessions db) (users db).
Definition with_parking_bays (db : database) (t : gmap Z parking_bay) :=
  mkDb (parking_zones db) t (sensors db) (violations db)
       (parking_sessions db) (users db).
Definition with_sensors (db : database) (t : gmap Z sensor) :=
  mkDb (parking_zones db) (parking_bays db) t (violations db)
       (parking_sessions db) (users db).
Definition with_violations (db : database) (t : gmap Z violation) :=
  mkDb (parking_zones db) (parking_bays db) (sensors db) t
       (parking_sessions db) (users db).
Definition with_parking_sessions (db : database)
    (t : gmap Z parking_session) :=
  mkDb (parking_zones db) (parking_bays db) (sensors db) (violations db)
       t (users db).

(** The outcome of a statement: the error that rolled it back, or the
    database after it. *)
Definition outcome : Type := pg_error + database.

(** A trigger declared [BEFORE ... UPDATE OF cols] fires on an UPDATE only
    when one of [cols] is in its SET list. *)
Definition when {row : Type} (fires : bool) (f : row -> trigger_result row)
    (NEW : row) : trigger_result row :=
  if fires then f NEW else RETURN NEW.

Section Statements.
Context `{K : PostGIS} `{F : Float8}.


(** INSERT INTO parking_bays: the type modifier of geom, then
    validate_bay_geometry_type_trigger, then
    validate_bay_within_zone_trigger, then the primary key. *)
Definition INSERT_parking_bays (db : database) (bay_id : Z)
    (row : parking_bay) : outcome :=
  match column_typmod "parking_bays" "POLYGON" (pb_geom row) with
  | Some e => inl e
  | None =>
      match and_then (validate_bay_geometry_type row)
                     (validate_bay_within_zone db) with
      | RAISE e => inl e
      | RETURN new =>
          match parking_bays db !! bay_id with
          | Some _ => inl (unique_violation "parking_bays" bay_id)
          | None =>
              inr (with_parking_bays db (<[bay_id := new]> (parking_bays db)))
          end
      end
  end.

(** UPDATE parking_bays SET ... WHERE bay_id = ..., with the columns of the
    SET list that the triggers look at. *)
Record bay_assignment : Type := mkBaySet {
  set_pb_geom : option Geometry;
  set_pb_zone_id : option Z;
  set_pb_status : option (option bay_status)
}.

Definition assign_bay (a : bay_assignment) (OLD : parking_bay) : parking_bay :=
  mkBay (default (pb_zone_id OLD) (set_pb_zone_id a))
        (pb_bay_number OLD) (pb_is_disabled_only OLD) (pb_is_electric OLD)
        (default (pb_status OLD) (set_pb_status a))
        (pb_last_status_update OLD)
        (default (pb_geom OLD) (set_pb_geom a)).

Definition UPDATE_parking_bays (db : database) (bay_id : Z)
    (a : bay_assignment) : outcome :=
  match parking_bays db !! bay_id with
  | None => inr db
  | Some OLD =>
      let of_geom := bool_decide (is_Some (set_pb_geom a)) in
      let of_zone_id := bool_decide (is_Some (set_pb_zone_id a)) in
      match assigned_typmod of_geom "parking_bays" "POLYGON"
              (pb_geom (assign_bay a OLD)) with
      | Some e => inl e
      | None =>
          match and_then (when of_geom validate_bay_geometry_type
                               (assign_bay a OLD))
                         (when (of_geom || of_zone_id)
                               (validate_bay_within_zone db)) with
          | RAISE e => inl e
          | RETURN new =>
              inr (with_parking_bays db (<[bay_id := new]> (parking_bays db)))
          end
      end
  end.

(** INSERT INTO sensors / UPDATE sensors. *)
Definition INSERT_sensors (db : database) (sensor_id : Z) (row : sensor)
    : outcome :=
  match column_typmod "sensors" "POINT" (sn_geom row) with
  | Some e => inl e
  | None =>
      match and_then (validate_sensor_geometry_type row)
                     (validate_sensor_near_bay db) with
      | RAISE e => inl e
      | RETURN new =>
          match sensors db !! sensor_id with
          | Some _ => inl (unique_violation "sensors" sensor_id)
          | None => inr (with_sensors db (<[sensor_id := new]> (sensors db)))
          end
      end
  end.

Record sensor_assignment : Type := mkSensorSet {
  set_sn_geom : option Geometry;
  set_sn_bay_id : option (option Z)
}.

Definition assign_sensor (a : sensor_assignment) (OLD : sensor) : sensor :=
  mkSensor (default (sn_bay_id OLD) (set_sn_bay_id a))
           (default (sn_geom OLD) (set_sn_geom a)).

Definition UPDATE_sensors (db : database) (sensor_id : Z)
    (a : sensor_assignment) : outcome :=
  match sensors db !! sensor_id with
  | None => inr db
  | Some OLD =>
      let of_geom := bool_decide (is_Some (set_sn_geom a)) in
      let of_bay_id := bool_decide (is_Some (set_sn_bay_id a)) in
      match assigned_typmod of_geom "sensors" "POINT"
              (sn_geom (assign_sensor a OLD)) with
      | Some e => inl e
      | None =>
          match and_then (when of_geom validate_sensor_geometry_type
                               (assign_sensor a OLD))
                         (when (of_geom || of_bay_id)
                               (validate_sensor_near_bay db)) with
          | RAISE e => inl e
          | RETURN new =>
              inr (with_sensors db (<[sensor_id := new]> (sensors db)))
          end
      end
  end.

(** INSERT INTO violations / UPDATE violations: the type modifier of geom,
    then validate_officer_role_trigger,
    validate_violation_geometry_type_trigger,
    validate_violation_inside_bay_trigger. *)
Definition INSERT_violations (db : database) (violation_id : Z)
    (row : violation) : outcome :=
  match column_typmod "violations" "POINT" (vl_geom row) with
  | Some e => inl e
  | None =>
      match and_then (and_then (validate_officer_role db row)
                               validate_violation_geometry_type)
                     (validate_violation_inside_bay db) with
      | RAISE e => inl e
      | RETURN new =>
          match violations db !! violation_id with
          | Some _ => inl (unique_violation "violations" violation_id)
          | None =>
              inr (with_violations db
                     (<[violation_id := new]> (violations db)))
          end
      end
  end.

Record violation_assignment : Type := mkViolationSet {
  set_vl_geom : option Geometry;
  set_vl_bay_id : option (option Z);
  set_vl_officer_id : option Z
}.

Definition assign_violation (a : violation_assignment) (OLD : violation)
    : violation :=
  mkViolation (default (vl_bay_id OLD) (set_vl_bay_id a))
              (default (vl_officer_id OLD) (set_vl_officer_id a))
              (default (vl_geom OLD) (set_vl_geom a)).

Definition UPDATE_violations (db : database) (violation_id : Z)
    (a : violation_assignment) : outcome :=
  match violations db !! violation_id with
  | None => inr db
  | Some OLD =>
      let of_geom := bool_decide (is_Some (set_vl_geom a)) in
      let of_bay_id := bool_decide (is_Some (set_vl_bay_id a)) in
      let of_officer_id := bool_decide (is_Some (set_vl_officer_id a)) in
      match assigned_typmod of_geom "violations" "POINT"
              (vl_geom (assign_violation a OLD)) with
      | Some e => inl e
      | None =>
          match and_then
                  (and_then (when of_officer_id (validate_officer_role db)
                                  (assign_violation a OLD))
                            (when of_geom validate_violation_geometry_type))
                  (when (of_geom || of_bay_id)
                        (validate_violation_inside_bay db)) with
          | RAISE e => inl e
          | RETURN new =>
              inr (with_violations db
                     (<[violation_id := new]> (violations db)))
          end
      end
  end.

End Statements.

(** ** Bay status driven by parking sessions *)

Inductive trigger_op : Type := TG_INSERT | TG_UPDATE.

(** UPDATE parking_bays SET status = s, last_status_update =
    CURRENT_TIMESTAMP WHERE bay_id = b. No trigger of parking_bays is
    declared on these columns. *)
Definition UPDATE_bay_status (db : database) (CURRENT_TIMESTAMP : timestamp)
    (bay_id : Z) (s : bay_status) : database :=
  with_parking_bays db
    (alter (λ b, mkBay (pb_zone_id b) (pb_bay_number b)
                       (pb_is_disabled_only b) (pb_is_electric b)
                       (Some s) (Some CURRENT_TIMESTAMP) (pb_geom b))
           bay_id (parking_bays db)).

(** The AFTER ROW trigger function of parking_sessions: the database it
    leaves and its result. [OLD] is only read when [TG_OP] is UPDATE. *)
Definition update_bay_status_on_session (TG_OP : trigger_op)
    (OLD NEW : parking_session) (CURRENT_TIMESTAMP : timestamp)
    (db : database) : database * trigger_result parking_session :=
  match TG_OP with
  | TG_INSERT =>
      if sql_eq (ps_status NEW) active then
        (UPDATE_bay_status db CURRENT_TIMESTAMP (ps_bay_id NEW) occupied,
         RETURN NEW)
      else (db, RETURN NEW)
  | TG_UPDATE =>
      if (sql_eq (ps_status NEW) completed || sql_eq (ps_status NEW) cancelled)
         && sql_eq (ps_status OLD) active then
        (UPDATE_bay_status db CURRENT_TIMESTAMP (ps_bay_id NEW) available,
         RETURN NEW)
      else if sql_eq (ps_status NEW) overstay && sql_eq (ps_status OLD) active
      then
        (UPDATE_bay_status db CURRENT_TIMESTAMP (ps_bay_id NEW) occupied,
         RETURN NEW)
      else (db, RETURN NEW)
  end.

Definition after_row (r : database * trigger_result parking_session)
    : outcome :=
  match r with
  | (db, RETURN _) => inr db
  | (_, RAISE e) => inl e
  end.

(** INSERT INTO parking_sessions: primary key, the reference to the bay,
    then update_bay_status_trigger. *)
Definition INSERT_parking_sessions (db : database)
    (CURRENT_TIMESTAMP : timestamp) (session_id : Z) (row : parking_session)
    : outcome :=
  match parking_sessions db !! session_id with
  | Some _ => inl (unique_violation "parking_sessions" session_id)
  | None =>
      match parking_bays db !! ps_bay_id row with
      | None => inl (foreign_key_violation "parking_sessions" (ps_bay_id row))
      | Some _ =>
          after_row
            (update_bay_status_on_session TG_INSERT row row CURRENT_TIMESTAMP
               (with_parking_sessions db
                  (<[session_id := row]> (parking_sessions db))))
      end
  end.

(** UPDATE parking_sessions SET ... WHERE session_id = ...; the trigger is
    declared AFTER UPDATE OF status. *)
Record session_assignment : Type := mkSessionSet {
  set_ps_bay_id : option Z;
  set_ps_status : option (option session_status)
}.

Definition assign_session (a : session_assignment) (OLD : parking_session)
    : parking_session :=
  mkSession (default (ps_bay_id OLD) (set_ps_bay_id a))
            (default (ps_status OLD) (set_ps_status a)).

Definition UPDATE_parking_sessions (db : database)
    (CURRENT_TIMESTAMP : timestamp) (session_id : Z) (a : session_assignment)
    : outcome :=
  match parking_sessions db !! session_id with
  | None => inr db
  | Some OLD =>
      let NEW := assign_session a OLD in
      (* the reference is checked again only when bay_id changes *)
      if negb (bool_decide (ps_bay_id NEW = ps_bay_id OLD))
         && negb (bool_decide (is_Some (parking_bays db !! ps_bay_id NEW)))
      then inl (foreign_key_violation "parking_sessions" (ps_bay_id NEW))
      else
        let db' := with_parking_sessions db
                     (<[session_id := NEW]> (parking_sessions db)) in
        if bool_decide (is_Some (set_ps_status a)) then
          after_row
            (update_bay_status_on_session TG_UPDATE OLD NEW
               CURRENT_TIMESTAMP db')
        else inr db'
  end.

(** ** Spatial query helpers *)

Record bay_near : Type := mkBayNear {
  bn_bay_id : Z;
  bn_bay_number : string;
  bn_zone_id : Z;
  bn_zone_name : string;
  bn_status : option bay_status;
  bn_is_disabled_only : option bool;
  bn_is_electric : option bool;
  bn_distance_meters : Q;
  (* the geometry of the GeoJSON feature; its properties repeat the columns *)
  bn_geojson : Geometry
}.

(** ORDER BY distance_meters *)
Definition by_distance_meters (r1 r2 : bay_near) : Prop :=
  bn_distance_meters r1 <= bn_distance_meters r2.

Global Instance by_distance_meters_dec : RelDecision by_distance_meters.
Proof.
  intros r1 r2. unfold by_distance_meters.
  destruct (Qlt_le_dec (bn_distance_meters r2) (bn_distance_meters r1)) as [H|H].
  - right. apply Qlt_not_le, H.
  - left. exact H.
Defined.

Record zone_occupancy : Type := mkOccupancy {
  total_bays : Z;
  available_bays : Z;
  occupied_bays : Z;
  reserved_bays : Z;
  closed_bays : Z;
  occupancy_percent : Q
}.

(** COUNT( * ) FILTER (WHERE p) *)
Definition COUNT_FILTER {A : Type} (p : A -> bool) (rows : list A) : Z :=
  Z.of_nat (length (List.filter p rows)).

Section Queries.
Context `{K : PostGIS}.

(** FROM parking_bays pb JOIN parking_zones pz ON pb.zone_id = pz.zone_id;
    zone_id is the key of parking_zones. *)
Definition bays_join_zones (db : database)
    : list (Z * parking_bay * parking_zone) :=
  omap (λ kb : Z * parking_bay,
          (λ pz, (kb.1, kb.2, pz)) <$> parking_zones db !! pb_zone_id kb.2)
       (map_to_list (parking_bays db)).

Definition find_available_bays_near (db : database)
    (lat lng radius_meters : Q) : list bay_near :=
  let center := ST_SetSRID (ST_MakePoint lng lat) 4326 in
  let selected :=
    List.filter
      (λ r : Z * parking_bay * parking_zone,
         let '(_, pb, pz) := r in
         sql_eq (pb_status pb) available
         && sql_eq (pz_is_active pz) true
         && ST_DWithin_geography (pb_geom pb) center radius_meters)
      (bays_join_zones db) in
  merge_sort by_distance_meters
    (List.map
       (λ r : Z * parking_bay * parking_zone,
          let '(bay_id, pb, pz) := r in
          mkBayNear bay_id (pb_bay_number pb) (pb_zone_id pb) (pz_name pz)
                    (pb_status pb) (pb_is_disabled_only pb) (pb_is_electric pb)
                    (ST_Distance_geography (pb_geom pb) center)
                    (pb_geom pb))
       selected).

Definition calculate_zone_occupancy (db : database) (p_zone_id : Z)
    : zone_occupancy :=
  let rows :=
    List.filter (λ pb, (pb_zone_id pb =? p_zone_id)%Z)
                (snd <$> map_to_list (parking_bays db)) in
  let not_closed := COUNT_FILTER (λ pb, sql_ne (pb_status pb) closed) rows in
  let n_occupied := COUNT_FILTER (λ pb, sql_eq (pb_status pb) occupied) rows in
  mkOccupancy
    (Z.of_nat (length rows))
    (COUNT_FILTER (λ pb, sql_eq (pb_status pb) available) rows)
    n_occupied
    (COUNT_FILTER (λ pb, sql_eq (pb_status pb) reserved) rows)
    (COUNT_FILTER (λ pb, sql_eq (pb_status pb) closed) rows)
    (if (0 <? not_closed)%Z
     then ROUND2 (inject_Z n_occupied / inject_Z not_closed * 100)
     else 0).

(** ** Geometry normalisers *)

(** FOR i IN 1..n LOOP body END LOOP, on the loop's variables. *)
Definition FOR_1_to {St : Type} (n : nat) (body : nat -> St -> St) (s : St)
    : St :=
  foldl (λ s i, body i s) s (seq 1 n).

(** The body shared by the loops of the normalisers: the variables are
    (max, result); a member that passes [wanted] replaces them when its
    measure is greater than max. A NULL member never is. *)
Definition keep_greater (measure : Geometry -> Q) (wanted : Geometry -> bool)
    (geom : Geometry) (i : nat) (vars : Q * option Geometry)
    : Q * option Geometry :=
  match ST_GeometryN geom i with
  | Some current_geom =>
      if wanted current_geom then
        let current := measure current_geom in
        if Qlt_bool (fst vars) current then (current, Some current_geom)
        else vars
      else vars
  | None => vars
  end.

Definition normalize_to_polygon (geom : option Geometry) : option Geometry :=
  match geom with
  | None => None
  | Some geom =>
      let geom_type := GeometryType geom in
      if String.eqb geom_type "POLYGON" then Some geom
      else if String.eqb geom_type "MULTIPOLYGON" then
        snd (FOR_1_to (ST_NumGeometries geom)
               (keep_greater ST_Area_geography (λ _, true) geom) (0, None))
      else if String.eqb geom_type "GEOMETRYCOLLECTION" then
        snd (FOR_1_to (ST_NumGeometries geom)
               (keep_greater ST_Area_geography
                  (λ g, String.eqb (GeometryType g) "POLYGON") geom)
               (0, None))
      else if String.eqb geom_type "POINT" then
        Some (ST_Buffer_geography geom (25 # 10))
      else None
  end.

Definition normalize_to_linestring (geom : option Geometry)
    : option Geometry :=
  match geom with
  | None => None
  | Some geom =>
      let geom_type := GeometryType geom in
      if String.eqb geom_type "LINESTRING" then Some geom
      else if String.eqb geom_type "MULTILINESTRING" then
        snd (FOR_1_to (ST_NumGeometries geom)
               (keep_greater ST_Length_geography (λ _, true) geom) (0, None))
      else if String.eqb geom_type "GEOMETRYCOLLECTION" then
        snd (FOR_1_to (ST_NumGeometries geom)
               (keep_greater ST_Length_geography
                  (λ g, String.eqb (GeometryType g) "LINESTRING") geom)
               (0, None))
      else None
  end.

Definition normalize_to_point (geom : option Geometry) : option Geometry :=
  match geom with
  | None => None
  | Some geom =>
      if String.eqb (GeometryType geom) "POINT" then Some geom
      else Some (ST_Centroid geom)
  end.

End Queries.

(** ** A planar kernel for evaluating the functions

    An instance of [PostGIS] on which the functions above run: coordinates
    are metres on a plane, every geometry is measured through its bounding
    box (exact for axis-parallel rectangles and for points), areas are
    shoelace areas, and the distance of two boxes is the larger of their
    gaps along the two axes. *)
Module Planar.

Record box : Type := mkBox { xmin : Q; ymin : Q; xmax : Q; ymax : Q }.

Definition Qmin (a b : Q) : Q := if Qle_bool a b then a else b.
Definition Qmax (a b : Q) : Q := if Qle_bool a b then b else a.

Fixpoint shape_coords (s : Shape) : list coord :=
  match s with
  | Point p => [p]
  | LineString pts => pts
  | Polygon rings => concat rings
  | MultiPoint pts => pts
  | MultiLineString ls => concat ls
  | MultiPolygon ps => concat (concat ps)
  | GeometryCollection ms =>
      (fix go (ms : list Shape) : list coord :=
         match ms with
         | [] => []
         | m :: ms' => shape_coords m ++ go ms'
         end) ms
  end.

Definition extend (b : box) (c : coord) : box :=
  mkBox (Qmin (xmin b) (cx c)) (Qmin (ymin b) (cy c))
        (Qmax (xmax b) (cx c)) (Qmax (ymax b) (cy c)).

Definition bbox (g : Geometry) : option box :=
  match shape_coords (shape g) with
  | [] => None
  | c :: cs => Some (foldl extend (mkBox (cx c) (cy c) (cx c) (cy c)) cs)
  end.

Definition box_within (a b : box) : bool :=
  Qle_bool (xmin b) (xmin a) && Qle_bool (xmax a) (xmax b)
  && Qle_bool (ymin b) (ymin a) && Qle_bool (ymax a) (ymax b).

Definition box_ring (b : box) : ring :=
  [mkCoord (xmin b) (ymin b); mkCoord (xmax b) (ymin b);
   mkCoord (xmax b) (ymax b); mkCoord (xmin b) (ymax b);
   mkCoord (xmin b) (ymin b)].

Definition box_intersection (a b : box) : list ring :=
  let i := mkBox (Qmax (xmin a) (xmin b)) (Qmax (ymin a) (ymin b))
                 (Qmin (xmax a) (xmax b)) (Qmin (ymax a) (ymax b)) in
  if Qlt_bool (xmin i) (xmax i) && Qlt_bool (ymin i) (ymax i)
  then [box_ring i] else [].

Definition box_gap (a b : box) : Q :=
  Qmax 0 (Qmax (Qmax (xmin b - xmax a) (xmin a - xmax b))
               (Qmax (ymin b - ymax a) (ymin a - ymax b))).

Fixpoint shoelace (r : ring) : Q :=
  match r with
  | a :: (b :: _) as rest => (cx a * cy b - cx b * cy a) + shoelace rest
  | _ => 0
  end.

Definition ring_area (r : ring) : Q := Qabs (shoelace r) / 2.

Definition polygon_area (rings : list ring) : Q :=
  match rings with
  | [] => 0
  | exterior :: holes =>
      ring_area exterior - foldr Qplus 0 (ring_area <$> holes)
  end.

Definition area (g : Geometry) : Q :=
  match shape g with
  | Polygon rings => polygon_area rings
  | MultiPolygon ps => foldr Qplus 0 (polygon_area <$> ps)
  | _ => 0
  end.

Fixpoint path_length (pts : list coord) : Q :=
  match pts with
  | a :: (b :: _) as rest =>
      Qmax (Qabs (cx b - cx a)) (Qabs (cy b - cy a)) + path_length rest
  | _ => 0
  end.

Definition length (g : Geometry) : Q :=
  match shape g with
  | LineString pts => path_length pts
  | MultiLineString ls => foldr Qplus 0 (path_length <$> ls)
  | _ => 0
  end.

Definition within (a b : Geometry) : bool :=
  match bbox a, bbox b with
  | Some ba, Some bb => box_within ba bb
  | _, _ => false
  end.

Definition intersection (a b : Geometry) : Geometry :=
  mkGeometry (ST_SRID a)
    (match bbox a, bbox b with
     | Some ba, Some bb => Polygon (box_intersection ba bb)
     | _, _ => Polygon []
     end).

Definition distance (a b : Geometry) : Q :=
  match bbox a, bbox b with
  | Some ba, Some bb => box_gap ba bb
  | _, _ => 0
  end.

Definition buffer (g : Geometry) (r : Q) : Geometry :=
  mkGeometry (ST_SRID g)
    (match bbox g with
     | Some b =>
         Polygon [box_ring (mkBox (xmin b - r) (ymin b - r)
                                  (xmax b + r) (ymax b + r))]
     | None => Polygon []
     end).

Definition centroid (g : Geometry) : Geometry :=
  mkGeometry (ST_SRID g)
    (match bbox g with
     | Some b => Point (mkCoord ((xmin b + xmax b) / 2) ((ymin b + ymax b) / 2))
     | None => GeometryCollection []
     end).

Definition is_valid (g : Geometry) : bool :=
  match shape g with
  | Polygon rings => forallb (λ r, Nat.leb 4 (List.length r)) rings
  | LineString pts => Nat.leb 2 (List.length pts)
  | _ => true
  end.

#[export] Instance kernel : PostGIS := {|
  ST_IsValid := is_valid;
  ST_Within := within;
  ST_Contains := λ a b, within b a;
  ST_Intersection := intersection;
  ST_Centroid := centroid;
  ST_Area := area;
  ST_Area_geography := area;
  ST_Length_geography := length;
  ST_Distance_geography := distance;
  ST_DWithin_geography := λ a b d, Qle_bool (distance a b) d;
  ST_Buffer_geography := buffer;
  ST_DWithin_spec := λ a b d, Qle_bool_iff (distance a b) d
|}.

(** Exact arithmetic within the range of the doubles: every rational is
    its own float8 and its own NUMERIC. *)
#[export] Instance exact : Float8 := {|
  float8 := λ x, x;
  float8_max := inject_Z ((2 ^ 53 - 1) * 2 ^ 971);
  float8_numeric := λ x, x;
  float8_le := λ x y H, H;
  float8_half := Qeq_refl (1 # 2);
  float8_max_max := Qeq_refl _
|}.

(** Rectangles and points for the scenarios, in SRID 4326. *)
Definition rect (x0 y0 x1 y1 : Q) : Geometry :=
  mkGeometry 4326 (Polygon [box_ring (mkBox x0 y0 x1 y1)]).

Definition point (x y : Q) : Geometry :=
  ST_SetSRID (ST_MakePoint x y) 4326.

End Planar.

(** ** What the specification asks of persisted rows *)

Section Invariants.
Context `{K : PostGIS} `{F : Float8}.

(** Full containment, or at least 90% of the bay's own area inside the
    zone: the float8 quotient of the two areas is a double that is not
    below the float8 0.9. *)
Definition overlaps_enough (bay_geom zone_geom : Geometry) : Prop :=
  ST_Within bay_geom zone_geom = true
  \/ (~ ST_Area bay_geom == 0
      /\ let overlap_ratio :=
           float8 (ST_Area (ST_Intersection bay_geom zone_geom)
                   / ST_Area bay_geom) in
         float8 (9 # 10) <= overlap_ratio <= float8_max).

Definition bay_in_zone (db : database) (b : parking_bay) : Prop :=
  exists z, parking_zones db !! pb_zone_id b = Some z
            /\ overlaps_enough (pb_geom b) (pz_geom z).

Definition bays_in_zones (db : database) : Prop :=
  forall bay_id b, parking_bays db !! bay_id = Some b -> bay_in_zone db b.

(** Inside the bay, or at most [tolerance] metres from it. *)
Definition near_bay (tolerance : Q) (inside : bool) (pt bay_geom : Geometry)
    : Prop :=
  inside = true \/ ST_Distance_geography pt bay_geom <= tolerance.

Definition sensor_near_its_bay (db : database) (s : sensor) : Prop :=
  match sn_bay_id s with
  | None => True
  | Some bay_id =>
      exists bay, parking_bays db !! bay_id = Some bay
        /\ near_bay 3 (ST_Within (sn_geom s) (pb_geom bay))
                    (sn_geom s) (pb_geom bay)
  end.

Definition violation_in_its_bay (db : database) (v : violation) : Prop :=
  exists bay_id bay,
    vl_bay_id v = Some bay_id
    /\ parking_bays db !! bay_id = Some bay
    /\ near_bay 2 (ST_Contains (pb_geom bay) (vl_geom v))
                (vl_geom v) (pb_geom bay).

End Invariants.

(** ** The status of a bay *)

(** The status column of the row of [bay_id], when there is such a row. *)
Definition bay_status_of (db : database) (bay_id : Z)
    : option (option bay_status) :=
  pb_status <$> parking_bays db !! bay_id.

(** The session changes on which the trigger function writes a status. *)
Definition status_written (TG_OP : trigger_op) (OLD NEW : parking_session)
    : option bay_status :=
  match TG_OP, ps_status OLD, ps_status NEW with
  | TG_INSERT, _, Some active => Some occupied
  | TG_UPDATE, Some active, Some completed => Some available
  | TG_UPDATE, Some active, Some cancelled => Some available
  | TG_UPDATE, Some active, Some overstay => Some occupied
  | _, _, _ => None
  end.

(** ** Counting the bays of a zone *)

(** The number of rows of parking_bays that satisfy [P]. *)
Definition bays_where (db : database) (P : parking_bay -> Prop)
    `{forall b, Decision (P b)} : Z :=
  Z.of_nat (size (filter (λ kb : Z * parking_bay, P kb.2) (parking_bays db))).

Definition in_zone_with_status (zone_id : Z) (s : option bay_status)
    (b : parking_bay) : Prop :=
  pb_zone_id b = zone_id /\ pb_status b = s.

Global Instance in_zone_with_status_dec zone_id s b :
  Decision (in_zone_with_status zone_id s b).
Proof. unfold in_zone_with_status. apply _. Defined.

(** ** The members of a multi-part geometry or collection *)

(** The geometries ST_GeometryN enumerates, in order. *)
Definition members (g : Geometry) : list Geometry :=
  mkGeometry (ST_SRID g) <$>
    match shape g with
    | MultiPoint pts => Point <$> pts
    | MultiLineString ls => LineString <$> ls
    | MultiPolygon ps => Polygon <$> ps
    | GeometryCollection ms => ms
    | s => [s]
    end.

Definition is_polygon (g : Geometry) : bool :=
  String.eqb (GeometryType g) "POLYGON".

Definition polygon_members (g : Geometry) : list Geometry :=
  List.filter is_polygon (members g).

(** One pass over the candidates, keeping the first of greatest measure
    above the initial one. *)
Definition greater (measure : Geometry -> Q) (vars : Q * option Geometry)
    (g : Geometry) : Q * option Geometry :=
  if Qlt_bool (fst vars) (measure g) then (measure g, Some g) else vars.

(** [p] is a member Polygon of [g] with the largest geodesic area. *)
Definition largest_polygon_member `{K : PostGIS} (g p : Geometry) : Prop :=
  p ∈ polygon_members g
  /\ forall q, q ∈ polygon_members g ->
               ST_Area_geography q <= ST_Area_geography p.

(** ** Scenarios on the planar kernel *)
Module Scenario.
Import Planar.

Definition zone_A : parking_zone :=
  mkZone "Lot A" "lot" None None (Some true) (rect 0 0 50 30).
Definition zone_closed : parking_zone :=
  mkZone "Old yard" "lot" None None (Some false) (rect 100 0 150 30).

Definition bay_at (zone_id : Z) (number : string) (s : bay_status)
    (g : Geometry) : parking_bay :=
  mkBay zone_id number (Some false) (Some false) (Some s) None g.

(** 5 m x 2.5 m bays of zone 1: inside, 90% inside, 80% inside. *)
Definition bay_inside := bay_at 1 "A-1" available (rect 10 10 15 (25 # 2)).
Definition bay_90 :=
  bay_at 1 "A-2" available (rect (91 # 2) 10 (101 # 2) (25 # 2)).
Definition bay_80 := bay_at 1 "A-3" available (rect 46 10 51 (25 # 2)).
Definition bay_far := bay_at 1 "A-4" available (rect 40 20 45 (45 # 2)).
Definition bay_taken := bay_at 1 "A-5" occupied (rect 10 15 15 (35 # 2)).
Definition bay_shut := bay_at 1 "A-6" closed (rect 10 20 15 (45 # 2)).
Definition bay_yard := bay_at 2 "Y-1" available (rect 100 10 105 (25 # 2)).
Definition bay_orphan := bay_at 9 "X-1" available (rect 10 10 15 (25 # 2)).

(** Points for sensors and violations of bay 1 (x 10..15, y 10..12.5). *)
Definition at_centre := point (25 # 2) (45 # 4).
Definition off_by_2 := point 17 11.
Definition off_by_3 := point 18 11.
Definition off_by_4 := point 19 11.

(** A multi-part polygon with parts of 10 m2 and 30 m2, a collection
    holding them among other members, and a part without area: a ring
    folded onto the equator, of area 0 on the plane and on the spheroid. *)
Definition part_10 : list ring := [box_ring (mkBox 0 0 5 2)].
Definition part_30 : list ring := [box_ring (mkBox 10 0 16 5)].
Definition part_flat : list ring :=
  [[mkCoord 0 0; mkCoord 1 0; mkCoord 2 0; mkCoord 0 0]].
Definition multi_10_30 : Geometry :=
  mkGeometry 4326 (MultiPolygon [part_10; part_30]).
Definition collection_10_30 : Geometry :=
  mkGeometry 4326
    (GeometryCollection
       [Point (mkCoord 1 1); Polygon part_10;
        LineString [mkCoord 0 0; mkCoord 9 9]; Polygon part_30]).
Definition multi_flat : Geometry := mkGeometry 4326 (MultiPolygon [part_flat]).
Definition collection_of_points : Geometry :=
  mkGeometry 4326 (GeometryCollection [Point (mkCoord 1 1)]).

Definition db0 : database :=
  mkDb (<[1%Z := zone_A]> (<[2%Z := zone_closed]> ∅))
       (<[1%Z := bay_inside]> (<[4%Z := bay_far]> (<[5%Z := bay_taken]>
          (<[6%Z := bay_shut]> (<[7%Z := bay_yard]> ∅)))))
       ∅ ∅ ∅
       (<[1%Z := officer]> (<[2%Z := driver]> ∅)).

End Scenario.

(** ** Triggers on parking_zones, street_segments and payment_terminals *)

Record street_segment : Type := mkStreet {
  ss_name : string;
  ss_geom : Geometry
}.

Record payment_terminal : Type := mkTerminal {
  pt_zone_id : option Z;
  pt_terminal_code : string;
  pt_geom : Geometry
}.

Section MoreTriggers.
Context `{K : PostGIS}.

Definition validate_zone_geometry_type (NEW : parking_zone)
    : trigger_result parking_zone :=
  if negb (String.eqb (GeometryType (pz_geom NEW)) "POLYGON") then
    RAISE (geometry_must_be "ParkingZone" "POLYGON"
             (GeometryType (pz_geom NEW)))
  else if negb (ST_SRID (pz_geom NEW) =? 4326)%Z then
    RAISE (geometry_must_have_SRID_4326 "ParkingZone" (ST_SRID (pz_geom NEW)))
  else if negb (ST_IsValid (pz_geom NEW)) then
    RAISE (geometry_is_not_valid "ParkingZone")
  else RETURN NEW.

Definition validate_street_geometry_type (NEW : street_segment)
    : trigger_result street_segment :=
  if negb (String.eqb (GeometryType (ss_geom NEW)) "LINESTRING") then
    RAISE (geometry_must_be "StreetSegment" "LINESTRING"
             (GeometryType (ss_geom NEW)))
  else if negb (ST_SRID (ss_geom NEW) =? 4326)%Z then
    RAISE (geometry_must_have_SRID_4326 "StreetSegment"
             (ST_SRID (ss_geom NEW)))
  else if negb (ST_IsValid (ss_geom NEW)) then
    RAISE (geometry_is_not_valid "StreetSegment")
  else RETURN NEW.

Definition validate_terminal_geometry_type (NEW : payment_terminal)
    : trigger_result payment_terminal :=
  if negb (String.eqb (GeometryType (pt_geom NEW)) "POINT") then
    RAISE (geometry_must_be "PaymentTerminal" "POINT"
             (GeometryType (pt_geom NEW)))
  else if negb (ST_SRID (pt_geom NEW) =? 4326)%Z then
    RAISE (geometry_must_have_SRID_4326 "PaymentTerminal"
             (ST_SRID (pt_geom NEW)))
  else RETURN NEW.

(** UPDATE parking_zones SET ... WHERE zone_id = ..., for the columns geom
    and is_active: the type modifier of geom, then the only trigger of the
    scripts on the table, declared BEFORE INSERT OR UPDATE OF geom. The
    constraints on the columns that are not assigned hold as they did. *)
Record zone_assignment : Type := mkZoneSet {
  set_pz_geom : option Geometry;
  set_pz_is_active : option (option bool)
}.

Definition assign_zone (a : zone_assignment) (OLD : parking_zone)
    : parking_zone :=
  mkZone (pz_name OLD) (pz_zone_type OLD) (pz_max_duration_minutes OLD)
         (pz_tariff_schedule_id OLD)
         (default (pz_is_active OLD) (set_pz_is_active a))
         (default (pz_geom OLD) (set_pz_geom a)).

Definition UPDATE_parking_zones (db : database) (zone_id : Z)
    (a : zone_assignment) : outcome :=
  match parking_zones db !! zone_id with
  | None => inr db
  | Some OLD =>
      let of_geom := bool_decide (is_Some (set_pz_geom a)) in
      match assigned_typmod of_geom "parking_zones" "POLYGON"
              (pz_geom (assign_zone a OLD)) with
      | Some e => inl e
      | None =>
          match when of_geom validate_zone_geometry_type
                     (assign_zone a OLD) with
          | RAISE e => inl e
          | RETURN new =>
              inr (with_parking_zones db
                     (<[zone_id := new]> (parking_zones db)))
          end
      end
  end.

End MoreTriggers.

(** ** The helper that compares a geometry's type with an expected one *)

(** [geom] may be NULL; 'MULTI' || expected_type is string concatenation. *)
Definition validate_geometry_type (geom : option Geometry)
    (expected_type : string) (allow_multi : bool) : bool :=
  match geom with
  | None => false
  | Some geom =>
      let actual_type := GeometryType geom in
      if String.eqb actual_type expected_type then true
      else if allow_multi
              && String.eqb actual_type ("MULTI" ++ expected_type)%string
      then true
      else false
  end.

(** ** Zones within a radius *)

Record zone_near : Type := mkZoneNear {
  zn_zone_id : Z;
  zn_name : string;
  zn_zone_type : string;
  zn_max_duration_minutes : option Z;
  zn_tariff_schedule_id : option Z;
  zn_distance_meters : Q;
  zn_geojson : Geometry
}.

Definition by_zone_distance (r1 r2 : zone_near) : Prop :=
  zn_distance_meters r1 <= zn_distance_meters r2.

Global Instance by_zone_distance_dec : RelDecision by_zone_distance.
Proof.
  intros r1 r2. unfold by_zone_distance.
  destruct (Qlt_le_dec (zn_distance_meters r2) (zn_distance_meters r1))
    as [H|H].
  - right. apply Qlt_not_le, H.
  - left. exact H.
Defined.

(** ** Violations in an area and a time window *)

(** The columns of violations that no trigger of the scripts reads, by
    violation_id. *)
Record violation_columns : Type := mkViolationColumns {
  vc_violation_type : string;
  vc_fine_amount : Q;
  vc_issued_at : option timestamp
}.

Record violation_in_area : Type := mkViolationInArea {
  va_violation_id : Z;
  va_violation_type : string;
  va_bay_id : option Z;
  va_officer_id : Z;
  va_fine_amount : Q;
  va_issued_at : option timestamp;
  va_geojson : Geometry
}.

(** ORDER BY issued_at DESC; NULLs come first in a descending order. *)
Definition later_first (t1 t2 : option timestamp) : Prop :=
  match t1, t2 with
  | None, _ => True
  | Some _, None => False
  | Some x, Some y => (y <= x)%Z
  end.

Definition by_issued_at_desc (r1 r2 : violation_in_area) : Prop :=
  later_first (va_issued_at r1) (va_issued_at r2).

Global Instance by_issued_at_desc_dec : RelDecision by_issued_at_desc.
Proof.
  intros r1 r2. unfold by_issued_at_desc, later_first.
  destruct (va_issued_at r1), (va_issued_at r2); apply _.
Defined.

(** timestamp comparison with a nullable column: true only on a value. *)
Definition sql_ge (x : option timestamp) (v : timestamp) : bool :=
  match x with
  | Some a => (v <=? a)%Z
  | None => false
  end.

Definition sql_le (x : option timestamp) (v : timestamp) : bool :=
  match x with
  | Some a => (a <=? v)%Z
  | None => false
  end.

Section MoreQueries.
Context `{K : PostGIS}.

Definition find_zones_near (db : database) (lat lng radius_meters : Q)
    : list zone_near :=
  let center := ST_SetSRID (ST_MakePoint lng lat) 4326 in
  let selected :=
    List.filter
      (λ r : Z * parking_zone,
         sql_eq (pz_is_active r.2) true
         && ST_DWithin_geography (pz_geom r.2) center radius_meters)
      (map_to_list (parking_zones db)) in
  merge_sort by_zone_distance
    (List.map
       (λ r : Z * parking_zone,
          mkZoneNear r.1 (pz_name r.2) (pz_zone_type r.2)
                     (pz_max_duration_minutes r.2)
                     (pz_tariff_schedule_id r.2)
                     (ST_Distance_geography (pz_geom r.2) center)
                     (pz_geom r.2))
       selected).

(** ST_GeomFromGeoJSON is an argument: the geometry it reads from the
    text, or nothing when it raises on it. The result is then the error. *)
Definition find_violations_in_area
    (ST_GeomFromGeoJSON : string -> option Shape)
    (columns : Z -> violation_columns) (db : database)
    (polygon_geojson : string) (start_time end_time : timestamp)
    : option (list violation_in_area) :=
  match ST_GeomFromGeoJSON polygon_geojson with
  | None => None
  | Some parsed =>
      let search_polygon := ST_SetSRID parsed 4326 in
      let selected :=
        List.filter
          (λ r : Z * violation,
             ST_Contains search_polygon (vl_geom r.2)
             && sql_ge (vc_issued_at (columns r.1)) start_time
             && sql_le (vc_issued_at (columns r.1)) end_time)
          (map_to_list (violations db)) in
      Some (merge_sort by_issued_at_desc
              (List.map
                 (λ r : Z * violation,
                    mkViolationInArea r.1
                      (vc_violation_type (columns r.1))
                      (vl_bay_id r.2) (vl_officer_id r.2)
                      (vc_fine_amount (columns r.1))
                      (vc_issued_at (columns r.1))
                      (vl_geom r.2))
                 selected))
  end.

End MoreQueries.

(** ** What the scripts keep true of persisted rows, further *)

Section MoreInvariants.
Context `{K : PostGIS}.

(** A Polygon (resp. Point) in SRID 4326, valid where validity is checked. *)
Definition valid_polygon_4326 (g : Geometry) : Prop :=
  (exists rings, shape g = Polygon rings)
  /\ ST_SRID g = 4326%Z /\ ST_IsValid g = true.

Definition point_4326 (g : Geometry) : Prop :=
  (exists c, shape g = Point c) /\ ST_SRID g = 4326%Z.

Definition bays_are_polygons (db : database) : Prop :=
  forall bay_id b,
    parking_bays db !! bay_id = Some b -> valid_polygon_4326 (pb_geom b).


Definition issued_by_officer (db : database) (v : violation) : Prop :=
  users db !! vl_officer_id v = Some officer
  \/ users db !! vl_officer_id v = Some admin.

End MoreInvariants.

Definition is_linestring (g : Geometry) : bool :=
  String.eqb (GeometryType g) "LINESTRING".

Definition linestring_members (g : Geometry) : list Geometry :=
  List.filter is_linestring (members g).

(** The first of the candidates whose measure no other exceeds: the ones
    before it are smaller, the ones after it not greater. *)
Definition first_greatest (measure : Geometry -> Q) (l : list Geometry)
    (p : Geometry) : Prop :=
  exists before after,
    l = before ++ p :: after
    /\ (forall q, q ∈ before -> measure q < measure p)
    /\ (forall q, q ∈ after -> measure q <= measure p).

(** ** Further scenarios on the planar kernel *)
Module Scenario2.
Import Planar.

Definition line_5 : list coord := [mkCoord 0 0; mkCoord 5 0].
Definition line_9 : list coord := [mkCoord 0 0; mkCoord 9 0].
Definition line_9' : list coord := [mkCoord 0 1; mkCoord 9 1].
Definition multiline_5_9_9 : Geometry :=
  mkGeometry 4326 (MultiLineString [line_5; line_9; line_9']).

Definition issued (violation_id : Z) : violation_columns :=
  mkViolationColumns "overstay" 36
    (if (violation_id =? 3)%Z then None else Some (violation_id * 100)%Z).

Definition db_violations : database :=
  with_violations Scenario.db0
    (<[1%Z := mkViolation (Some 1%Z) 1 Scenario.at_centre]>
       (<[2%Z := mkViolation (Some 1%Z) 1 Scenario.off_by_2]>
          (<[3%Z := mkViolation (Some 1%Z) 1 Scenario.at_centre]> ∅))).

Definition read_box (text : string) : option Shape :=
  if String.eqb text "zone A" then Some (shape (rect 0 0 50 30)) else None.

End Scenario2.

(** * Properties *)

Lemma Qlt_bool_iff (x y : Q) : Qlt_bool x y = true <-> x < y.
Proof.
  unfold Qlt_bool. rewrite negb_true_iff.
  destruct (Qle_bool y x) eqn:E.
  - apply Qle_bool_iff in E. split; [discriminate|].
    intros H. exfalso. exact (Qlt_not_le _ _ H E).
  - split; [intros _|reflexivity].
    apply Qnot_le_lt. intros H. apply Qle_bool_iff in H. congruence.
Qed.

Lemma Qlt_bool_false_iff (x y : Q) : Qlt_bool x y = false <-> y <= x.
Proof.
  unfold Qlt_bool. rewrite negb_false_iff. apply Qle_bool_iff.
Qed.

Section Float8Division.
Context `{F : Float8}.

Lemma float8div_inr (x y r : Q) :
  float8div x y = inr r
  <-> ~ y == 0 /\ r = float8 (x / y) /\ Qabs r <= float8_max
      /\ (r == 0 -> x == 0).
Proof.
  unfold float8div. destruct (Qeq_bool y 0) eqn:E.
  { apply Qeq_bool_iff in E. split; [discriminate|]. intros [H _]. tauto. }
  apply Qeq_bool_neq in E. cbv zeta.
  destruct (Qlt_bool float8_max (Qabs (float8 (x / y)))) eqn:Eo.
  { apply Qlt_bool_iff in Eo. split; [discriminate|].
    intros (_ & -> & Hle & _). exfalso. exact (Qlt_not_le _ _ Eo Hle). }
  apply Qlt_bool_false_iff in Eo.
  destruct (Qeq_bool (float8 (x / y)) 0) eqn:Er,
           (Qeq_bool x 0) eqn:Ex; simpl.
  - apply Qeq_bool_iff in Ex. split.
    + intros [= <-]. auto.
    + intros (_ & -> & _). reflexivity.
  - apply Qeq_bool_iff in Er. apply Qeq_bool_neq in Ex.
    split; [discriminate|]. intros (_ & -> & _ & H). tauto.
  - apply Qeq_bool_neq in Er. split.
    + intros [= <-]. repeat split; auto. tauto.
    + intros (_ & -> & _). reflexivity.
  - apply Qeq_bool_neq in Er. split.
    + intros [= <-]. repeat split; auto. tauto.
    + intros (_ & -> & _). reflexivity.
Qed.

Lemma float8div_inl (x y : Q) (e : pg_error) :
  float8div x y = inl e
  <-> (y == 0 /\ e = division_by_zero)
      \/ (~ y == 0 /\ float8_max < Qabs (float8 (x / y))
          /\ e = float_overflow)
      \/ (~ y == 0 /\ Qabs (float8 (x / y)) <= float8_max
          /\ float8 (x / y) == 0 /\ ~ x == 0 /\ e = float_underflow).
Proof.
  unfold float8div. destruct (Qeq_bool y 0) eqn:E.
  { apply Qeq_bool_iff in E. split.
    - intros [= <-]. auto.
    - intros [[_ ->]|[(H & _)|(H & _)]]; [reflexivity|tauto|tauto]. }
  apply Qeq_bool_neq in E. cbv zeta.
  destruct (Qlt_bool float8_max (Qabs (float8 (x / y)))) eqn:Eo.
  { apply Qlt_bool_iff in Eo. split.
    - intros [= <-]. auto.
    - intros [[H _]|[(_ & _ & ->)|(_ & Hle & _)]]; [tauto|reflexivity|].
      exfalso. exact (Qlt_not_le _ _ Eo Hle). }
  apply Qlt_bool_false_iff in Eo.
  destruct (Qeq_bool (float8 (x / y)) 0) eqn:Er;
    [apply Qeq_bool_iff in Er|apply Qeq_bool_neq in Er];
    (destruct (Qeq_bool x 0) eqn:Ex;
     [apply Qeq_bool_iff in Ex|apply Qeq_bool_neq in Ex]); simpl.
  - split; [discriminate|].
    intros [[H _]|[(_ & Hlt & _)|(_ & _ & _ & H & _)]]; [tauto| |tauto].
    exfalso. exact (Qlt_not_le _ _ Hlt Eo).
  - split.
    + intros [= <-]. right. right. auto.
    + intros [[H _]|[(_ & Hlt & _)|(_ & _ & _ & _ & ->)]];
        [tauto| |reflexivity].
      exfalso. exact (Qlt_not_le _ _ Hlt Eo).
  - split; [discriminate|].
    intros [[H _]|[(_ & Hlt & _)|(_ & _ & H & _)]]; [tauto| |tauto].
    exfalso. exact (Qlt_not_le _ _ Hlt Eo).
  - split; [discriminate|].
    intros [[H _]|[(_ & Hlt & _)|(_ & _ & H & _)]]; [tauto| |tauto].
    exfalso. exact (Qlt_not_le _ _ Hlt Eo).
Qed.

(** The float8 0.9 is positive. *)
Lemma float8_ninety_percent : 1 # 2 <= float8 (9 # 10).
Proof.
  rewrite <- float8_half. apply float8_le. discriminate.
Qed.

(** A quotient in the range of the doubles that is not below the float8 0.9
    is the result of the division. *)
Lemma float8div_ratio (x y : Q) :
  ~ y == 0 ->
  float8 (9 # 10) <= float8 (x / y) <= float8_max ->
  float8div x y = inr (float8 (x / y)).
Proof.
  intros Hy [Hlo Hhi]. apply float8div_inr.
  pose proof float8_ninety_percent as Hh.
  assert (Hpos : 0 < float8 (x / y)).
  { eapply Qlt_le_trans; [|exact Hlo]. eapply Qlt_le_trans; [|exact Hh].
    reflexivity. }
  split; [exact Hy|]. split; [reflexivity|]. split.
  - rewrite Qabs_pos by (apply Qlt_le_weak, Hpos). exact Hhi.
  - intros H0. rewrite H0 in Hpos. exfalso. exact (Qlt_irrefl _ Hpos).
Qed.

End Float8Division.

Lemma column_typmod_None (table kind : string) (g : Geometry) :
  column_typmod table kind g = None
  <-> GeometryType g = kind /\ ST_SRID g = 4326%Z.
Proof.
  unfold column_typmod.
  destruct (String.eqb_spec (GeometryType g) kind) as [Hk|Hk];
    destruct (Z.eqb_spec (ST_SRID g) 4326) as [Hs|Hs]; simpl;
    split; try discriminate; try tauto.
Qed.

Lemma column_typmod_Some (table kind : string) (g : Geometry) (e : pg_error) :
  column_typmod table kind g = Some e ->
  e = geometry_does_not_match_column table
  /\ ~ (GeometryType g = kind /\ ST_SRID g = 4326%Z).
Proof.
  intros H. split.
  - unfold column_typmod in H. destruct (_ && _); congruence.
  - intros Hok. apply column_typmod_None with (table := table) in Hok.
    congruence.
Qed.

Lemma assigned_typmod_None (assigned : bool) (table kind : string)
    (g : Geometry) :
  assigned_typmod assigned table kind g = None
  <-> (assigned = true -> GeometryType g = kind /\ ST_SRID g = 4326%Z).
Proof.
  unfold assigned_typmod. destruct assigned.
  - rewrite column_typmod_None. tauto.
  - split; [discriminate|reflexivity].
Qed.

Section BayInZone.
Context `{K : PostGIS} `{F : Float8}.

Lemma validate_bay_within_zone_new (db : database) (NEW r : parking_bay) :
  validate_bay_within_zone db NEW = RETURN r -> r = NEW.
Proof.
  unfold validate_bay_within_zone.
  repeat (case_match; try discriminate); congruence.
Qed.

Lemma validate_bay_within_zone_accepts (db : database) (NEW : parking_bay) :
  validate_bay_within_zone db NEW = RETURN NEW <-> bay_in_zone db NEW.
Proof.
  unfold validate_bay_within_zone, bay_in_zone, overlaps_enough. cbv zeta.
  destruct (parking_zones db !! pb_zone_id NEW) as [z|] eqn:Hz.
  2:{ split; [discriminate|]. intros (z & ? & _). discriminate. }
  destruct (ST_Within (pb_geom NEW) (pz_geom z)) eqn:Hw; simpl.
  { split; [|reflexivity]. intros _. exists z. auto. }
  destruct (float8div _ _) as [e|ratio] eqn:Hd.
  - split; [discriminate|].
    intros (z' & [= <-] & [Hc|[Hnz Hr]]); [congruence|].
    rewrite (float8div_ratio _ _ Hnz Hr) in Hd. discriminate.
  - apply float8div_inr in Hd as (Hnz & -> & Hmax & _).
    destruct (Qlt_bool _ _) eqn:Hr.
    + apply Qlt_bool_iff in Hr. split; [discriminate|].
      intros (z' & [= <-] & [Hc|[_ [Hge _]]]); [congruence|].
      exfalso. exact (Qlt_not_le _ _ Hr Hge).
    + apply Qlt_bool_false_iff in Hr. split; [|reflexivity].
      intros _. exists z. split; [reflexivity|]. right.
      split; [exact Hnz|]. split; [exact Hr|].
      eapply Qle_trans; [apply Qle_Qabs|exact Hmax].
Qed.

Lemma validate_bay_geometry_type_new (NEW r : parking_bay) :
  validate_bay_geometry_type NEW = RETURN r -> r = NEW.
Proof.
  unfold validate_bay_geometry_type.
  repeat (case_match; try discriminate); congruence.
Qed.

Lemma validate_bay_geometry_type_typmod (NEW : parking_bay) :
  validate_bay_geometry_type NEW = RETURN NEW ->
  GeometryType (pb_geom NEW) = "POLYGON" /\ ST_SRID (pb_geom NEW) = 4326%Z.
Proof.
  unfold validate_bay_geometry_type.
  destruct (String.eqb_spec (GeometryType (pb_geom NEW)) "POLYGON") as [Hk|Hk];
    simpl; [|discriminate].
  destruct (Z.eqb_spec (ST_SRID (pb_geom NEW)) 4326) as [Hs|Hs];
    simpl; [|discriminate].
  auto.
Qed.

Lemma bay_in_zone_same_zones (db db' : database) (b : parking_bay) :
  parking_zones db' = parking_zones db -> bay_in_zone db b -> bay_in_zone db' b.
Proof. unfold bay_in_zone. intros ->. auto. Qed.

Lemma bays_in_zones_insert (db : database) (bay_id : Z) (b : parking_bay) :
  bay_in_zone db b -> bays_in_zones db ->
  bays_in_zones (with_parking_bays db (<[bay_id := b]> (parking_bays db))).
Proof.
  intros Hb Hall k b' Hk. simpl in Hk.
  apply (bay_in_zone_same_zones db); [reflexivity|].
  destruct (decide (bay_id = k)) as [->|Hne].
  - rewrite lookup_insert_eq in Hk. congruence.
  - rewrite lookup_insert_ne in Hk by done. eauto.
Qed.

Lemma INSERT_parking_bays_inv (db db' : database) (bay_id : Z)
    (row : parking_bay) :
  INSERT_parking_bays db bay_id row = inr db' ->
  validate_bay_geometry_type row = RETURN row
  /\ bay_in_zone db row
  /\ parking_bays db !! bay_id = None
  /\ db' = with_parking_bays db (<[bay_id := row]> (parking_bays db)).
Proof.
  unfold INSERT_parking_bays, and_then.
  destruct (column_typmod _ _ _) as [e|]; [discriminate|].
  destruct (validate_bay_geometry_type row) as [r1|] eqn:E1; [|discriminate].
  apply validate_bay_geometry_type_new in E1 as ->.
  destruct (validate_bay_within_zone db row) as [r2|] eqn:E2; [|discriminate].
  pose proof (validate_bay_within_zone_new _ _ _ E2) as ->.
  apply validate_bay_within_zone_accepts in E2.
  destruct (parking_bays db !! bay_id); [discriminate|].
  intros [= <-]. auto.
Qed.

Lemma INSERT_parking_bays_accepts (db : database) (bay_id : Z)
    (row : parking_bay) :
  validate_bay_geometry_type row = RETURN row ->
  parking_bays db !! bay_id = None ->
  bay_in_zone db row ->
  INSERT_parking_bays db bay_id row
  = inr (with_parking_bays db (<[bay_id := row]> (parking_bays db))).
Proof.
  intros Ht Hfresh Hin. unfold INSERT_parking_bays, and_then.
  rewrite (proj2 (column_typmod_None _ _ _)
             (validate_bay_geometry_type_typmod _ Ht)).
  rewrite Ht. apply validate_bay_within_zone_accepts in Hin.
  rewrite Hin, Hfresh. reflexivity.
Qed.

Lemma UPDATE_parking_bays_inv (db db' : database) (bay_id : Z)
    (a : bay_assignment) :
  UPDATE_parking_bays db bay_id a = inr db' ->
  (parking_bays db !! bay_id = None /\ db' = db)
  \/ exists OLD, parking_bays db !! bay_id = Some OLD
       /\ db' = with_parking_bays db
                  (<[bay_id := assign_bay a OLD]> (parking_bays db))
       /\ (is_Some (set_pb_geom a) \/ is_Some (set_pb_zone_id a) ->
           bay_in_zone db (assign_bay a OLD)).
Proof.
  unfold UPDATE_parking_bays.
  destruct (parking_bays db !! bay_id) as [OLD|]; [|intros [= <-]; auto].
  cbv zeta. destruct (assigned_typmod _ _ _ _) as [e|]; [discriminate|].
  intros H. right. exists OLD. split; [reflexivity|].
  unfold and_then, when in H.
  destruct (set_pb_geom a) as [g|] eqn:Hg, (set_pb_zone_id a) as [z|] eqn:Hzid;
    simpl in H;
    rewrite ?bool_decide_eq_true_2, ?bool_decide_eq_false_2 in H
      by (eauto || apply is_Some_None);
    simpl in H;
    try (destruct (validate_bay_geometry_type _) as [r1|] eqn:E1;
         [apply validate_bay_geometry_type_new in E1 as ->|discriminate];
         simpl in H);
    try (destruct (validate_bay_within_zone db _) as [r2|] eqn:E2;
         [pose proof (validate_bay_within_zone_new _ _ _ E2) as ->;
          apply validate_bay_within_zone_accepts in E2|discriminate]);
    injection H as <-; (split; [reflexivity|]); intros Hs; auto.
  destruct Hs as [[? ?]|[? ?]]; discriminate.
Qed.

Lemma UPDATE_parking_bays_accepts (db : database) (bay_id : Z)
    (a : bay_assignment) (OLD : parking_bay) :
  parking_bays db !! bay_id = Some OLD ->
  (is_Some (set_pb_geom a) ->
   validate_bay_geometry_type (assign_bay a OLD) = RETURN (assign_bay a OLD)) ->
  (is_Some (set_pb_geom a) \/ is_Some (set_pb_zone_id a) ->
   bay_in_zone db (assign_bay a OLD)) ->
  UPDATE_parking_bays db bay_id a
  = inr (with_parking_bays db
           (<[bay_id := assign_bay a OLD]> (parking_bays db))).
Proof.
  intros HO Ht Hin. unfold UPDATE_parking_bays. rewrite HO. cbv zeta.
  set (NEW := assign_bay a OLD) in *.
  rewrite (proj2 (assigned_typmod_None _ _ _ _)).
  2:{ intros E. apply bool_decide_eq_true in E.
      apply validate_bay_geometry_type_typmod; auto. }
  assert (E2 : when (bool_decide (is_Some (set_pb_geom a)))
                 validate_bay_geometry_type NEW = RETURN NEW).
  { unfold when. case_bool_decide; auto. }
  rewrite E2. unfold and_then.
  assert (E3 : when (bool_decide (is_Some (set_pb_geom a))
                     || bool_decide (is_Some (set_pb_zone_id a)))
                 (validate_bay_within_zone db) NEW = RETURN NEW).
  { unfold when. destruct (_ || _) eqn:E; [|reflexivity].
    apply validate_bay_within_zone_accepts, Hin.
    apply orb_true_iff in E as [E|E]; apply bool_decide_eq_true in E; auto. }
  rewrite E3. reflexivity.
Qed.

End BayInZone.

Section BayInZoneClaim.
Context `{K : PostGIS} `{F : Float8}.

Lemma validate_bay_within_zone_cases (db : database) (NEW : parking_bay)
    (zone : parking_zone) :
  parking_zones db !! pb_zone_id NEW = Some zone ->
  let inside := ST_Within (pb_geom NEW) (pz_geom zone) in
  let a_bay := ST_Area (pb_geom NEW) in
  let a_common := ST_Area (ST_Intersection (pb_geom NEW) (pz_geom zone)) in
  let overlap_ratio := float8 (a_common / a_bay) in
  (inside = true -> validate_bay_within_zone db NEW = RETURN NEW)
  /\ (inside = false -> ~ a_bay == 0 ->
      float8 (9 # 10) <= overlap_ratio <= float8_max ->
      validate_bay_within_zone db NEW = RETURN NEW)
  /\ (inside = false -> ~ a_bay == 0 ->
      9 # 10 <= a_common / a_bay <= float8_max ->
      validate_bay_within_zone db NEW = RETURN NEW)
  /\ (inside = false -> ~ a_bay == 0 ->
      overlap_ratio < float8 (9 # 10) ->
      exists e, validate_bay_within_zone db NEW = RAISE e)
  /\ (inside = false -> ~ a_bay == 0 ->
      Qabs overlap_ratio <= float8_max ->
      (overlap_ratio == 0 -> a_common == 0) ->
      overlap_ratio < float8 (9 # 10) ->
      validate_bay_within_zone db NEW =
        RAISE (bay_overlaps_zone_by_less_than_90 (pz_name zone)
                 (pb_zone_id NEW)))
  /\ (inside = false -> ~ a_bay == 0 ->
      float8_max < Qabs overlap_ratio ->
      validate_bay_within_zone db NEW = RAISE float_overflow)
  /\ (inside = false -> ~ a_bay == 0 ->
      Qabs overlap_ratio <= float8_max ->
      overlap_ratio == 0 -> ~ a_common == 0 ->
      validate_bay_within_zone db NEW = RAISE float_underflow)
  /\ (inside = false -> a_bay == 0 ->
      validate_bay_within_zone db NEW = RAISE division_by_zero).
Proof.
  intros Hz inside a_bay a_common overlap_ratio.
  unfold validate_bay_within_zone.
  rewrite Hz. cbv zeta. fold inside a_bay a_common.
  assert (Hge : inside = false -> ~ a_bay == 0 ->
                float8 (9 # 10) <= overlap_ratio <= float8_max ->
                (if negb inside
                 then match float8div a_common a_bay with
                      | inl e => RAISE e
                      | inr ratio =>
                          if Qlt_bool ratio (float8 (9 # 10))
                          then RAISE (bay_overlaps_zone_by_less_than_90
                                        (pz_name zone) (pb_zone_id NEW))
                          else RETURN NEW
                      end
                 else RETURN NEW) = RETURN NEW).
  { intros -> Hnz Hr. simpl.
    rewrite (float8div_ratio _ _ Hnz Hr). fold overlap_ratio.
    rewrite (proj2 (Qlt_bool_false_iff _ _) (proj1 Hr)). reflexivity. }
  assert (Herr : forall e, float8div a_common a_bay = inl e ->
                 inside = false ->
                 (if negb inside
                  then match float8div a_common a_bay with
                       | inl e => RAISE e
                       | inr ratio =>
                           if Qlt_bool ratio (float8 (9 # 10))
                           then RAISE (bay_overlaps_zone_by_less_than_90
                                         (pz_name zone) (pb_zone_id NEW))
                           else RETURN NEW
                       end
                  else RETURN NEW) = RAISE e).
  { intros e He ->. simpl. rewrite He. reflexivity. }
  assert (Hlow : inside = false -> ~ a_bay == 0 ->
                 Qabs overlap_ratio <= float8_max ->
                 (overlap_ratio == 0 -> a_common == 0) ->
                 overlap_ratio < float8 (9 # 10) ->
                 (if negb inside
                  then match float8div a_common a_bay with
                       | inl e => RAISE e
                       | inr ratio =>
                           if Qlt_bool ratio (float8 (9 # 10))
                           then RAISE (bay_overlaps_zone_by_less_than_90
                                         (pz_name zone) (pb_zone_id NEW))
                           else RETURN NEW
                       end
                  else RETURN NEW)
                 = RAISE (bay_overlaps_zone_by_less_than_90 (pz_name zone)
                            (pb_zone_id NEW))).
  { intros -> Hnz Hmax Hzero Hlt. simpl.
    rewrite (proj2 (float8div_inr a_common a_bay overlap_ratio)) by auto.
    rewrite (proj2 (Qlt_bool_iff _ _) Hlt). reflexivity. }
  split; [intros ->; reflexivity|].
  split; [exact Hge|].
  split.
  { intros Hi Hnz [Hlo Hhi]. apply Hge; [done|done|]. split.
    - apply float8_le, Hlo.
    - rewrite <- float8_max_max. apply float8_le, Hhi. }
  split.
  { intros Hi Hnz Hlt.
    destruct (float8div a_common a_bay) as [e|r] eqn:Hd.
    - exists e. rewrite Hi. reflexivity.
    - rewrite Hi. cbn [negb].
      apply float8div_inr in Hd as (_ & -> & Hmax & Hzero).
      fold overlap_ratio. rewrite (proj2 (Qlt_bool_iff _ _) Hlt). eauto. }
  split; [exact Hlow|].
  split.
  { intros Hi Hnz Hover. apply Herr; [|done]. apply float8div_inl. auto. }
  split.
  { intros Hi Hnz Hmax Hzero Hx. apply Herr; [|done].
    apply float8div_inl. right. right. auto. }
  intros Hi Hz0. apply Herr; [|done]. apply float8div_inl. auto.
Qed.

Lemma bay_in_zone_assign_same (db : database) (a : bay_assignment)
    (OLD : parking_bay) :
  set_pb_geom a = None -> set_pb_zone_id a = None ->
  bay_in_zone db OLD -> bay_in_zone db (assign_bay a OLD).
Proof.
  unfold bay_in_zone, assign_bay. intros -> ->. simpl. auto.
Qed.

Lemma UPDATE_parking_bays_keeps (db db' : database) (bay_id : Z)
    (a : bay_assignment) :
  UPDATE_parking_bays db bay_id a = inr db' ->
  bays_in_zones db -> bays_in_zones db'.
Proof.
  intros H Hall.
  apply UPDATE_parking_bays_inv in H as [[_ ->]|(OLD & HO & -> & Hchk)]; [done|].
  apply bays_in_zones_insert; [|done].
  destruct (set_pb_geom a) as [g|] eqn:Hg.
  { apply Hchk. left. eauto. }
  destruct (set_pb_zone_id a) as [z|] eqn:Hzid.
  { apply Hchk. right. eauto. }
  apply bay_in_zone_assign_same; eauto.
Qed.

(** C1, as the triggers have it. A write of a bay's geometry or zone
    reference passes validate_bay_within_zone when the bay is within its
    zone, else when the float8 quotient of the intersection's area by the
    bay's area is not below the float8 0.9, as it is whenever the exact
    quotient is at least 0.90 and in the range of the doubles; it is
    rejected otherwise, as it is when the zone does not exist or the
    division raises. An INSERT or UPDATE of a bay that conforms is accepted
    and stores the row; an accepted one leaves the written bay, and every
    bay already conforming, fully contained in or overlapping by at least
    90% its zone as the zone is at that write. The check belongs to the
    writes of bays only: a later write of the zone's polygon is not checked
    against the bays of the zone. *)
Theorem bay_write_is_checked_against_zone (db : database)
    (NEW : parking_bay) :
  (forall zone, parking_zones db !! pb_zone_id NEW = Some zone ->
     let inside := ST_Within (pb_geom NEW) (pz_geom zone) in
     let a_bay := ST_Area (pb_geom NEW) in
     let a_common := ST_Area (ST_Intersection (pb_geom NEW) (pz_geom zone)) in
     let overlap_ratio := float8 (a_common / a_bay) in
     (inside = true -> validate_bay_within_zone db NEW = RETURN NEW)
     /\ (inside = false -> ~ a_bay == 0 ->
         float8 (9 # 10) <= overlap_ratio <= float8_max ->
         validate_bay_within_zone db NEW = RETURN NEW)
     /\ (inside = false -> ~ a_bay == 0 ->
         9 # 10 <= a_common / a_bay <= float8_max ->
         validate_bay_within_zone db NEW = RETURN NEW)
     /\ (inside = false -> ~ a_bay == 0 ->
         overlap_ratio < float8 (9 # 10) ->
         exists e, validate_bay_within_zone db NEW = RAISE e)
     /\ (inside = false -> ~ a_bay == 0 ->
         Qabs overlap_ratio <= float8_max ->
         (overlap_ratio == 0 -> a_common == 0) ->
         overlap_ratio < float8 (9 # 10) ->
         validate_bay_within_zone db NEW =
           RAISE (bay_overlaps_zone_by_less_than_90 (pz_name zone)
                    (pb_zone_id NEW)))
     /\ (inside = false -> ~ a_bay == 0 ->
         float8_max < Qabs overlap_ratio ->
         validate_bay_within_zone db NEW = RAISE float_overflow)
     /\ (inside = false -> ~ a_bay == 0 ->
         Qabs overlap_ratio <= float8_max ->
         overlap_ratio == 0 -> ~ a_common == 0 ->
         validate_bay_within_zone db NEW = RAISE float_underflow)
     /\ (inside = false -> a_bay == 0 ->
         validate_bay_within_zone db NEW = RAISE division_by_zero))
  /\ (parking_zones db !! pb_zone_id NEW = None ->
      validate_bay_within_zone db NEW =
        RAISE (zone_does_not_exist (pb_zone_id NEW)))
  /\ (forall bay_id db',
        INSERT_parking_bays db bay_id NEW = inr db' ->
        parking_bays db' !! bay_id = Some NEW
        /\ bay_in_zone db' NEW
        /\ (bays_in_zones db -> bays_in_zones db'))
  /\ (forall bay_id,
        ~ bay_in_zone db NEW ->
        exists e, INSERT_parking_bays db bay_id NEW = inl e)
  /\ (forall bay_id,
        validate_bay_geometry_type NEW = RETURN NEW ->
        parking_bays db !! bay_id = None ->
        bay_in_zone db NEW ->
        INSERT_parking_bays db bay_id NEW
        = inr (with_parking_bays db (<[bay_id := NEW]> (parking_bays db))))
  /\ (forall bay_id a db',
        UPDATE_parking_bays db bay_id a = inr db' ->
        (is_Some (set_pb_geom a) \/ is_Some (set_pb_zone_id a) ->
         forall b, parking_bays db' !! bay_id = Some b -> bay_in_zone db' b)
        /\ (bays_in_zones db -> bays_in_zones db'))
  /\ (forall bay_id a OLD,
        parking_bays db !! bay_id = Some OLD ->
        is_Some (set_pb_geom a) \/ is_Some (set_pb_zone_id a) ->
        ~ bay_in_zone db (assign_bay a OLD) ->
        exists e, UPDATE_parking_bays db bay_id a = inl e)
  /\ (forall bay_id a OLD,
        parking_bays db !! bay_id = Some OLD ->
        (is_Some (set_pb_geom a) ->
         validate_bay_geometry_type (assign_bay a OLD)
         = RETURN (assign_bay a OLD)) ->
        (is_Some (set_pb_geom a) \/ is_Some (set_pb_zone_id a) ->
         bay_in_zone db (assign_bay a OLD)) ->
        UPDATE_parking_bays db bay_id a
        = inr (with_parking_bays db
                 (<[bay_id := assign_bay a OLD]> (parking_bays db))))
  /\ (forall bay_id a,
        parking_bays db !! bay_id = None ->
        UPDATE_parking_bays db bay_id a = inr db).
Proof.
  split; [apply validate_bay_within_zone_cases|].
  split.
  { intros Hz. unfold validate_bay_within_zone. rewrite Hz. reflexivity. }
  split.
  { intros bay_id db' H.
    apply INSERT_parking_bays_inv in H as (_ & Hin & Hfresh & ->).
    split; [simpl; apply lookup_insert_eq|].
    split; [eapply bay_in_zone_same_zones; [reflexivity|exact Hin]|].
    apply bays_in_zones_insert, Hin. }
  split.
  { intros bay_id Hno.
    destruct (INSERT_parking_bays db bay_id NEW) as [e|db'] eqn:E; [eauto|].
    apply INSERT_parking_bays_inv in E as (_ & Hin & _). tauto. }
  split.
  { intros bay_id. apply INSERT_parking_bays_accepts. }
  split.
  { intros bay_id a db' H. split; [|eapply UPDATE_parking_bays_keeps, H].
    intros Hset b Hb.
    apply UPDATE_parking_bays_inv in H as [[Hnone ->]|(OLD & HO & -> & Hchk)].
    - congruence.
    - simpl in Hb. rewrite lookup_insert_eq in Hb. injection Hb as <-.
      eapply bay_in_zone_same_zones; [reflexivity|auto]. }
  split.
  { intros bay_id a OLD HO Hset Hno.
    destruct (UPDATE_parking_bays db bay_id a) as [e|db'] eqn:E; [eauto|].
    apply UPDATE_parking_bays_inv in E as [[Hnone _]|(OLD' & HO' & _ & Hchk)].
    - congruence.
    - rewrite HO in HO'. injection HO' as <-. tauto. }
  split.
  { intros bay_id a OLD. apply UPDATE_parking_bays_accepts. }
  intros bay_id a Hnone. unfold UPDATE_parking_bays. rewrite Hnone.
  reflexivity.
Qed.

End BayInZoneClaim.

Lemma bay_write_is_checked_against_zone_witness :
  validate_bay_within_zone (K := Planar.kernel) (F := Planar.exact)
    Scenario.db0 Scenario.bay_inside
    = RETURN Scenario.bay_inside
  /\ validate_bay_within_zone (K := Planar.kernel) (F := Planar.exact)
       Scenario.db0 Scenario.bay_90
     = RETURN Scenario.bay_90
  /\ validate_bay_within_zone (K := Planar.kernel) (F := Planar.exact)
       Scenario.db0 Scenario.bay_80
     = RAISE (bay_overlaps_zone_by_less_than_90 "Lot A" 1)
  /\ validate_bay_within_zone (K := Planar.kernel) (F := Planar.exact)
       Scenario.db0 Scenario.bay_orphan
     = RAISE (zone_does_not_exist 9)
  /\ INSERT_parking_bays (K := Planar.kernel) (F := Planar.exact)
       Scenario.db0 2 Scenario.bay_90
     = inr (with_parking_bays Scenario.db0
              (<[2%Z := Scenario.bay_90]> (parking_bays Scenario.db0)))
  /\ UPDATE_parking_bays (K := Planar.kernel) (F := Planar.exact)
       Scenario.db0 1
       (mkBaySet (Some (pb_geom Scenario.bay_90)) None None)
     = inr (with_parking_bays Scenario.db0
              (<[1%Z := assign_bay
                          (mkBaySet (Some (pb_geom Scenario.bay_90)) None None)
                          Scenario.bay_inside]>
                 (parking_bays Scenario.db0))).
Proof.
  assert (Hz : parking_zones Scenario.db0 !! 1%Z = Some Scenario.zone_A)
    by (vm_compute; reflexivity).
  split; [|split; [|split; [|split; [|split]]]].
  - destruct (bay_write_is_checked_against_zone (K := Planar.kernel)
                (F := Planar.exact) Scenario.db0 Scenario.bay_inside)
      as [H _].
    destruct (H Scenario.zone_A Hz) as (H1 & _).
    apply H1. vm_compute. reflexivity.
  - destruct (bay_write_is_checked_against_zone (K := Planar.kernel)
                (F := Planar.exact) Scenario.db0 Scenario.bay_90) as [H _].
    destruct (H Scenario.zone_A Hz) as (_ & _ & H2 & _).
    apply H2.
    + vm_compute. reflexivity.
    + vm_compute. discriminate.
    + split; vm_compute; discriminate.
  - destruct (bay_write_is_checked_against_zone (K := Planar.kernel)
                (F := Planar.exact) Scenario.db0 Scenario.bay_80) as [H _].
    destruct (H Scenario.zone_A Hz) as (_ & _ & _ & _ & H3 & _).
    apply H3.
    + vm_compute. reflexivity.
    + vm_compute. discriminate.
    + vm_compute. discriminate.
    + intros H0. vm_compute in H0. discriminate H0.
    + vm_compute. reflexivity.
  - destruct (bay_write_is_checked_against_zone (K := Planar.kernel)
                (F := Planar.exact) Scenario.db0 Scenario.bay_orphan)
      as (_ & H & _).
    apply H. vm_compute. reflexivity.
  - destruct (bay_write_is_checked_against_zone (K := Planar.kernel)
                (F := Planar.exact) Scenario.db0 Scenario.bay_90)
      as (_ & _ & _ & _ & H & _).
    apply H.
    + vm_compute. reflexivity.
    + vm_compute. reflexivity.
    + apply validate_bay_within_zone_accepts. vm_compute. reflexivity.
  - destruct (bay_write_is_checked_against_zone (K := Planar.kernel)
                (F := Planar.exact) Scenario.db0 Scenario.bay_inside)
      as (_ & _ & _ & _ & _ & _ & _ & H & _).
    apply H.
    + vm_compute. reflexivity.
    + intros _. vm_compute. reflexivity.
    + intros _. apply validate_bay_within_zone_accepts. vm_compute.
      reflexivity.
Defined.

(** Not every persisted bay is within its zone. Bay 10 is stored by an
    accepted INSERT inside zone 1, and every bay is then within its zone;
    the UPDATE that moves the polygon of zone 1 away is accepted, and the
    bay stays as it was, now outside its zone, where the trigger would
    reject it. *)
Lemma bay_outlives_its_zone_polygon :
  let moved := mkZoneSet (Some (Planar.rect 100 0 150 30)) None in
  exists db1 db2,
    INSERT_parking_bays (K := Planar.kernel) (F := Planar.exact)
      Scenario.db0 10 Scenario.bay_inside = inr db1
    /\ bays_in_zones (K := Planar.kernel) (F := Planar.exact) db1
    /\ UPDATE_parking_zones (K := Planar.kernel) db1 1 moved = inr db2
    /\ parking_bays db2 !! 10%Z = Some Scenario.bay_inside
    /\ ~ bay_in_zone (K := Planar.kernel) (F := Planar.exact) db2
           Scenario.bay_inside
    /\ ~ bays_in_zones (K := Planar.kernel) (F := Planar.exact) db2
    /\ validate_bay_within_zone (K := Planar.kernel) (F := Planar.exact)
         db2 Scenario.bay_inside
       = RAISE (bay_overlaps_zone_by_less_than_90 "Lot A" 1).
Proof.
  intros moved.
  set (db1 := with_parking_bays Scenario.db0
                (<[10%Z := Scenario.bay_inside]>
                   (parking_bays Scenario.db0))).
  set (db2 := with_parking_zones db1
                (<[1%Z := assign_zone moved Scenario.zone_A]>
                   (parking_zones db1))).
  assert (Hr : validate_bay_within_zone (K := Planar.kernel)
                 (F := Planar.exact) db2 Scenario.bay_inside
               = RAISE (bay_overlaps_zone_by_less_than_90 "Lot A" 1))
    by (vm_compute; reflexivity).
  assert (Hb : parking_bays db2 !! 10%Z = Some Scenario.bay_inside)
    by (vm_compute; reflexivity).
  assert (Hno : ~ bay_in_zone (K := Planar.kernel) (F := Planar.exact) db2
                    Scenario.bay_inside).
  { intros Hin. apply validate_bay_within_zone_accepts in Hin.
    rewrite Hr in Hin. discriminate. }
  exists db1, db2.
  split; [vm_compute; reflexivity|].
  split.
  { intros k b Hk. apply validate_bay_within_zone_accepts.
    apply elem_of_map_to_list, list_elem_of_In in Hk.
    vm_compute in Hk.
    repeat (destruct Hk as [[= <- <-]|Hk]; [vm_compute; reflexivity|]).
    destruct Hk. }
  split; [vm_compute; reflexivity|].
  split; [exact Hb|].
  split; [exact Hno|].
  split; [|exact Hr].
  intros Hall. exact (Hno (Hall _ _ Hb)).
Qed.

Section SensorNearBay.
Context `{K : PostGIS} `{F : Float8}.

Lemma validate_sensor_near_bay_new (db : database) (NEW r : sensor) :
  validate_sensor_near_bay db NEW = RETURN r -> r = NEW.
Proof.
  unfold validate_sensor_near_bay.
  repeat (case_match; try discriminate); congruence.
Qed.

Lemma validate_sensor_geometry_type_new (NEW r : sensor) :
  validate_sensor_geometry_type NEW = RETURN r -> r = NEW.
Proof.
  unfold validate_sensor_geometry_type.
  repeat (case_match; try discriminate); congruence.
Qed.

Lemma validate_sensor_near_bay_cases (db : database) (NEW : sensor)
    (bay_id : Z) (bay : parking_bay) :
  sn_bay_id NEW = Some bay_id ->
  parking_bays db !! bay_id = Some bay ->
  let inside := ST_Within (sn_geom NEW) (pb_geom bay) in
  let d := ST_Distance_geography (sn_geom NEW) (pb_geom bay) in
  (inside = true -> validate_sensor_near_bay db NEW = RETURN NEW)
  /\ (inside = false -> d <= 3 -> validate_sensor_near_bay db NEW = RETURN NEW)
  /\ (inside = false -> 3 < d ->
      validate_sensor_near_bay db NEW
      = RAISE (sensor_must_be_within 3 (ROUND2 (float8_numeric d)))).
Proof.
  intros Hid Hbay inside d. unfold validate_sensor_near_bay.
  rewrite Hid, Hbay. fold inside d. repeat split.
  - intros ->. reflexivity.
  - intros -> Hle. rewrite (proj2 (Qlt_bool_false_iff _ _) Hle). reflexivity.
  - intros -> Hlt. rewrite (proj2 (Qlt_bool_iff _ _) Hlt). reflexivity.
Qed.

Lemma validate_sensor_near_bay_accepts (db : database) (NEW : sensor) :
  validate_sensor_near_bay db NEW = RETURN NEW <-> sensor_near_its_bay db NEW.
Proof.
  unfold sensor_near_its_bay, near_bay.
  destruct (sn_bay_id NEW) as [bay_id|] eqn:Hid.
  2:{ unfold validate_sensor_near_bay. rewrite Hid. tauto. }
  destruct (parking_bays db !! bay_id) as [bay|] eqn:Hbay.
  2:{ unfold validate_sensor_near_bay. rewrite Hid, Hbay.
      split; [discriminate|]. intros (? & ? & _). discriminate. }
  destruct (validate_sensor_near_bay_cases db NEW bay_id bay Hid Hbay)
    as (Hin & Hnear & Hfar).
  destruct (ST_Within (sn_geom NEW) (pb_geom bay)) eqn:Hw.
  { split; [|auto]. intros _. exists bay. auto. }
  destruct (Qlt_le_dec 3 (ST_Distance_geography (sn_geom NEW) (pb_geom bay)))
    as [Hlt|Hle].
  - rewrite Hfar by done. split; [discriminate|].
    intros (bay' & [= <-] & [Hc|Hc]); [congruence|].
    exfalso. exact (Qlt_not_le _ _ Hlt Hc).
  - split; [|auto]. intros _. exists bay. auto.
Qed.

Lemma validate_sensor_geometry_type_typmod (NEW : sensor) :
  validate_sensor_geometry_type NEW = RETURN NEW ->
  GeometryType (sn_geom NEW) = "POINT" /\ ST_SRID (sn_geom NEW) = 4326%Z.
Proof.
  unfold validate_sensor_geometry_type.
  destruct (String.eqb_spec (GeometryType (sn_geom NEW)) "POINT") as [Hk|Hk];
    simpl; [|discriminate].
  destruct (Z.eqb_spec (ST_SRID (sn_geom NEW)) 4326) as [Hs|Hs];
    simpl; [|discriminate].
  auto.
Qed.

Lemma INSERT_sensors_accepts (db : database) (sensor_id : Z) (row : sensor) :
  validate_sensor_geometry_type row = RETURN row ->
  sensors db !! sensor_id = None ->
  sensor_near_its_bay db row ->
  INSERT_sensors db sensor_id row
  = inr (with_sensors db (<[sensor_id := row]> (sensors db))).
Proof.
  intros Ht Hfresh Hnear. unfold INSERT_sensors, and_then.
  rewrite (proj2 (column_typmod_None _ _ _)
             (validate_sensor_geometry_type_typmod _ Ht)).
  apply validate_sensor_near_bay_accepts in Hnear.
  rewrite Ht, Hnear, Hfresh. reflexivity.
Qed.

Lemma INSERT_sensors_inv (db db' : database) (sensor_id : Z) (row : sensor) :
  INSERT_sensors db sensor_id row = inr db' ->
  validate_sensor_geometry_type row = RETURN row
  /\ sensor_near_its_bay db row
  /\ sensors db !! sensor_id = None
  /\ db' = with_sensors db (<[sensor_id := row]> (sensors db)).
Proof.
  unfold INSERT_sensors, and_then.
  destruct (column_typmod _ _ _) as [e|]; [discriminate|].
  destruct (validate_sensor_geometry_type row) as [r1|] eqn:E1; [|discriminate].
  apply validate_sensor_geometry_type_new in E1 as ->.
  destruct (validate_sensor_near_bay db row) as [r2|] eqn:E2; [|discriminate].
  pose proof (validate_sensor_near_bay_new _ _ _ E2) as ->.
  apply validate_sensor_near_bay_accepts in E2.
  destruct (sensors db !! sensor_id); [discriminate|].
  intros [= <-]. auto.
Qed.

Lemma UPDATE_sensors_inv (db db' : database) (sensor_id : Z)
    (a : sensor_assignment) :
  UPDATE_sensors db sensor_id a = inr db' ->
  (sensors db !! sensor_id = None /\ db' = db)
  \/ exists OLD, sensors db !! sensor_id = Some OLD
       /\ db' = with_sensors db
                  (<[sensor_id := assign_sensor a OLD]> (sensors db))
       /\ (is_Some (set_sn_geom a) \/ is_Some (set_sn_bay_id a) ->
           sensor_near_its_bay db (assign_sensor a OLD)).
Proof.
  unfold UPDATE_sensors.
  destruct (sensors db !! sensor_id) as [OLD|]; [|intros [= <-]; auto].
  cbv zeta. destruct (assigned_typmod _ _ _ _) as [e|]; [discriminate|].
  intros H. right. exists OLD. split; [reflexivity|].
  unfold and_then, when in H.
  destruct (set_sn_geom a) as [g|] eqn:Hg, (set_sn_bay_id a) as [z|] eqn:Hzid;
    simpl in H;
    rewrite ?bool_decide_eq_true_2, ?bool_decide_eq_false_2 in H
      by (eauto || apply is_Some_None);
    simpl in H;
    try (destruct (validate_sensor_geometry_type _) as [r1|] eqn:E1;
         [apply validate_sensor_geometry_type_new in E1 as ->|discriminate];
         simpl in H);
    try (destruct (validate_sensor_near_bay db _) as [r2|] eqn:E2;
         [pose proof (validate_sensor_near_bay_new _ _ _ E2) as ->;
          apply validate_sensor_near_bay_accepts in E2|discriminate]);
    injection H as <-; (split; [reflexivity|]); intros Hs; auto.
  destruct Hs as [[? ?]|[? ?]]; discriminate.
Qed.

Lemma UPDATE_sensors_accepts (db : database) (sensor_id : Z)
    (a : sensor_assignment) (OLD : sensor) :
  sensors db !! sensor_id = Some OLD ->
  (is_Some (set_sn_geom a) ->
   validate_sensor_geometry_type (assign_sensor a OLD)
   = RETURN (assign_sensor a OLD)) ->
  (is_Some (set_sn_geom a) \/ is_Some (set_sn_bay_id a) ->
   sensor_near_its_bay db (assign_sensor a OLD)) ->
  UPDATE_sensors db sensor_id a
  = inr (with_sensors db (<[sensor_id := assign_sensor a OLD]> (sensors db))).
Proof.
  intros HO Ht Hnear. unfold UPDATE_sensors. rewrite HO. cbv zeta.
  set (NEW := assign_sensor a OLD) in *.
  rewrite (proj2 (assigned_typmod_None _ _ _ _)).
  2:{ intros E. apply bool_decide_eq_true in E.
      apply validate_sensor_geometry_type_typmod; auto. }
  assert (E2 : when (bool_decide (is_Some (set_sn_geom a)))
                 validate_sensor_geometry_type NEW = RETURN NEW).
  { unfold when. case_bool_decide; auto. }
  rewrite E2. unfold and_then.
  assert (E3 : when (bool_decide (is_Some (set_sn_geom a))
                     || bool_decide (is_Some (set_sn_bay_id a)))
                 (validate_sensor_near_bay db) NEW = RETURN NEW).
  { unfold when. destruct (_ || _) eqn:E; [|reflexivity].
    apply validate_sensor_near_bay_accepts, Hnear.
    apply orb_true_iff in E as [E|E]; apply bool_decide_eq_true in E; auto. }
  rewrite E3. reflexivity.
Qed.

(** C2. A write of a sensor's geometry or bay reference passes
    validate_sensor_near_bay without any check when the sensor has no bay;
    with a bay it passes when the point is within the bay polygon, else when
    its geodesic distance to the polygon is at most 3.0 m, and is rejected
    otherwise (so at 4 m outside). An INSERT or UPDATE of a sensor that
    passes is accepted and stores the row, one that does not is rejected. *)
Theorem sensor_write_is_checked_against_bay (db : database) (NEW : sensor) :
  (sn_bay_id NEW = None ->
     validate_sensor_near_bay db NEW = RETURN NEW
     /\ forall sensor_id,
          validate_sensor_geometry_type NEW = RETURN NEW ->
          sensors db !! sensor_id = None ->
          INSERT_sensors db sensor_id NEW
          = inr (with_sensors db (<[sensor_id := NEW]> (sensors db))))
  /\ (forall bay_id bay,
        sn_bay_id NEW = Some bay_id ->
        parking_bays db !! bay_id = Some bay ->
        let inside := ST_Within (sn_geom NEW) (pb_geom bay) in
        let d := ST_Distance_geography (sn_geom NEW) (pb_geom bay) in
        (inside = true -> validate_sensor_near_bay db NEW = RETURN NEW)
        /\ (inside = false -> d <= 3 ->
            validate_sensor_near_bay db NEW = RETURN NEW)
        /\ (inside = false -> 3 < d ->
            validate_sensor_near_bay db NEW
            = RAISE (sensor_must_be_within 3 (ROUND2 (float8_numeric d)))))
  /\ (forall sensor_id db',
        INSERT_sensors db sensor_id NEW = inr db' ->
        sensors db' !! sensor_id = Some NEW /\ sensor_near_its_bay db' NEW)
  /\ (forall sensor_id,
        ~ sensor_near_its_bay db NEW ->
        exists e, INSERT_sensors db sensor_id NEW = inl e)
  /\ (forall sensor_id,
        validate_sensor_geometry_type NEW = RETURN NEW ->
        sensors db !! sensor_id = None ->
        sensor_near_its_bay db NEW ->
        INSERT_sensors db sensor_id NEW
        = inr (with_sensors db (<[sensor_id := NEW]> (sensors db))))
  /\ (forall sensor_id a db',
        UPDATE_sensors db sensor_id a = inr db' ->
        is_Some (set_sn_geom a) \/ is_Some (set_sn_bay_id a) ->
        forall s, sensors db' !! sensor_id = Some s ->
                  sensor_near_its_bay db' s)
  /\ (forall sensor_id a OLD,
        sensors db !! sensor_id = Some OLD ->
        is_Some (set_sn_geom a) \/ is_Some (set_sn_bay_id a) ->
        ~ sensor_near_its_bay db (assign_sensor a OLD) ->
        exists e, UPDATE_sensors db sensor_id a = inl e)
  /\ (forall sensor_id a OLD,
        sensors db !! sensor_id = Some OLD ->
        (is_Some (set_sn_geom a) ->
         validate_sensor_geometry_type (assign_sensor a OLD)
         = RETURN (assign_sensor a OLD)) ->
        (is_Some (set_sn_geom a) \/ is_Some (set_sn_bay_id a) ->
         sensor_near_its_bay db (assign_sensor a OLD)) ->
        UPDATE_sensors db sensor_id a
        = inr (with_sensors db
                 (<[sensor_id := assign_sensor a OLD]> (sensors db))))
  /\ (forall sensor_id a OLD,
        sensors db !! sensor_id = Some OLD ->
        sn_bay_id (assign_sensor a OLD) = None ->
        (is_Some (set_sn_geom a) ->
         validate_sensor_geometry_type (assign_sensor a OLD)
         = RETURN (assign_sensor a OLD)) ->
        UPDATE_sensors db sensor_id a
        = inr (with_sensors db
                 (<[sensor_id := assign_sensor a OLD]> (sensors db))))
  /\ (forall sensor_id a,
        sensors db !! sensor_id = None ->
        UPDATE_sensors db sensor_id a = inr db).
Proof.
  split.
  { intros Hnone.
    assert (Hv : validate_sensor_near_bay db NEW = RETURN NEW).
    { unfold validate_sensor_near_bay. rewrite Hnone. reflexivity. }
    split; [exact Hv|].
    intros sensor_id Ht Hfresh. apply INSERT_sensors_accepts; [done|done|].
    apply validate_sensor_near_bay_accepts, Hv. }
  split; [apply validate_sensor_near_bay_cases|].
  split.
  { intros sensor_id db' H.
    apply INSERT_sensors_inv in H as (_ & Hnear & _ & ->).
    split; [simpl; apply lookup_insert_eq|exact Hnear]. }
  split.
  { intros sensor_id Hno.
    destruct (INSERT_sensors db sensor_id NEW) as [e|db'] eqn:E; [eauto|].
    apply INSERT_sensors_inv in E as (_ & Hnear & _). tauto. }
  split.
  { intros sensor_id. apply INSERT_sensors_accepts. }
  split.
  { intros sensor_id a db' H Hset s Hs.
    apply UPDATE_sensors_inv in H as [[Hnone ->]|(OLD & HO & -> & Hchk)].
    - congruence.
    - simpl in Hs. rewrite lookup_insert_eq in Hs. injection Hs as <-.
      apply Hchk, Hset. }
  split.
  { intros sensor_id a OLD HO Hset Hno.
    destruct (UPDATE_sensors db sensor_id a) as [e|db'] eqn:E; [eauto|].
    apply UPDATE_sensors_inv in E as [[Hnone _]|(OLD' & HO' & _ & Hchk)].
    - congruence.
    - rewrite HO in HO'. injection HO' as <-. tauto. }
  split.
  { intros sensor_id a OLD. apply UPDATE_sensors_accepts. }
  split.
  { intros sensor_id a OLD HO Hnone Ht.
    apply UPDATE_sensors_accepts; [done|done|].
    intros _. unfold sensor_near_its_bay. rewrite Hnone. exact I. }
  intros sensor_id a Hnone. unfold UPDATE_sensors. rewrite Hnone.
  reflexivity.
Qed.

End SensorNearBay.

Lemma sensor_write_is_checked_against_bay_witness :
  validate_sensor_near_bay (K := Planar.kernel) (F := Planar.exact)
       Scenario.db0
    (mkSensor None Scenario.off_by_4) = RETURN (mkSensor None Scenario.off_by_4)
  /\ validate_sensor_near_bay (K := Planar.kernel) (F := Planar.exact)
       Scenario.db0
       (mkSensor (Some 1%Z) Scenario.at_centre)
     = RETURN (mkSensor (Some 1%Z) Scenario.at_centre)
  /\ validate_sensor_near_bay (K := Planar.kernel) (F := Planar.exact)
       Scenario.db0
       (mkSensor (Some 1%Z) Scenario.off_by_3)
     = RETURN (mkSensor (Some 1%Z) Scenario.off_by_3)
  /\ validate_sensor_near_bay (K := Planar.kernel) (F := Planar.exact)
       Scenario.db0
       (mkSensor (Some 1%Z) Scenario.off_by_4)
     = RAISE (sensor_must_be_within 3
                (ROUND2 (ST_Distance_geography (PostGIS := Planar.kernel)
                           Scenario.off_by_4 (pb_geom Scenario.bay_inside))))
  /\ (let db := with_sensors Scenario.db0
                  (<[1%Z := mkSensor (Some 1%Z) Scenario.at_centre]> ∅) in
      let a := mkSensorSet (Some Scenario.off_by_3) None in
      UPDATE_sensors (K := Planar.kernel) (F := Planar.exact) db 1 a
      = inr (with_sensors db
               (<[1%Z := mkSensor (Some 1%Z) Scenario.off_by_3]>
                  (sensors db)))).
Proof.
  assert (Hb : parking_bays Scenario.db0 !! 1%Z = Some Scenario.bay_inside)
    by (vm_compute; reflexivity).
  split; [|split; [|split; [|split]]].
  5:{ intros db a.
      destruct (sensor_write_is_checked_against_bay (K := Planar.kernel)
                (F := Planar.exact)
                  db (mkSensor None Scenario.off_by_4))
        as (_ & _ & _ & _ & _ & _ & _ & H & _).
      apply (H 1%Z a (mkSensor (Some 1%Z) Scenario.at_centre)).
      - vm_compute. reflexivity.
      - intros _. vm_compute. reflexivity.
      - intros _.
        apply (validate_sensor_near_bay_accepts (F := Planar.exact)).
        vm_compute. reflexivity. }
  - destruct (sensor_write_is_checked_against_bay (K := Planar.kernel)
                (F := Planar.exact)
                Scenario.db0 (mkSensor None Scenario.off_by_4)) as [H _].
    apply H. reflexivity.
  - destruct (sensor_write_is_checked_against_bay (K := Planar.kernel)
                (F := Planar.exact)
                Scenario.db0 (mkSensor (Some 1%Z) Scenario.at_centre))
      as (_ & H & _).
    destruct (H 1%Z Scenario.bay_inside eq_refl Hb) as (H1 & _).
    apply H1. vm_compute. reflexivity.
  - destruct (sensor_write_is_checked_against_bay (K := Planar.kernel)
                (F := Planar.exact)
                Scenario.db0 (mkSensor (Some 1%Z) Scenario.off_by_3))
      as (_ & H & _).
    destruct (H 1%Z Scenario.bay_inside eq_refl Hb) as (_ & H2 & _).
    apply H2.
    + vm_compute. reflexivity.
    + vm_compute. discriminate.
  - destruct (sensor_write_is_checked_against_bay (K := Planar.kernel)
                (F := Planar.exact)
                Scenario.db0 (mkSensor (Some 1%Z) Scenario.off_by_4))
      as (_ & H & _).
    destruct (H 1%Z Scenario.bay_inside eq_refl Hb) as (_ & _ & H3).
    apply H3.
    + vm_compute. reflexivity.
    + vm_compute. reflexivity.
Defined.

Section ViolationInBay.
Context `{K : PostGIS}.

Lemma validate_violation_inside_bay_new (db : database) (NEW r : violation) :
  validate_violation_inside_bay db NEW = RETURN r -> r = NEW.
Proof.
  unfold validate_violation_inside_bay.
  repeat (case_match; try discriminate); congruence.
Qed.

Lemma validate_violation_geometry_type_new (NEW r : violation) :
  validate_violation_geometry_type NEW = RETURN r -> r = NEW.
Proof.
  unfold validate_violation_geometry_type.
  repeat (case_match; try discriminate); congruence.
Qed.

Lemma validate_officer_role_new (db : database) (NEW r : violation) :
  validate_officer_role db NEW = RETURN r -> r = NEW.
Proof.
  unfold validate_officer_role.
  repeat (case_match; try discriminate); congruence.
Qed.

Lemma DWithin_false (a b : Geometry) (d : Q) :
  ST_DWithin_geography a b d = false <-> d < ST_Distance_geography a b.
Proof.
  split.
  - intros H. apply Qnot_le_lt. intros Hle.
    apply ST_DWithin_spec in Hle. congruence.
  - intros Hlt. destruct (ST_DWithin_geography a b d) eqn:E; [|reflexivity].
    apply ST_DWithin_spec in E. exfalso. exact (Qlt_not_le _ _ Hlt E).
Qed.

Lemma validate_violation_inside_bay_cases (db : database) (NEW : violation)
    (bay_id : Z) (bay : parking_bay) :
  vl_bay_id NEW = Some bay_id ->
  parking_bays db !! bay_id = Some bay ->
  let inside := ST_Contains (pb_geom bay) (vl_geom NEW) in
  let d := ST_Distance_geography (vl_geom NEW) (pb_geom bay) in
  (inside = true -> validate_violation_inside_bay db NEW = RETURN NEW)
  /\ (inside = false -> d <= 2 ->
      validate_violation_inside_bay db NEW = RETURN NEW)
  /\ (inside = false -> 2 < d ->
      validate_violation_inside_bay db NEW
      = RAISE (violation_must_be_inside_bay (pb_bay_number bay)
                 (Some bay_id))).
Proof.
  intros Hid Hbay inside d. unfold validate_violation_inside_bay.
  rewrite Hid. simpl. rewrite Hbay. fold inside. repeat split.
  - intros ->. reflexivity.
  - intros -> Hle. apply ST_DWithin_spec in Hle. rewrite Hle. reflexivity.
  - intros -> Hlt. apply DWithin_false in Hlt. rewrite Hlt. reflexivity.
Qed.

Lemma validate_violation_inside_bay_accepts (db : database)
    (NEW : violation) :
  validate_violation_inside_bay db NEW = RETURN NEW
  <-> violation_in_its_bay db NEW.
Proof.
  unfold violation_in_its_bay, near_bay.
  destruct (vl_bay_id NEW) as [bay_id|] eqn:Hid.
  2:{ unfold validate_violation_inside_bay. rewrite Hid. simpl.
      split; [discriminate|]. intros (? & ? & ? & _). discriminate. }
  destruct (parking_bays db !! bay_id) as [bay|] eqn:Hbay.
  2:{ unfold validate_violation_inside_bay. rewrite Hid. simpl. rewrite Hbay.
      split; [discriminate|]. intros (? & ? & [= <-] & ? & _). congruence. }
  destruct (validate_violation_inside_bay_cases db NEW bay_id bay Hid Hbay)
    as (Hin & Hnear & Hfar).
  destruct (ST_Contains (pb_geom bay) (vl_geom NEW)) eqn:Hw.
  { split; [|auto]. intros _. exists bay_id, bay. auto. }
  destruct (Qlt_le_dec 2 (ST_Distance_geography (vl_geom NEW) (pb_geom bay)))
    as [Hlt|Hle].
  - rewrite Hfar by done. split; [discriminate|].
    intros (bay_id' & bay' & [= <-] & Hb' & [Hc|Hc]).
    + rewrite Hbay in Hb'. injection Hb' as <-. congruence.
    + rewrite Hbay in Hb'. injection Hb' as <-.
      exfalso. exact (Qlt_not_le _ _ Hlt Hc).
  - split; [|auto]. intros _. exists bay_id, bay. auto.
Qed.

Lemma validate_violation_geometry_type_typmod (NEW : violation) :
  validate_violation_geometry_type NEW = RETURN NEW ->
  GeometryType (vl_geom NEW) = "POINT" /\ ST_SRID (vl_geom NEW) = 4326%Z.
Proof.
  unfold validate_violation_geometry_type.
  destruct (String.eqb_spec (GeometryType (vl_geom NEW)) "POINT") as [Hk|Hk];
    simpl; [|discriminate].
  destruct (Z.eqb_spec (ST_SRID (vl_geom NEW)) 4326) as [Hs|Hs];
    simpl; [|discriminate].
  auto.
Qed.

Lemma INSERT_violations_accepts (db : database) (violation_id : Z)
    (row : violation) :
  validate_officer_role db row = RETURN row ->
  validate_violation_geometry_type row = RETURN row ->
  violations db !! violation_id = None ->
  violation_in_its_bay db row ->
  INSERT_violations db violation_id row
  = inr (with_violations db (<[violation_id := row]> (violations db))).
Proof.
  intros Hr Ht Hfresh Hin. unfold INSERT_violations, and_then.
  rewrite (proj2 (column_typmod_None _ _ _)
             (validate_violation_geometry_type_typmod _ Ht)).
  apply validate_violation_inside_bay_accepts in Hin.
  rewrite Hr, Ht, Hin, Hfresh. reflexivity.
Qed.

Lemma INSERT_violations_inv (db db' : database) (violation_id : Z)
    (row : violation) :
  INSERT_violations db violation_id row = inr db' ->
  validate_officer_role db row = RETURN row
  /\ validate_violation_geometry_type row = RETURN row
  /\ violation_in_its_bay db row
  /\ violations db !! violation_id = None
  /\ db' = with_violations db (<[violation_id := row]> (violations db)).
Proof.
  unfold INSERT_violations, and_then.
  destruct (column_typmod _ _ _) as [e|]; [discriminate|].
  destruct (validate_officer_role db row) as [r0|] eqn:E0; [|discriminate].
  apply validate_officer_role_new in E0 as ->.
  destruct (validate_violation_geometry_type row) as [r1|] eqn:E1;
    [|discriminate].
  apply validate_violation_geometry_type_new in E1 as ->.
  destruct (validate_violation_inside_bay db row) as [r2|] eqn:E2;
    [|discriminate].
  pose proof (validate_violation_inside_bay_new _ _ _ E2) as ->.
  apply validate_violation_inside_bay_accepts in E2.
  destruct (violations db !! violation_id); [discriminate|].
  intros [= <-]. auto.
Qed.

Lemma when_new {row : Type} (c : bool) (f : row -> trigger_result row)
    (x r : row) :
  (forall y, f x = RETURN y -> y = x) -> when c f x = RETURN r -> r = x.
Proof.
  unfold when. destruct c; [auto|congruence].
Qed.

Lemma UPDATE_violations_inv (db db' : database) (violation_id : Z)
    (a : violation_assignment) :
  UPDATE_violations db violation_id a = inr db' ->
  (violations db !! violation_id = None /\ db' = db)
  \/ exists OLD, violations db !! violation_id = Some OLD
       /\ db' = with_violations db
                  (<[violation_id := assign_violation a OLD]> (violations db))
       /\ (is_Some (set_vl_geom a) \/ is_Some (set_vl_bay_id a) ->
           violation_in_its_bay db (assign_violation a OLD)).
Proof.
  unfold UPDATE_violations.
  destruct (violations db !! violation_id) as [OLD|]; [|intros [= <-]; auto].
  cbv zeta. destruct (assigned_typmod _ _ _ _) as [e|]; [discriminate|].
  intros H. right. exists OLD. split; [reflexivity|].
  unfold and_then in H.
  destruct (when (bool_decide (is_Some (set_vl_officer_id a)))
                 (validate_officer_role db) (assign_violation a OLD))
    as [r0|] eqn:E0; [|discriminate].
  apply when_new in E0 as ->; [|apply validate_officer_role_new].
  destruct (when (bool_decide (is_Some (set_vl_geom a)))
                 validate_violation_geometry_type (assign_violation a OLD))
    as [r1|] eqn:E1; [|discriminate].
  apply when_new in E1 as ->; [|apply validate_violation_geometry_type_new].
  destruct (when (bool_decide (is_Some (set_vl_geom a))
                  || bool_decide (is_Some (set_vl_bay_id a)))
                 (validate_violation_inside_bay db) (assign_violation a OLD))
    as [r2|] eqn:E2; [|discriminate].
  pose proof (when_new _ _ _ _ (validate_violation_inside_bay_new db _) E2)
    as ->.
  injection H as <-. split; [reflexivity|]. intros Hs.
  unfold when in E2.
  destruct (bool_decide (is_Some (set_vl_geom a))) eqn:Bg,
           (bool_decide (is_Some (set_vl_bay_id a))) eqn:Bb; simpl in E2;
    try (apply validate_violation_inside_bay_accepts, E2).
  apply bool_decide_eq_false in Bg, Bb. tauto.
Qed.

Lemma UPDATE_violations_accepts (db : database) (violation_id : Z)
    (a : violation_assignment) (OLD : violation) :
  violations db !! violation_id = Some OLD ->
  (is_Some (set_vl_officer_id a) ->
   validate_officer_role db (assign_violation a OLD)
   = RETURN (assign_violation a OLD)) ->
  (is_Some (set_vl_geom a) ->
   validate_violation_geometry_type (assign_violation a OLD)
   = RETURN (assign_violation a OLD)) ->
  (is_Some (set_vl_geom a) \/ is_Some (set_vl_bay_id a) ->
   violation_in_its_bay db (assign_violation a OLD)) ->
  UPDATE_violations db violation_id a
  = inr (with_violations db
           (<[violation_id := assign_violation a OLD]> (violations db))).
Proof.
  intros HO Hr Ht Hin. unfold UPDATE_violations. rewrite HO. cbv zeta.
  set (NEW := assign_violation a OLD) in *.
  rewrite (proj2 (assigned_typmod_None _ _ _ _)).
  2:{ intros E. apply bool_decide_eq_true in E.
      apply validate_violation_geometry_type_typmod; auto. }
  assert (E1 : when (bool_decide (is_Some (set_vl_officer_id a)))
                 (validate_officer_role db) NEW = RETURN NEW).
  { unfold when. case_bool_decide; auto. }
  assert (E2 : when (bool_decide (is_Some (set_vl_geom a)))
                 validate_violation_geometry_type NEW = RETURN NEW).
  { unfold when.
    destruct (bool_decide (is_Some (set_vl_geom a))) eqn:E; [|reflexivity].
    apply Ht. apply bool_decide_eq_true in E. exact E. }
  assert (E3 : when (bool_decide (is_Some (set_vl_geom a))
                     || bool_decide (is_Some (set_vl_bay_id a)))
                 (validate_violation_inside_bay db) NEW = RETURN NEW).
  { unfold when. destruct (_ || _) eqn:E; [|reflexivity].
    apply validate_violation_inside_bay_accepts, Hin.
    apply orb_true_iff in E as [E|E]; apply bool_decide_eq_true in E; auto. }
  unfold and_then. rewrite E1, E2, E3. reflexivity.
Qed.

End ViolationInBay.

Section ViolationInBayClaim.
Context `{K : PostGIS}.

(** C3. A write of a violation's geometry or bay reference passes
    validate_violation_inside_bay when the bay polygon contains the point,
    else when the point is within 2.0 m (geodesic) of the polygon, and is
    rejected otherwise; it is rejected too when the bay reference is NULL
    or names no bay. An INSERT or UPDATE of a violation that passes it and
    the other triggers that fire is accepted and stores the row; one that
    does not pass it is rejected. *)
Theorem violation_write_is_checked_against_bay (db : database)
    (NEW : violation) :
  (forall bay_id bay,
     vl_bay_id NEW = Some bay_id ->
     parking_bays db !! bay_id = Some bay ->
     let inside := ST_Contains (pb_geom bay) (vl_geom NEW) in
     let d := ST_Distance_geography (vl_geom NEW) (pb_geom bay) in
     (inside = true -> validate_violation_inside_bay db NEW = RETURN NEW)
     /\ (inside = false -> d <= 2 ->
         validate_violation_inside_bay db NEW = RETURN NEW)
     /\ (inside = false -> 2 < d ->
         validate_violation_inside_bay db NEW
         = RAISE (violation_must_be_inside_bay (pb_bay_number bay)
                    (Some bay_id))))
  /\ (vl_bay_id NEW = None ->
      validate_violation_inside_bay db NEW = RAISE (bay_does_not_exist None))
  /\ (forall bay_id,
        vl_bay_id NEW = Some bay_id ->
        parking_bays db !! bay_id = None ->
        validate_violation_inside_bay db NEW
        = RAISE (bay_does_not_exist (Some bay_id)))
  /\ (forall violation_id db',
        INSERT_violations db violation_id NEW = inr db' ->
        violations db' !! violation_id = Some NEW
        /\ violation_in_its_bay db' NEW)
  /\ (forall violation_id,
        ~ violation_in_its_bay db NEW ->
        exists e, INSERT_violations db violation_id NEW = inl e)
  /\ (forall violation_id,
        validate_officer_role db NEW = RETURN NEW ->
        validate_violation_geometry_type NEW = RETURN NEW ->
        violations db !! violation_id = None ->
        violation_in_its_bay db NEW ->
        INSERT_violations db violation_id NEW
        = inr (with_violations db
                 (<[violation_id := NEW]> (violations db))))
  /\ (forall violation_id a db',
        UPDATE_violations db violation_id a = inr db' ->
        is_Some (set_vl_geom a) \/ is_Some (set_vl_bay_id a) ->
        forall v, violations db' !! violation_id = Some v ->
                  violation_in_its_bay db' v)
  /\ (forall violation_id a OLD,
        violations db !! violation_id = Some OLD ->
        is_Some (set_vl_geom a) \/ is_Some (set_vl_bay_id a) ->
        ~ violation_in_its_bay db (assign_violation a OLD) ->
        exists e, UPDATE_violations db violation_id a = inl e)
  /\ (forall violation_id a OLD,
        violations db !! violation_id = Some OLD ->
        (is_Some (set_vl_officer_id a) ->
         validate_officer_role db (assign_violation a OLD)
         = RETURN (assign_violation a OLD)) ->
        (is_Some (set_vl_geom a) ->
         validate_violation_geometry_type (assign_violation a OLD)
         = RETURN (assign_violation a OLD)) ->
        (is_Some (set_vl_geom a) \/ is_Some (set_vl_bay_id a) ->
         violation_in_its_bay db (assign_violation a OLD)) ->
        UPDATE_violations db violation_id a
        = inr (with_violations db
                 (<[violation_id := assign_violation a OLD]>
                    (violations db))))
  /\ (forall violation_id a,
        violations db !! violation_id = None ->
        UPDATE_violations db violation_id a = inr db).
Proof.
  split; [apply validate_violation_inside_bay_cases|].
  split.
  { intros Hnone. unfold validate_violation_inside_bay.
    rewrite Hnone. reflexivity. }
  split.
  { intros bay_id Hid Hnone. unfold validate_violation_inside_bay.
    rewrite Hid. simpl. rewrite Hnone. reflexivity. }
  split.
  { intros violation_id db' H.
    apply INSERT_violations_inv in H as (_ & _ & Hin & _ & ->).
    split; [simpl; apply lookup_insert_eq|exact Hin]. }
  split.
  { intros violation_id Hno.
    destruct (INSERT_violations db violation_id NEW) as [e|db'] eqn:E;
      [eauto|].
    apply INSERT_violations_inv in E as (_ & _ & Hin & _). tauto. }
  split.
  { intros violation_id. apply INSERT_violations_accepts. }
  split.
  { intros violation_id a db' H Hset v Hv.
    apply UPDATE_violations_inv in H as [[Hnone ->]|(OLD & HO & -> & Hchk)].
    - congruence.
    - simpl in Hv. rewrite lookup_insert_eq in Hv. injection Hv as <-.
      apply Hchk, Hset. }
  split.
  { intros violation_id a OLD HO Hset Hno.
    destruct (UPDATE_violations db violation_id a) as [e|db'] eqn:E; [eauto|].
    apply UPDATE_violations_inv in E as [[Hnone _]|(OLD' & HO' & _ & Hchk)].
    - congruence.
    - rewrite HO in HO'. injection HO' as <-. tauto. }
  split.
  { intros violation_id a OLD. apply UPDATE_violations_accepts. }
  intros violation_id a Hnone. unfold UPDATE_violations. rewrite Hnone.
  reflexivity.
Qed.

End ViolationInBayClaim.

Lemma violation_write_is_checked_against_bay_witness :
  validate_violation_inside_bay (K := Planar.kernel) Scenario.db0
    (mkViolation (Some 1%Z) 1 Scenario.at_centre)
  = RETURN (mkViolation (Some 1%Z) 1 Scenario.at_centre)
  /\ validate_violation_inside_bay (K := Planar.kernel) Scenario.db0
       (mkViolation (Some 1%Z) 1 Scenario.off_by_2)
     = RETURN (mkViolation (Some 1%Z) 1 Scenario.off_by_2)
  /\ validate_violation_inside_bay (K := Planar.kernel) Scenario.db0
       (mkViolation (Some 1%Z) 1 Scenario.off_by_3)
     = RAISE (violation_must_be_inside_bay "A-1" (Some 1%Z))
  /\ validate_violation_inside_bay (K := Planar.kernel) Scenario.db0
       (mkViolation None 1 Scenario.at_centre)
     = RAISE (bay_does_not_exist None)
  /\ validate_violation_inside_bay (K := Planar.kernel) Scenario.db0
       (mkViolation (Some 99%Z) 1 Scenario.at_centre)
     = RAISE (bay_does_not_exist (Some 99%Z))
  /\ (let db := Scenario2.db_violations in
      let a := mkViolationSet (Some Scenario.off_by_2) None None in
      UPDATE_violations (K := Planar.kernel) db 1 a
      = inr (with_violations db
               (<[1%Z := mkViolation (Some 1%Z) 1 Scenario.off_by_2]>
                  (violations db)))).
Proof.
  assert (Hb : parking_bays Scenario.db0 !! 1%Z = Some Scenario.bay_inside)
    by (vm_compute; reflexivity).
  split; [|split; [|split; [|split; [|split]]]].
  6:{ intros db a.
      destruct (violation_write_is_checked_against_bay (K := Planar.kernel)
                  db (mkViolation None 1 Scenario.at_centre))
        as (_ & _ & _ & _ & _ & _ & _ & _ & H & _).
      apply (H 1%Z a (mkViolation (Some 1%Z) 1 Scenario.at_centre)).
      - vm_compute. reflexivity.
      - intros [? Hs]. discriminate Hs.
      - intros _. vm_compute. reflexivity.
      - intros _. apply validate_violation_inside_bay_accepts.
        vm_compute. reflexivity. }
  - destruct (violation_write_is_checked_against_bay (K := Planar.kernel)
                Scenario.db0 (mkViolation (Some 1%Z) 1 Scenario.at_centre))
      as (H & _).
    destruct (H 1%Z Scenario.bay_inside eq_refl Hb) as (H1 & _).
    apply H1. vm_compute. reflexivity.
  - destruct (violation_write_is_checked_against_bay (K := Planar.kernel)
                Scenario.db0 (mkViolation (Some 1%Z) 1 Scenario.off_by_2))
      as (H & _).
    destruct (H 1%Z Scenario.bay_inside eq_refl Hb) as (_ & H2 & _).
    apply H2.
    + vm_compute. reflexivity.
    + vm_compute. discriminate.
  - destruct (violation_write_is_checked_against_bay (K := Planar.kernel)
                Scenario.db0 (mkViolation (Some 1%Z) 1 Scenario.off_by_3))
      as (H & _).
    destruct (H 1%Z Scenario.bay_inside eq_refl Hb) as (_ & _ & H3).
    apply H3.
    + vm_compute. reflexivity.
    + vm_compute. reflexivity.
  - destruct (violation_write_is_checked_against_bay (K := Planar.kernel)
                Scenario.db0 (mkViolation None 1 Scenario.at_centre))
      as (_ & H & _).
    apply H. reflexivity.
  - destruct (violation_write_is_checked_against_bay (K := Planar.kernel)
                Scenario.db0 (mkViolation (Some 99%Z) 1 Scenario.at_centre))
      as (_ & _ & H & _).
    apply (H 99%Z); [reflexivity|vm_compute; reflexivity].
Defined.

(** ** The loops of the normalisers *)

Lemma ST_GeometryN_members (g : Geometry) (k : nat) :
  ST_GeometryN g (S k) = members g !! k.
Proof.
  unfold ST_GeometryN, members. rewrite list_lookup_fmap.
  destruct (shape g); try rewrite list_lookup_fmap; try reflexivity;
    destruct k; reflexivity.
Qed.

Lemma ST_NumGeometries_members (g : Geometry) :
  ST_NumGeometries g = length (members g).
Proof.
  unfold ST_NumGeometries, members.
  destruct (shape g); rewrite ?length_fmap; reflexivity.
Qed.

Lemma foldl_seq_lookup {St A : Type} (body : option A -> St -> St)
    (l : list A) :
  forall (get : nat -> option A) (start : nat) (s : St),
    (forall k, get (start + k)%nat = l !! k) ->
    foldl (λ s i, body (get i) s) s (seq start (length l))
    = foldl (λ s m, body (Some m) s) s l.
Proof.
  induction l as [|m l IH]; intros get start s Hget; [reflexivity|].
  simpl. specialize (Hget O) as H0. rewrite Nat.add_0_r in H0. rewrite H0.
  simpl. apply IH. intros k. specialize (Hget (S k)). simpl in Hget.
  rewrite <- Hget. f_equal. lia.
Qed.

Lemma FOR_keep_greater (measure : Geometry -> Q) (wanted : Geometry -> bool)
    (geom : Geometry) (vars : Q * option Geometry) :
  FOR_1_to (ST_NumGeometries geom) (keep_greater measure wanted geom) vars
  = foldl (greater measure) vars (List.filter wanted (members geom)).
Proof.
  unfold FOR_1_to. rewrite ST_NumGeometries_members.
  pose (body := λ (o : option Geometry) (s : Q * option Geometry),
          match o with
          | Some current_geom =>
              if wanted current_geom then greater measure s current_geom
              else s
          | None => s
          end).
  transitivity (foldl (λ s m, body (Some m) s) vars (members geom)).
  - rewrite <- (foldl_seq_lookup body (members geom) (ST_GeometryN geom) 1
                  vars (ST_GeometryN_members geom)).
    reflexivity.
  - subst body. generalize (members geom) vars.
    induction l as [|m l IH]; intros s; [reflexivity|].
    simpl. destruct (wanted m); simpl; apply IH.
Qed.

Lemma foldl_greater (measure : Geometry -> Q) (l : list Geometry) :
  forall (m0 : Q) (r0 : option Geometry),
    let out := foldl (greater measure) (m0, r0) l in
    m0 <= fst out
    /\ (forall g, g ∈ l -> measure g <= fst out)
    /\ ((out = (m0, r0) /\ forall g, g ∈ l -> measure g <= m0)
        \/ exists g, g ∈ l /\ out = (measure g, Some g) /\ m0 < measure g).
Proof.
  induction l as [|x l IH]; intros m0 r0; simpl.
  { split; [apply Qle_refl|]. split; [intros g Hg; inversion Hg|].
    left. split; [reflexivity|]. intros g Hg. inversion Hg. }
  replace (greater measure (m0, r0) x)
    with (if Qlt_bool m0 (measure x) then (measure x, Some x) else (m0, r0))
    by reflexivity.
  destruct (Qlt_bool m0 (measure x)) eqn:E.
  - apply Qlt_bool_iff in E.
    destruct (IH (measure x) (Some x)) as (Hle & Hall & Hcase).
    split; [eapply Qle_trans; [apply Qlt_le_weak, E|exact Hle]|].
    split.
    { intros g Hg. apply elem_of_cons in Hg as [->|Hg]; auto. }
    right. destruct Hcase as [[Hout Hmax]|(g & Hg & Hout & Hlt)].
    + exists x. split; [apply elem_of_cons; auto|]. auto.
    + exists g. split; [apply elem_of_cons; auto|]. split; [exact Hout|].
      eapply Qlt_trans; eauto.
  - apply Qlt_bool_false_iff in E.
    destruct (IH m0 r0) as (Hle & Hall & Hcase).
    split; [exact Hle|]. split.
    { intros g Hg. apply elem_of_cons in Hg as [->|Hg]; auto.
      eapply Qle_trans; eauto. }
    destruct Hcase as [[Hout Hmax]|(g & Hg & Hout & Hlt)].
    + left. split; [exact Hout|].
      intros g Hg. apply elem_of_cons in Hg as [->|Hg]; auto.
    + right. exists g. split; [apply elem_of_cons; auto|]. auto.
Qed.

(** The result of a loop started from (0, NULL). *)
Lemma greatest_from_zero (measure : Geometry -> Q) (l : list Geometry) :
  let result := snd (foldl (greater measure) (0, None) l) in
  (forall p, result = Some p ->
     p ∈ l /\ 0 < measure p /\ forall q, q ∈ l -> measure q <= measure p)
  /\ (result = None <-> forall q, q ∈ l -> measure q <= 0).
Proof.
  destruct (foldl_greater measure l 0 None) as (Hle & Hall & Hcase).
  simpl. destruct Hcase as [[Hout Hmax]|(g & Hg & Hout & Hlt)].
  - rewrite Hout. simpl. split; [discriminate|]. tauto.
  - rewrite Hout in *. simpl in *. split.
    + intros p [= <-]. auto.
    + split; [discriminate|]. intros Hmax. exfalso.
      exact (Qlt_not_le _ _ Hlt (Hmax g Hg)).
Qed.

Lemma polygon_members_MultiPolygon (g : Geometry) (ps : list (list ring)) :
  shape g = MultiPolygon ps ->
  List.filter (λ _, true) (members g) = polygon_members g.
Proof.
  intros Hs. unfold polygon_members, members. rewrite Hs. clear Hs.
  induction ps as [|p ps IH]; [reflexivity|].
  simpl. f_equal. exact IH.
Qed.

Section Normalisers.
Context `{K : PostGIS}.

Lemma normalize_to_polygon_multi (g : Geometry) :
  (exists ps, shape g = MultiPolygon ps)
  \/ (exists ms, shape g = GeometryCollection ms) ->
  normalize_to_polygon (Some g)
  = snd (foldl (greater ST_Area_geography) (0, None) (polygon_members g)).
Proof.
  intros [[ps Hs]|[ms Hs]]; unfold normalize_to_polygon, GeometryType;
    rewrite Hs; simpl; rewrite FOR_keep_greater.
  - rewrite (polygon_members_MultiPolygon g ps Hs). reflexivity.
  - reflexivity.
Qed.

(** C4, as the functions have it. normalize_to_polygon returns a Polygon
    unchanged; for a MultiPolygon or GeometryCollection it returns a member
    Polygon of largest geodesic area when that area is positive, and NULL
    when no member Polygon has positive area; for a Point it returns the
    2.5 m geography buffer of the point; for the other kinds, and for NULL,
    it returns NULL. *)
Theorem normalize_to_polygon_by_kind (g : Geometry) :
  (forall rings, shape g = Polygon rings ->
     normalize_to_polygon (Some g) = Some g)
  /\ ((exists ps, shape g = MultiPolygon ps)
      \/ (exists ms, shape g = GeometryCollection ms) ->
      (forall p, normalize_to_polygon (Some g) = Some p ->
         largest_polygon_member g p /\ 0 < ST_Area_geography p)
      /\ (normalize_to_polygon (Some g) = None
          <-> forall q, q ∈ polygon_members g -> ST_Area_geography q <= 0)
      /\ ((exists q, q ∈ polygon_members g /\ 0 < ST_Area_geography q) ->
          exists p, normalize_to_polygon (Some g) = Some p))
  /\ (forall c, shape g = Point c ->
        normalize_to_polygon (Some g) = Some (ST_Buffer_geography g (25 # 10)))
  /\ ((exists pts, shape g = LineString pts)
      \/ (exists pts, shape g = MultiPoint pts)
      \/ (exists ls, shape g = MultiLineString ls) ->
      normalize_to_polygon (Some g) = None)
  /\ normalize_to_polygon None = None.
Proof.
  split.
  { intros rings Hs. unfold normalize_to_polygon, GeometryType.
    rewrite Hs. reflexivity. }
  split.
  { intros Hkind. rewrite (normalize_to_polygon_multi g Hkind).
    destruct (greatest_from_zero ST_Area_geography (polygon_members g))
      as [Hsome Hnone].
    split; [|split].
    - intros p Hp. destruct (Hsome p Hp) as (Hin & Hpos & Hmax).
      split; [split|]; assumption.
    - exact Hnone.
    - intros (q & Hq & Hpos).
      destruct (snd (foldl (greater ST_Area_geography) (0, None)
                       (polygon_members g))) as [p|]; [eauto|].
      exfalso. apply (Qlt_not_le _ _ Hpos).
      apply (proj1 Hnone eq_refl), Hq. }
  split.
  { intros c Hs. unfold normalize_to_polygon, GeometryType.
    rewrite Hs. reflexivity. }
  split; [|reflexivity].
  intros [[pts Hs]|[[pts Hs]|[ls Hs]]];
    unfold normalize_to_polygon, GeometryType; rewrite Hs; reflexivity.
Qed.

(** C6. Each normaliser returns a geometry that already is of its target
    kind unchanged. *)
Theorem normalizers_keep_their_own_kind (g : Geometry) :
  (forall rings, shape g = Polygon rings ->
     normalize_to_polygon (Some g) = Some g)
  /\ (forall pts, shape g = LineString pts ->
        normalize_to_linestring (Some g) = Some g)
  /\ (forall c, shape g = Point c -> normalize_to_point (Some g) = Some g).
Proof.
  repeat split.
  - intros rings Hs. unfold normalize_to_polygon, GeometryType.
    rewrite Hs. reflexivity.
  - intros pts Hs. unfold normalize_to_linestring, GeometryType.
    rewrite Hs. reflexivity.
  - intros c Hs. unfold normalize_to_point, GeometryType.
    rewrite Hs. reflexivity.
Qed.

End Normalisers.

Lemma normalize_to_polygon_by_kind_witness :
  (exists p,
     normalize_to_polygon (K := Planar.kernel) (Some Scenario.multi_10_30)
     = Some p
     /\ largest_polygon_member (K := Planar.kernel) Scenario.multi_10_30 p
     /\ 0 < ST_Area_geography (PostGIS := Planar.kernel) p)
  /\ normalize_to_polygon (K := Planar.kernel) (Some Scenario.multi_flat)
     = None
  /\ normalize_to_polygon (K := Planar.kernel)
       (Some (mkGeometry 4326 (LineString [mkCoord 0 0; mkCoord 1 1])))
     = None.
Proof.
  split; [|split].
  - destruct (normalize_to_polygon_by_kind (K := Planar.kernel)
                Scenario.multi_10_30) as (_ & H & _).
    destruct H as (Hsome & _ & Hex); [left; eexists; reflexivity|].
    destruct Hex as [p Hp].
    { exists (mkGeometry 4326 (Polygon Scenario.part_30)). split.
      - apply list_elem_of_In. vm_compute. right. left. reflexivity.
      - vm_compute. reflexivity. }
    exists p. split; [exact Hp|]. apply Hsome, Hp.
  - destruct (normalize_to_polygon_by_kind (K := Planar.kernel)
                Scenario.multi_flat) as (_ & H & _).
    destruct H as (_ & Hnone & _); [left; eexists; reflexivity|].
    apply Hnone. intros q Hq. apply list_elem_of_In in Hq.
    vm_compute in Hq. destruct Hq as [<-|[]]. vm_compute. discriminate.
  - destruct (normalize_to_polygon_by_kind (K := Planar.kernel)
                (mkGeometry 4326 (LineString [mkCoord 0 0; mkCoord 1 1])))
      as (_ & _ & _ & H & _).
    apply H. left. eexists. reflexivity.
Defined.

(** Scenario E: of the parts of 10 m2 and 30 m2, the 30 m2 part. *)
Example normalize_to_polygon_scenario_E :
  normalize_to_polygon (K := Planar.kernel) (Some Scenario.multi_10_30)
  = Some (mkGeometry 4326 (Polygon Scenario.part_30))
  /\ normalize_to_polygon (K := Planar.kernel)
       (Some Scenario.collection_10_30)
     = Some (mkGeometry 4326 (Polygon Scenario.part_30))
  /\ ST_Area_geography (PostGIS := Planar.kernel)
       (mkGeometry 4326 (Polygon Scenario.part_30)) == 30
  /\ ST_Area_geography (PostGIS := Planar.kernel)
       (mkGeometry 4326 (Polygon Scenario.part_10)) == 10.
Proof. repeat split; vm_compute; reflexivity. Qed.

(** MULTIPOLYGON(((0 0, 1 0, 2 0, 0 0))): the only member is a Polygon whose
    ring is folded onto the equator, of area 0, so it is a member Polygon of
    largest area; the loop never takes it ([0 > 0] fails) and the result is
    NULL. So is the result for a collection without a Polygon. *)
Lemma normalize_to_polygon_drops_flat_member :
  shape Scenario.multi_flat
  = MultiPolygon [[[mkCoord 0 0; mkCoord 1 0; mkCoord 2 0; mkCoord 0 0]]]
  /\ largest_polygon_member (K := Planar.kernel) Scenario.multi_flat
       (mkGeometry 4326 (Polygon Scenario.part_flat))
  /\ ST_Area_geography (PostGIS := Planar.kernel)
       (mkGeometry 4326 (Polygon Scenario.part_flat)) == 0
  /\ normalize_to_polygon (K := Planar.kernel) (Some Scenario.multi_flat)
     = None
  /\ normalize_to_polygon (K := Planar.kernel)
       (Some Scenario.collection_of_points)
     = None.
Proof.
  split; [reflexivity|]. split; [split|split; [|split]].
  - apply list_elem_of_In. vm_compute. left. reflexivity.
  - intros q Hq. apply list_elem_of_In in Hq. vm_compute in Hq.
    destruct Hq as [<-|[]]. vm_compute. discriminate.
  - vm_compute. reflexivity.
  - vm_compute. reflexivity.
  - vm_compute. reflexivity.
Qed.

Lemma normalizers_keep_their_own_kind_witness :
  normalize_to_polygon (K := Planar.kernel)
    (Some (Planar.rect 0 0 5 (5 # 2)))
  = Some (Planar.rect 0 0 5 (5 # 2))
  /\ normalize_to_linestring (K := Planar.kernel)
       (Some (mkGeometry 4326 (LineString [mkCoord 0 0; mkCoord 3 4])))
     = Some (mkGeometry 4326 (LineString [mkCoord 0 0; mkCoord 3 4]))
  /\ normalize_to_point (K := Planar.kernel) (Some (Planar.point 16 48))
     = Some (Planar.point 16 48).
Proof.
  split; [|split].
  - destruct (normalizers_keep_their_own_kind (K := Planar.kernel)
                (Planar.rect 0 0 5 (5 # 2))) as (H & _).
    eapply H. reflexivity.
  - destruct (normalizers_keep_their_own_kind (K := Planar.kernel)
                (mkGeometry 4326 (LineString [mkCoord 0 0; mkCoord 3 4])))
      as (_ & H & _).
    eapply H. reflexivity.
  - destruct (normalizers_keep_their_own_kind (K := Planar.kernel)
                (Planar.point 16 48)) as (_ & _ & H).
    eapply H. reflexivity.
Defined.

(** ** Radius search *)

Global Instance by_distance_meters_total : Total by_distance_meters.
Proof.
  intros r1 r2. unfold by_distance_meters.
  destruct (Qlt_le_dec (bn_distance_meters r2) (bn_distance_meters r1)) as [H|H].
  - right. apply Qlt_le_weak, H.
  - left. exact H.
Qed.

Global Instance by_distance_meters_trans : Transitive by_distance_meters.
Proof. intros r1 r2 r3. unfold by_distance_meters. apply Qle_trans. Qed.

Section RadiusSearch.
Context `{K : PostGIS}.

Lemma sql_eq_true {A : Type} `{EqDecision A} (x : option A) (v : A) :
  sql_eq x v = true <-> x = Some v.
Proof.
  unfold sql_eq. destruct x as [a|]; [|split; discriminate].
  rewrite bool_decide_eq_true. split; congruence.
Qed.

Lemma elem_of_bays_join_zones (db : database) (bay_id : Z)
    (pb : parking_bay) (pz : parking_zone) :
  (bay_id, pb, pz) ∈ bays_join_zones db
  <-> parking_bays db !! bay_id = Some pb
      /\ parking_zones db !! pb_zone_id pb = Some pz.
Proof.
  unfold bays_join_zones. rewrite list_elem_of_omap. split.
  - intros ([k b] & Hin & Hz). apply elem_of_map_to_list in Hin.
    simpl in Hz. destruct (parking_zones db !! pb_zone_id b) as [z|] eqn:E;
      [|discriminate].
    simpl in Hz. injection Hz as <- <- <-. auto.
  - intros [Hb Hz]. exists (bay_id, pb). split.
    + apply elem_of_map_to_list, Hb.
    + simpl. rewrite Hz. reflexivity.
Qed.

(** The rows of the result, before ORDER BY puts them in order. *)
Lemma elem_of_find_available_bays_near (db : database)
    (lat lng radius_meters : Q) (r : bay_near) :
  let center := ST_SetSRID (ST_MakePoint lng lat) 4326 in
  r ∈ find_available_bays_near db lat lng radius_meters
  <-> exists pb pz,
        parking_bays db !! bn_bay_id r = Some pb
        /\ parking_zones db !! pb_zone_id pb = Some pz
        /\ pb_status pb = Some available
        /\ pz_is_active pz = Some true
        /\ ST_Distance_geography (pb_geom pb) center <= radius_meters
        /\ r = mkBayNear (bn_bay_id r) (pb_bay_number pb) (pb_zone_id pb)
                 (pz_name pz) (pb_status pb) (pb_is_disabled_only pb)
                 (pb_is_electric pb)
                 (ST_Distance_geography (pb_geom pb) center) (pb_geom pb).
Proof.
  intros center. unfold find_available_bays_near. fold center.
  rewrite merge_sort_Permutation, list_elem_of_In, in_map_iff. split.
  - intros ([[bay_id pb] pz] & <- & Hin).
    apply filter_In in Hin as [Hin Hsel].
    apply list_elem_of_In, elem_of_bays_join_zones in Hin as [Hb Hz].
    apply andb_true_iff in Hsel as [Hsel Hd].
    apply andb_true_iff in Hsel as [Hs Ha].
    apply sql_eq_true in Hs, Ha. apply ST_DWithin_spec in Hd.
    exists pb, pz. simpl. auto 10.
  - intros (pb & pz & Hb & Hz & Hs & Ha & Hd & Hr).
    exists (bn_bay_id r, pb, pz). split; [symmetry; exact Hr|].
    apply filter_In. split.
    + apply list_elem_of_In, elem_of_bays_join_zones. auto.
    + apply sql_eq_true in Hs, Ha. apply ST_DWithin_spec in Hd.
      rewrite Hs, Ha, Hd. reflexivity.
Qed.

(** C5. find_available_bays_near returns only bays that are available and
    at a geodesic distance of at most radius_meters from the centre point,
    each with that distance, in ascending order of distance; it returns
    every such bay of an active zone. *)
Theorem find_available_bays_near_within_radius_sorted (db : database)
    (lat lng radius_meters : Q) :
  let center := ST_SetSRID (ST_MakePoint lng lat) 4326 in
  let result := find_available_bays_near db lat lng radius_meters in
  (forall r, r ∈ result ->
     exists pb,
       parking_bays db !! bn_bay_id r = Some pb
       /\ pb_status pb = Some available
       /\ bn_status r = Some available
       /\ bn_distance_meters r = ST_Distance_geography (pb_geom pb) center
       /\ bn_distance_meters r <= radius_meters)
  /\ (forall r pb,
        parking_bays db !! bn_bay_id r = Some pb ->
        radius_meters < ST_Distance_geography (pb_geom pb) center ->
        r ∉ result)
  /\ (forall r pb,
        parking_bays db !! bn_bay_id r = Some pb ->
        pb_status pb <> Some available ->
        r ∉ result)
  /\ StronglySorted (λ r1 r2, bn_distance_meters r1 <= bn_distance_meters r2)
       result
  /\ (forall i j ri rj,
        result !! i = Some ri -> result !! j = Some rj -> (i <= j)%nat ->
        bn_distance_meters ri <= bn_distance_meters rj)
  /\ (forall bay_id pb pz,
        parking_bays db !! bay_id = Some pb ->
        parking_zones db !! pb_zone_id pb = Some pz ->
        pb_status pb = Some available ->
        pz_is_active pz = Some true ->
        ST_Distance_geography (pb_geom pb) center <= radius_meters ->
        exists r, r ∈ result /\ bn_bay_id r = bay_id).
Proof.
  intros center result.
  assert (Hsorted : StronglySorted by_distance_meters result).
  { apply StronglySorted_merge_sort; apply _. }
  split.
  { intros r Hr.
    apply elem_of_find_available_bays_near in Hr
      as (pb & pz & Hb & Hz & Hs & Ha & Hd & Hrow).
    exists pb. rewrite Hrow. simpl. auto. }
  split.
  { intros r pb Hb Hfar Hr.
    apply elem_of_find_available_bays_near in Hr
      as (pb' & pz & Hb' & _ & _ & _ & Hd & _).
    rewrite Hb in Hb'. injection Hb' as <-.
    exact (Qlt_not_le _ _ Hfar Hd). }
  split.
  { intros r pb Hb Hst Hr.
    apply elem_of_find_available_bays_near in Hr
      as (pb' & pz & Hb' & _ & Hs & _).
    rewrite Hb in Hb'. injection Hb' as <-. contradiction. }
  split; [exact Hsorted|].
  split.
  { intros i j ri rj Hi Hj Hij.
    destruct (decide (i = j)) as [->|Hne].
    - rewrite Hi in Hj. injection Hj as <-. apply Qle_refl.
    - assert (Hlt : (i < j)%nat) by lia. clear Hij Hne.
      revert i j Hi Hj Hlt. induction Hsorted as [|x l _ IH Hall];
        intros i j Hi Hj Hlt; [discriminate|].
      destruct j as [|j]; [lia|]. destruct i as [|i].
      + simpl in Hi, Hj. injection Hi as <-.
        rewrite List.Forall_forall in Hall. apply Hall.
        apply list_elem_of_In, list_elem_of_lookup. eauto.
      + simpl in Hi, Hj. apply (IH i j); [assumption..|lia]. }
  intros bay_id pb pz Hb Hz Hs Ha Hd.
  exists (mkBayNear bay_id (pb_bay_number pb) (pb_zone_id pb) (pz_name pz)
            (pb_status pb) (pb_is_disabled_only pb) (pb_is_electric pb)
            (ST_Distance_geography (pb_geom pb) center) (pb_geom pb)).
  split; [|reflexivity].
  apply elem_of_find_available_bays_near. exists pb, pz. simpl. auto 10.
Qed.

(** C10. find_available_bays_near returns only bays of zones whose
    is_active is true: a bay of a zone with is_active false is in no
    result, whatever its status and its distance. *)
Theorem find_available_bays_near_active_zones_only (db : database)
    (lat lng radius_meters : Q) :
  let result := find_available_bays_near db lat lng radius_meters in
  (forall r, r ∈ result ->
     exists pb pz,
       parking_bays db !! bn_bay_id r = Some pb
       /\ parking_zones db !! pb_zone_id pb = Some pz
       /\ bn_zone_id r = pb_zone_id pb
       /\ pz_is_active pz = Some true)
  /\ (forall bay_id pb pz,
        parking_bays db !! bay_id = Some pb ->
        parking_zones db !! pb_zone_id pb = Some pz ->
        pz_is_active pz = Some false ->
        forall r, r ∈ result -> bn_bay_id r <> bay_id).
Proof.
  intros result. split.
  - intros r Hr.
    apply elem_of_find_available_bays_near in Hr
      as (pb & pz & Hb & Hz & _ & Ha & _ & Hrow).
    exists pb, pz. rewrite Hrow. simpl. auto.
  - intros bay_id pb pz Hb Hz Hoff r Hr <-.
    apply elem_of_find_available_bays_near in Hr
      as (pb' & pz' & Hb' & Hz' & _ & Ha & _).
    rewrite Hb in Hb'. injection Hb' as <-.
    rewrite Hz in Hz'. injection Hz' as <-. congruence.
Qed.

End RadiusSearch.

(** ** Zone occupancy *)

Lemma ROUND2_nonneg (x : Q) :
  0 <= x -> ROUND2 x = inject_Z (Qfloor (x * 100 + (1 # 2))) / 100.
Proof.
  intros H. unfold ROUND2. apply Qle_bool_iff in H. rewrite H. reflexivity.
Qed.

Lemma ROUND2_close (x : Q) : 0 <= x -> Qabs (ROUND2 x - x) <= 1 # 200.
Proof.
  intros H. rewrite (ROUND2_nonneg x H).
  pose proof (Qfloor_le (x * 100 + (1 # 2))) as Hlo.
  pose proof (Qlt_floor (x * 100 + (1 # 2))) as Hhi.
  rewrite inject_Z_plus in Hhi.
  set (n := inject_Z (Qfloor (x * 100 + (1 # 2)))) in *.
  change (inject_Z 1) with 1 in Hhi.
  assert (E : n / 100 == n * (1 # 100)) by reflexivity.
  apply Qabs_Qle_condition. rewrite E. split; lra.
Qed.

Lemma length_filter_Permutation {A B : Type} (f : A -> B) (p : B -> bool)
    (l l' : list A) :
  l ≡ₚ l' ->
  length (List.filter p (f <$> l)) = length (List.filter p (f <$> l')).
Proof.
  induction 1 as [|x l l' _ IH|x y l|l l' l'' _ IH1 _ IH2];
    rewrite ?fmap_cons; simpl.
  - reflexivity.
  - destruct (p (f x)); simpl; congruence.
  - destruct (p (f x)), (p (f y)); reflexivity.
  - congruence.
Qed.

Lemma count_rows (m : gmap Z parking_bay) (p : parking_bay -> bool) :
  length (List.filter p (snd <$> map_to_list m))
  = size (filter (λ kb : Z * parking_bay, Is_true (p kb.2)) m).
Proof.
  induction m as [|k b m Hk IH] using map_ind.
  { rewrite map_to_list_empty, map_filter_empty, map_size_empty. reflexivity. }
  rewrite (length_filter_Permutation snd p _ _ (map_to_list_insert m k b Hk)).
  rewrite fmap_cons. simpl. destruct (p b) eqn:E.
  - rewrite map_filter_insert_True by (simpl; rewrite E; exact I).
    rewrite map_size_insert_None by (apply map_lookup_filter_None; auto).
    simpl. rewrite IH. reflexivity.
  - rewrite map_filter_insert_False by (simpl; rewrite E; auto).
    rewrite delete_id by exact Hk. exact IH.
Qed.

Lemma filter_filter_length {A : Type} (p q : A -> bool) (l : list A) :
  length (List.filter q (List.filter p l))
  = length (List.filter (λ x, p x && q x) l).
Proof.
  induction l as [|x l IH]; [reflexivity|].
  simpl. destruct (p x); simpl; [destruct (q x); simpl; congruence|exact IH].
Qed.

Lemma COUNT_FILTER_bays_where (db : database) (zone_id : Z)
    (q : parking_bay -> bool) (P : parking_bay -> Prop)
    `{forall b, Decision (P b)} :
  (forall b, (pb_zone_id b =? zone_id)%Z && q b = true <-> P b) ->
  COUNT_FILTER q
    (List.filter (λ pb, (pb_zone_id pb =? zone_id)%Z)
       (snd <$> map_to_list (parking_bays db)))
  = bays_where db P.
Proof.
  intros HP. unfold COUNT_FILTER, bays_where. f_equal.
  rewrite filter_filter_length, count_rows. f_equal.
  apply map_filter_ext. intros k b _. simpl.
  rewrite <- HP. apply Is_true_true.
Qed.

Lemma status_partition (rows : list parking_bay) :
  let n (p : parking_bay -> bool) := COUNT_FILTER p rows in
  (Z.of_nat (length rows)
   = n (λ pb, sql_eq (pb_status pb) available)
     + n (λ pb, sql_eq (pb_status pb) occupied)
     + n (λ pb, sql_eq (pb_status pb) reserved)
     + n (λ pb, sql_eq (pb_status pb) closed)
     + n (λ pb, bool_decide (pb_status pb = None)))%Z
  /\ (n (λ pb, sql_ne (pb_status pb) closed)
      = n (λ pb, sql_eq (pb_status pb) available)
        + n (λ pb, sql_eq (pb_status pb) occupied)
        + n (λ pb, sql_eq (pb_status pb) reserved))%Z.
Proof.
  unfold COUNT_FILTER. induction rows as [|b rows [IH1 IH2]]; [split; reflexivity|].
  simpl. destruct (pb_status b) as [[]|]; simpl; split; lia.
Qed.

Lemma percent_nonneg (a b : Z) :
  (0 <= a)%Z -> (0 < b)%Z -> 0 <= inject_Z a / inject_Z b * 100.
Proof.
  intros Ha Hb. unfold Qdiv.
  apply Qmult_le_0_compat; [|discriminate].
  apply Qmult_le_0_compat.
  - change 0 with (inject_Z 0). rewrite <- Zle_Qle. exact Ha.
  - apply Qinv_le_0_compat. change 0 with (inject_Z 0).
    rewrite <- Zle_Qle. lia.
Qed.

Lemma total_bays_where (db : database) (zone_id : Z) :
  Z.of_nat (length (List.filter (λ pb, (pb_zone_id pb =? zone_id)%Z)
                      (snd <$> map_to_list (parking_bays db))))
  = bays_where db (λ b, pb_zone_id b = zone_id).
Proof.
  unfold bays_where. f_equal. rewrite count_rows. f_equal.
  apply map_filter_ext. intros k b _. simpl.
  rewrite Is_true_true. apply Z.eqb_eq.
Qed.

Lemma in_zone_with_status_eq (zone_id : Z) (s : bay_status)
    (b : parking_bay) :
  (pb_zone_id b =? zone_id)%Z && sql_eq (pb_status b) s = true
  <-> in_zone_with_status zone_id (Some s) b.
Proof.
  unfold in_zone_with_status.
  rewrite andb_true_iff, Z.eqb_eq, sql_eq_true. reflexivity.
Qed.

Lemma in_zone_with_status_null (zone_id : Z) (b : parking_bay) :
  (pb_zone_id b =? zone_id)%Z && bool_decide (pb_status b = None) = true
  <-> in_zone_with_status zone_id None b.
Proof.
  unfold in_zone_with_status.
  rewrite andb_true_iff, Z.eqb_eq, bool_decide_eq_true. reflexivity.
Qed.

(** C7. calculate_zone_occupancy counts the bays of the zone, and those
    with each status; its percentage is the number of occupied bays over the
    number of bays with a status other than 'closed', times 100, rounded to
    two decimals, and 0 when there is no such bay. Closed bays are in the
    total and not in the denominator (nor are bays whose status is NULL, on
    which [status != 'closed'] is not true): when every bay of the zone has
    a status, the denominator is the total less the closed bays. *)
Theorem calculate_zone_occupancy_excludes_closed (db : database)
    (p_zone_id : Z) :
  let o := calculate_zone_occupancy db p_zone_id in
  let n s := bays_where db (in_zone_with_status p_zone_id s) in
  let not_closed :=
    (n (Some available) + n (Some occupied) + n (Some reserved))%Z in
  let ratio := inject_Z (n (Some occupied)) / inject_Z not_closed * 100 in
  total_bays o = bays_where db (λ b, pb_zone_id b = p_zone_id)
  /\ available_bays o = n (Some available)
  /\ occupied_bays o = n (Some occupied)
  /\ reserved_bays o = n (Some reserved)
  /\ closed_bays o = n (Some closed)
  /\ (total_bays o = not_closed + n (Some closed) + n None)%Z
  /\ (n None = 0%Z -> not_closed = (total_bays o - closed_bays o)%Z)
  /\ ((0 < not_closed)%Z ->
      occupancy_percent o = ROUND2 ratio
      /\ Qabs (occupancy_percent o - ratio) <= 1 # 200)
  /\ (not_closed = 0%Z -> occupancy_percent o = 0).
Proof.
  intros o n not_closed ratio. subst o. unfold calculate_zone_occupancy.
  set (rows := List.filter (λ pb, (pb_zone_id pb =? p_zone_id)%Z)
                 (snd <$> map_to_list (parking_bays db))).
  destruct (status_partition rows) as [Htotal Hden]. simpl in Htotal, Hden.
  assert (Hn : forall s,
             COUNT_FILTER (λ pb, sql_eq (pb_status pb) s) rows = n (Some s)).
  { intros s. apply COUNT_FILTER_bays_where, in_zone_with_status_eq. }
  assert (Hnull :
            COUNT_FILTER (λ pb, bool_decide (pb_status pb = None)) rows
            = n None).
  { apply COUNT_FILTER_bays_where, in_zone_with_status_null. }
  rewrite !Hn, Hnull in Htotal. rewrite !Hn in Hden. simpl.
  rewrite !Hn, Hden. fold not_closed. fold ratio.
  split; [apply total_bays_where|].
  do 4 (split; [reflexivity|]).
  split; [rewrite Htotal; unfold not_closed; lia|].
  split; [rewrite Htotal; unfold not_closed; lia|].
  split.
  - intros Hpos. rewrite (proj2 (Z.ltb_lt _ _) Hpos).
    split; [reflexivity|]. apply ROUND2_close. apply percent_nonneg; [|exact Hpos].
    unfold n, bays_where. lia.
  - intros H0. rewrite H0. reflexivity.
Qed.

(** ** Sessions and bay status *)

Lemma bay_status_of_UPDATE (db : database) (now : timestamp)
    (bay_id k : Z) (s : bay_status) :
  bay_status_of (UPDATE_bay_status db now bay_id s) k
  = if decide (bay_id = k) then (λ _, Some s) <$> bay_status_of db k
    else bay_status_of db k.
Proof.
  unfold bay_status_of, UPDATE_bay_status. simpl.
  rewrite lookup_alter. destruct (decide (bay_id = k)) as [->|Hne].
  - destruct (parking_bays db !! k); reflexivity.
  - reflexivity.
Qed.

(** The trigger function, by the status it writes. *)
Lemma update_bay_status_on_session_eq (TG_OP : trigger_op)
    (OLD NEW : parking_session) (now : timestamp) (db : database) :
  update_bay_status_on_session TG_OP OLD NEW now db
  = (match status_written TG_OP OLD NEW with
     | Some s => UPDATE_bay_status db now (ps_bay_id NEW) s
     | None => db
     end, RETURN NEW).
Proof.
  unfold update_bay_status_on_session, status_written.
  destruct TG_OP, (ps_status OLD) as [[]|], (ps_status NEW) as [[]|];
    reflexivity.
Qed.

Lemma bay_status_after_trigger (TG_OP : trigger_op)
    (OLD NEW : parking_session) (now : timestamp) (db : database) (k : Z) :
  bay_status_of (update_bay_status_on_session TG_OP OLD NEW now db).1 k
  = match status_written TG_OP OLD NEW with
    | Some s =>
        if decide (ps_bay_id NEW = k)
        then (λ _, Some s) <$> bay_status_of db k
        else bay_status_of db k
    | None => bay_status_of db k
    end.
Proof.
  rewrite update_bay_status_on_session_eq. simpl.
  destruct (status_written TG_OP OLD NEW); [apply bay_status_of_UPDATE|].
  reflexivity.
Qed.

Lemma INSERT_parking_sessions_eq (db : database) (now : timestamp)
    (session_id : Z) (row : parking_session) :
  parking_sessions db !! session_id = None ->
  is_Some (parking_bays db !! ps_bay_id row) ->
  INSERT_parking_sessions db now session_id row
  = inr (let db1 := with_parking_sessions db
                      (<[session_id := row]> (parking_sessions db)) in
         match status_written TG_INSERT row row with
         | Some s => UPDATE_bay_status db1 now (ps_bay_id row) s
         | None => db1
         end).
Proof.
  intros Hfresh [b Hb]. unfold INSERT_parking_sessions.
  rewrite Hfresh, Hb, update_bay_status_on_session_eq. reflexivity.
Qed.

Lemma UPDATE_parking_sessions_status_eq (db : database) (now : timestamp)
    (session_id : Z) (OLD : parking_session) (s : option session_status) :
  parking_sessions db !! session_id = Some OLD ->
  UPDATE_parking_sessions db now session_id (mkSessionSet None (Some s))
  = inr (let NEW := mkSession (ps_bay_id OLD) s in
         let db1 := with_parking_sessions db
                      (<[session_id := NEW]> (parking_sessions db)) in
         match status_written TG_UPDATE OLD NEW with
         | Some st => UPDATE_bay_status db1 now (ps_bay_id OLD) st
         | None => db1
         end).
Proof.
  intros HO. unfold UPDATE_parking_sessions. rewrite HO. cbv zeta.
  replace (assign_session (mkSessionSet None (Some s)) OLD)
    with (mkSession (ps_bay_id OLD) s) by reflexivity.
  cbn [ps_bay_id set_ps_status].
  rewrite (bool_decide_eq_true_2 (ps_bay_id OLD = ps_bay_id OLD) eq_refl).
  cbn [negb andb]. rewrite bool_decide_eq_true_2 by eauto.
  rewrite update_bay_status_on_session_eq. reflexivity.
Qed.

Lemma UPDATE_parking_sessions_eq (db : database) (now : timestamp)
    (session_id : Z) (a : session_assignment) (OLD : parking_session) :
  parking_sessions db !! session_id = Some OLD ->
  ps_bay_id (assign_session a OLD) = ps_bay_id OLD
  \/ is_Some (parking_bays db !! ps_bay_id (assign_session a OLD)) ->
  UPDATE_parking_sessions db now session_id a
  = inr (let NEW := assign_session a OLD in
         let db1 := with_parking_sessions db
                      (<[session_id := NEW]> (parking_sessions db)) in
         if bool_decide (is_Some (set_ps_status a))
         then (update_bay_status_on_session TG_UPDATE OLD NEW now db1).1
         else db1).
Proof.
  intros HO Hfk. unfold UPDATE_parking_sessions. rewrite HO. cbv zeta.
  assert (E : negb (bool_decide (ps_bay_id (assign_session a OLD)
                                 = ps_bay_id OLD))
              && negb (bool_decide
                         (is_Some (parking_bays db
                                     !! ps_bay_id (assign_session a OLD))))
              = false).
  { destruct Hfk as [H|H]; rewrite (bool_decide_eq_true_2 _ H).
    - reflexivity.
    - apply andb_false_r. }
  rewrite E. destruct (bool_decide (is_Some (set_ps_status a))); [|reflexivity].
  rewrite update_bay_status_on_session_eq. reflexivity.
Qed.

Lemma UPDATE_parking_sessions_dangling (db : database) (now : timestamp)
    (session_id : Z) (a : session_assignment) (OLD : parking_session) :
  parking_sessions db !! session_id = Some OLD ->
  ps_bay_id (assign_session a OLD) <> ps_bay_id OLD ->
  parking_bays db !! ps_bay_id (assign_session a OLD) = None ->
  UPDATE_parking_sessions db now session_id a
  = inl (foreign_key_violation "parking_sessions"
           (ps_bay_id (assign_session a OLD))).
Proof.
  intros HO Hne Hnone. unfold UPDATE_parking_sessions. rewrite HO. cbv zeta.
  rewrite (bool_decide_eq_false_2 _ Hne), Hnone.
  rewrite bool_decide_eq_false_2 by apply is_Some_None. reflexivity.
Qed.

(** C9. The trigger function of parking_sessions writes the status of the
    session's bay on exactly these changes: the insert of an 'active'
    session (occupied), the update of an 'active' session to 'completed' or
    'cancelled' (available) and to 'overstay' (occupied). On every other
    insert or update, and for every other bay, the statuses stay as they
    were; an UPDATE that does not assign the session's status fires no
    trigger. The statements themselves go through: an INSERT with a new key
    on an existing bay, and an UPDATE of a stored session that keeps its
    bay or moves it to an existing one, are accepted, store the session and
    leave the database of the trigger function. *)
Theorem session_changes_drive_bay_status (db : database) (now : timestamp)
    (OLD NEW : parking_session) :
  let B := ps_bay_id NEW in
  let after op := (update_bay_status_on_session op OLD NEW now db).1 in
  let stored session_id :=
    with_parking_sessions db (<[session_id := NEW]> (parking_sessions db)) in
  (is_Some (parking_bays db !! B) ->
     (ps_status NEW = Some active ->
        bay_status_of (after TG_INSERT) B = Some (Some occupied))
     /\ (ps_status OLD = Some active ->
         ps_status NEW = Some completed \/ ps_status NEW = Some cancelled ->
         bay_status_of (after TG_UPDATE) B = Some (Some available))
     /\ (ps_status OLD = Some active ->
         ps_status NEW = Some overstay ->
         bay_status_of (after TG_UPDATE) B = Some (Some occupied)))
  /\ (ps_status NEW <> Some active -> after TG_INSERT = db)
  /\ (~ (ps_status OLD = Some active
         /\ (ps_status NEW = Some completed
             \/ ps_status NEW = Some cancelled
             \/ ps_status NEW = Some overstay)) ->
      after TG_UPDATE = db)
  /\ (forall op k, k <> B -> bay_status_of (after op) k = bay_status_of db k)
  /\ (forall op,
        (update_bay_status_on_session op OLD NEW now db).2 = RETURN NEW)
  /\ (forall session_id a db',
        set_ps_status a = None ->
        UPDATE_parking_sessions db now session_id a = inr db' ->
        parking_bays db' = parking_bays db)
  /\ (forall session_id db',
        INSERT_parking_sessions db now session_id NEW = inr db' ->
        forall k,
          bay_status_of db' k
          = if decide (k = B /\ ps_status NEW = Some active)
            then Some (Some occupied) else bay_status_of db k)
  /\ (forall session_id a db',
        parking_sessions db !! session_id = Some OLD ->
        assign_session a OLD = NEW ->
        is_Some (set_ps_status a) ->
        UPDATE_parking_sessions db now session_id a = inr db' ->
        forall k, bay_status_of db' k = bay_status_of (after TG_UPDATE) k)
  /\ (forall session_id,
        parking_sessions db !! session_id = None ->
        is_Some (parking_bays db !! B) ->
        INSERT_parking_sessions db now session_id NEW
        = inr (update_bay_status_on_session TG_INSERT NEW NEW now
                 (stored session_id)).1
        /\ (ps_status NEW = Some active ->
            exists db',
              INSERT_parking_sessions db now session_id NEW = inr db'
              /\ parking_sessions db' !! session_id = Some NEW
              /\ bay_status_of db' B = Some (Some occupied)))
  /\ (forall session_id a,
        parking_sessions db !! session_id = Some OLD ->
        assign_session a OLD = NEW ->
        B = ps_bay_id OLD \/ is_Some (parking_bays db !! B) ->
        UPDATE_parking_sessions db now session_id a
        = inr (if bool_decide (is_Some (set_ps_status a))
               then (update_bay_status_on_session TG_UPDATE OLD NEW now
                       (stored session_id)).1
               else stored session_id))
  /\ (forall session_id a,
        parking_sessions db !! session_id = Some OLD ->
        assign_session a OLD = NEW ->
        is_Some (set_ps_status a) ->
        is_Some (parking_bays db !! B) ->
        ps_status OLD = Some active ->
        exists db',
          UPDATE_parking_sessions db now session_id a = inr db'
          /\ parking_sessions db' !! session_id = Some NEW
          /\ (ps_status NEW = Some completed \/ ps_status NEW = Some cancelled
              -> bay_status_of db' B = Some (Some available))
          /\ (ps_status NEW = Some overstay ->
              bay_status_of db' B = Some (Some occupied)))
  /\ (forall session_id a,
        parking_sessions db !! session_id = Some OLD ->
        assign_session a OLD = NEW ->
        B <> ps_bay_id OLD ->
        parking_bays db !! B = None ->
        UPDATE_parking_sessions db now session_id a
        = inl (foreign_key_violation "parking_sessions" B)).
Proof.
  intros B after stored. subst after. cbv beta.
  assert (Hstored : forall session_id k,
            bay_status_of (stored session_id) k = bay_status_of db k)
    by reflexivity.
  assert (Hsess : forall op O session_id,
            parking_sessions
              (update_bay_status_on_session op O NEW now
                 (stored session_id)).1 !! session_id = Some NEW).
  { intros op O session_id. rewrite update_bay_status_on_session_eq.
    destruct (status_written op O NEW); simpl; apply lookup_insert_eq. }
  split.
  { intros [b Hb].
    assert (Hs : bay_status_of db B = Some (pb_status b)).
    { unfold bay_status_of. rewrite Hb. reflexivity. }
    split; [|split].
    - intros HN. rewrite bay_status_after_trigger. unfold status_written.
      rewrite HN. rewrite decide_True by reflexivity. rewrite Hs. reflexivity.
    - intros HO [HN|HN]; rewrite bay_status_after_trigger;
        unfold status_written; rewrite HO, HN;
        rewrite decide_True by reflexivity; rewrite Hs; reflexivity.
    - intros HO HN. rewrite bay_status_after_trigger. unfold status_written.
      rewrite HO, HN. rewrite decide_True by reflexivity. rewrite Hs.
      reflexivity. }
  split.
  { intros HN. rewrite update_bay_status_on_session_eq. simpl.
    destruct (ps_status NEW) as [[]|]; try reflexivity. congruence. }
  split.
  { intros Hnot. rewrite update_bay_status_on_session_eq.
    unfold status_written.
    destruct (ps_status OLD) as [[]|], (ps_status NEW) as [[]|];
      try reflexivity; exfalso; apply Hnot; auto. }
  split.
  { intros op k Hk. rewrite bay_status_after_trigger.
    destruct (status_written op OLD NEW); [|reflexivity].
    rewrite decide_False by (fold B; congruence). reflexivity. }
  split.
  { intros op. rewrite update_bay_status_on_session_eq. reflexivity. }
  split.
  { intros session_id a db' Ha. unfold UPDATE_parking_sessions.
    destruct (parking_sessions db !! session_id) as [O|];
      [|intros [= <-]; reflexivity].
    destruct (negb _ && negb _); [discriminate|].
    rewrite Ha. rewrite bool_decide_eq_false_2 by apply is_Some_None.
    intros [= <-]. reflexivity. }
  split.
  { intros session_id db'. unfold INSERT_parking_sessions.
    destruct (parking_sessions db !! session_id); [discriminate|].
    destruct (parking_bays db !! ps_bay_id NEW) as [b|] eqn:Hb;
      [|discriminate].
    rewrite update_bay_status_on_session_eq. simpl. intros [= <-] k.
    unfold status_written.
    destruct (ps_status NEW) as [[]|] eqn:HN;
      try (rewrite decide_False by (intros [_ ?]; discriminate); reflexivity).
    rewrite bay_status_of_UPDATE. fold B.
    destruct (decide (B = k)) as [<-|Hne].
    - rewrite decide_True by auto. unfold bay_status_of. simpl.
      fold B in Hb. rewrite Hb. reflexivity.
    - rewrite decide_False by (intros [-> _]; congruence). reflexivity. }
  split.
  { intros session_id a db' HO Ha Hset H k.
    rewrite bay_status_after_trigger.
    unfold UPDATE_parking_sessions in H. rewrite HO in H. cbv zeta in H.
    rewrite Ha in H.
    destruct (negb _ && negb _); [discriminate|].
    rewrite bool_decide_eq_true_2 in H by exact Hset.
    rewrite update_bay_status_on_session_eq in H.
    destruct (status_written TG_UPDATE OLD NEW) as [s|];
      unfold after_row in H; injection H as <-.
    - rewrite bay_status_of_UPDATE. reflexivity.
    - reflexivity. }
  split.
  { intros session_id Hfresh Hbay.
    assert (E : INSERT_parking_sessions db now session_id NEW
                = inr (update_bay_status_on_session TG_INSERT NEW NEW now
                         (stored session_id)).1).
    { rewrite (INSERT_parking_sessions_eq _ _ _ _ Hfresh Hbay).
      rewrite update_bay_status_on_session_eq. reflexivity. }
    split; [exact E|]. intros HN. eexists. split; [exact E|].
    split; [apply Hsess|].
    rewrite bay_status_after_trigger, Hstored. unfold status_written.
    rewrite HN. rewrite decide_True by reflexivity.
    destruct Hbay as [b Hb]. unfold bay_status_of. fold B. rewrite Hb.
    reflexivity. }
  assert (Hupd : forall session_id a,
            parking_sessions db !! session_id = Some OLD ->
            assign_session a OLD = NEW ->
            B = ps_bay_id OLD \/ is_Some (parking_bays db !! B) ->
            UPDATE_parking_sessions db now session_id a
            = inr (if bool_decide (is_Some (set_ps_status a))
                   then (update_bay_status_on_session TG_UPDATE OLD NEW now
                           (stored session_id)).1
                   else stored session_id)).
  { intros session_id a HO Ha Hfk.
    rewrite (UPDATE_parking_sessions_eq db now session_id a OLD HO).
    - cbv zeta. rewrite Ha. reflexivity.
    - rewrite Ha. exact Hfk. }
  split; [exact Hupd|].
  split.
  { intros session_id a HO Ha Hset Hbay Hact.
    eexists. split; [apply Hupd; auto|].
    rewrite (bool_decide_eq_true_2 _ Hset).
    split; [apply Hsess|].
    destruct Hbay as [b Hb].
    assert (Hs : bay_status_of db B = Some (pb_status b)).
    { unfold bay_status_of. rewrite Hb. reflexivity. }
    split.
    - intros [HN|HN]; rewrite bay_status_after_trigger, Hstored;
        unfold status_written; rewrite Hact, HN;
        rewrite decide_True by reflexivity; rewrite Hs; reflexivity.
    - intros HN. rewrite bay_status_after_trigger, Hstored.
      unfold status_written. rewrite Hact, HN.
      rewrite decide_True by reflexivity. rewrite Hs. reflexivity. }
  intros session_id a HO Ha Hne Hnone. subst B. rewrite <- Ha in Hne, Hnone.
  rewrite (UPDATE_parking_sessions_dangling _ _ _ _ _ HO Hne Hnone).
  rewrite Ha. reflexivity.
Qed.

Lemma session_changes_drive_bay_status_witness :
  bay_status_of
    (update_bay_status_on_session TG_INSERT (mkSession 1 (Some active))
       (mkSession 1 (Some active)) 0%Z Scenario.db0).1 1
  = Some (Some occupied)
  /\ bay_status_of
       (update_bay_status_on_session TG_UPDATE (mkSession 5 (Some active))
          (mkSession 5 (Some completed)) 0%Z Scenario.db0).1 5
     = Some (Some available)
  /\ bay_status_of
       (update_bay_status_on_session TG_UPDATE (mkSession 5 (Some active))
          (mkSession 5 (Some overstay)) 0%Z Scenario.db0).1 5
     = Some (Some occupied)
  /\ (update_bay_status_on_session TG_UPDATE (mkSession 5 (Some completed))
        (mkSession 5 (Some cancelled)) 0%Z Scenario.db0).1
     = Scenario.db0
  /\ (exists db',
        INSERT_parking_sessions Scenario.db0 0%Z 1 (mkSession 1 (Some active))
        = inr db'
        /\ parking_sessions db' !! 1%Z = Some (mkSession 1 (Some active))
        /\ bay_status_of db' 1 = Some (Some occupied))
  /\ (let db := with_parking_sessions Scenario.db0
                  (<[1%Z := mkSession 5 (Some active)]> ∅) in
      exists db',
        UPDATE_parking_sessions db 0%Z 1
          (mkSessionSet None (Some (Some completed))) = inr db'
        /\ parking_sessions db' !! 1%Z = Some (mkSession 5 (Some completed))
        /\ bay_status_of db' 5 = Some (Some available)).
Proof.
  split; [|split; [|split; [|split; [|split]]]].
  5:{ destruct (session_changes_drive_bay_status Scenario.db0 0%Z
                  (mkSession 1 (Some active)) (mkSession 1 (Some active)))
        as (_ & _ & _ & _ & _ & _ & _ & _ & H & _).
      destruct (H 1%Z) as [_ Hact].
      - vm_compute. reflexivity.
      - vm_compute. eauto.
      - apply Hact. reflexivity. }
  5:{ intros db.
      destruct (session_changes_drive_bay_status db 0%Z
                  (mkSession 5 (Some active)) (mkSession 5 (Some completed)))
        as (_ & _ & _ & _ & _ & _ & _ & _ & _ & _ & H & _).
      destruct (H 1%Z (mkSessionSet None (Some (Some completed))))
        as (db' & E & Hs & Hfree & _).
      - vm_compute. reflexivity.
      - reflexivity.
      - simpl. eauto.
      - vm_compute. eauto.
      - reflexivity.
      - exists db'. split; [exact E|]. split; [exact Hs|].
        apply Hfree. left. reflexivity. }
  - destruct (session_changes_drive_bay_status Scenario.db0 0%Z
                (mkSession 1 (Some active)) (mkSession 1 (Some active)))
      as (H & _).
    destruct H as (H & _); [vm_compute; eauto|].
    apply H. reflexivity.
  - destruct (session_changes_drive_bay_status Scenario.db0 0%Z
                (mkSession 5 (Some active)) (mkSession 5 (Some completed)))
      as (H & _).
    destruct H as (_ & H & _); [vm_compute; eauto|].
    apply H; [reflexivity|left; reflexivity].
  - destruct (session_changes_drive_bay_status Scenario.db0 0%Z
                (mkSession 5 (Some active)) (mkSession 5 (Some overstay)))
      as (H & _).
    destruct H as (_ & _ & H); [vm_compute; eauto|].
    apply H; reflexivity.
  - destruct (session_changes_drive_bay_status Scenario.db0 0%Z
                (mkSession 5 (Some completed)) (mkSession 5 (Some cancelled)))
      as (_ & _ & H & _).
    apply H. simpl. intros [Habs _]. discriminate Habs.
Defined.

(** A session started on bay 6, which is closed, and one on bay 5, which is
    occupied already: neither INSERT is refused, and bay 6 is occupied
    afterwards. *)
Lemma session_start_overwrites_unavailable_bay :
  bay_status_of Scenario.db0 6 = Some (Some closed)
  /\ (exists db',
        INSERT_parking_sessions Scenario.db0 0%Z 1 (mkSession 6 (Some active))
        = inr db'
        /\ bay_status_of db' 6 = Some (Some occupied))
  /\ bay_status_of Scenario.db0 5 = Some (Some occupied)
  /\ (exists db',
        INSERT_parking_sessions Scenario.db0 0%Z 1 (mkSession 5 (Some active))
        = inr db').
Proof.
  split; [vm_compute; reflexivity|].
  split.
  { eexists. split; vm_compute; reflexivity. }
  split; [vm_compute; reflexivity|].
  eexists. vm_compute. reflexivity.
Qed.

(** C8, as the trigger has it. The status of a bay is written without a
    look at its current status: the trigger function takes no expected
    status and never raises, and the INSERT of an 'active' session on an
    existing bay succeeds and leaves the bay 'occupied' whatever its status
    was. *)
Theorem bay_status_is_set_without_check (db : database) (now : timestamp) :
  (forall op OLD NEW,
     (update_bay_status_on_session op OLD NEW now db).2 = RETURN NEW)
  /\ (forall op OLD NEW s current,
        status_written op OLD NEW = Some s ->
        bay_status_of db (ps_bay_id NEW) = Some current ->
        bay_status_of (update_bay_status_on_session op OLD NEW now db).1
          (ps_bay_id NEW)
        = Some (Some s))
  /\ (forall session_id row current,
        parking_sessions db !! session_id = None ->
        bay_status_of db (ps_bay_id row) = Some current ->
        ps_status row = Some active ->
        exists db',
          INSERT_parking_sessions db now session_id row = inr db'
          /\ bay_status_of db' (ps_bay_id row) = Some (Some occupied)).
Proof.
  split.
  { intros op OLD NEW. rewrite update_bay_status_on_session_eq. reflexivity. }
  split.
  { intros op OLD NEW s current Hw Hc. rewrite bay_status_after_trigger, Hw.
    rewrite decide_True by reflexivity. rewrite Hc. reflexivity. }
  intros session_id row current Hfresh Hc Hactive.
  unfold INSERT_parking_sessions. rewrite Hfresh.
  unfold bay_status_of in Hc.
  destruct (parking_bays db !! ps_bay_id row) as [b|] eqn:Hb; [|discriminate].
  rewrite update_bay_status_on_session_eq. unfold status_written.
  rewrite Hactive. simpl. eexists. split; [reflexivity|].
  rewrite bay_status_of_UPDATE. rewrite decide_True by reflexivity.
  unfold bay_status_of. simpl. rewrite Hb. reflexivity.
Qed.

Lemma bay_status_is_set_without_check_witness :
  exists db',
    INSERT_parking_sessions Scenario.db0 0%Z 1 (mkSession 6 (Some active))
    = inr db'
    /\ bay_status_of db' 6 = Some (Some occupied).
Proof.
  destruct (bay_status_is_set_without_check Scenario.db0 0%Z) as (_ & _ & H).
  apply (H 1%Z (mkSession 6 (Some active)) (Some closed)).
  - vm_compute. reflexivity.
  - vm_compute. reflexivity.
  - reflexivity.
Defined.

Lemma find_available_bays_near_within_radius_sorted_witness :
  (exists r,
     r ∈ find_available_bays_near (K := Planar.kernel) Scenario.db0 11 16 300
     /\ bn_bay_id r = 1%Z)
  /\ (mkBayNear 4 "A-4" 1 "Lot A" (Some available) (Some false) (Some false)
        24 (pb_geom Scenario.bay_far)
      ∉ find_available_bays_near (K := Planar.kernel) Scenario.db0 11 16 10)
  /\ (mkBayNear 5 "A-5" 1 "Lot A" (Some occupied) (Some false) (Some false)
        0 (pb_geom Scenario.bay_taken)
      ∉ find_available_bays_near (K := Planar.kernel) Scenario.db0 11 16 300).
Proof.
  split; [|split].
  - destruct (find_available_bays_near_within_radius_sorted
                (K := Planar.kernel) Scenario.db0 11 16 300)
      as (_ & _ & _ & _ & _ & H).
    apply (H 1%Z Scenario.bay_inside Scenario.zone_A).
    + vm_compute. reflexivity.
    + vm_compute. reflexivity.
    + reflexivity.
    + reflexivity.
    + vm_compute. discriminate.
  - destruct (find_available_bays_near_within_radius_sorted
                (K := Planar.kernel) Scenario.db0 11 16 10)
      as (_ & H & _).
    apply (H _ Scenario.bay_far).
    + vm_compute. reflexivity.
    + vm_compute. reflexivity.
  - destruct (find_available_bays_near_within_radius_sorted
                (K := Planar.kernel) Scenario.db0 11 16 300)
      as (_ & _ & H & _).
    apply (H _ Scenario.bay_taken).
    + vm_compute. reflexivity.
    + discriminate.
Defined.

(** Scenario F: around the point (16, 11), within 300 m: bay 1 at 1 m, then
    bay 4 at 24 m; not the occupied and closed bays 5 and 6, nor bay 7 of
    the inactive zone. *)
Example find_available_bays_near_scenario_F :
  (λ r, (bn_bay_id r, bn_distance_meters r))
    <$> find_available_bays_near (K := Planar.kernel) Scenario.db0 11 16 300
  = [(1%Z, 1); (4%Z, 24)].
Proof. vm_compute. reflexivity. Qed.

Lemma find_available_bays_near_active_zones_only_witness :
  Forall (λ r, bn_bay_id r <> 7%Z)
    (find_available_bays_near (K := Planar.kernel) Scenario.db0 105 11 300).
Proof.
  apply Forall_forall. intros r Hr.
  destruct (find_available_bays_near_active_zones_only
              (K := Planar.kernel) Scenario.db0 105 11 300) as (_ & H).
  apply (H 7%Z Scenario.bay_yard Scenario.zone_closed).
  - vm_compute. reflexivity.
  - vm_compute. reflexivity.
  - reflexivity.
  - exact Hr.
Defined.

Lemma calculate_zone_occupancy_excludes_closed_witness :
  Qabs (occupancy_percent (calculate_zone_occupancy Scenario.db0 1)
        - (100 # 3)) <= 1 # 200.
Proof.
  destruct (calculate_zone_occupancy_excludes_closed Scenario.db0 1)
    as (_ & _ & _ & _ & _ & _ & _ & H & _).
  destruct H as [_ Hclose]; [vm_compute; reflexivity|].
  vm_compute in Hclose. vm_compute. exact Hclose.
Defined.

(** Zone 1 of the scenario: four bays, two available, one occupied, one
    closed; one occupied of three not closed is 33.33%. *)
Example calculate_zone_occupancy_scenario :
  calculate_zone_occupancy Scenario.db0 1
  = mkOccupancy 4 2 1 0 1 (3333 # 100).
Proof. vm_compute. reflexivity. Qed.

(** * Further properties of the scripts *)

(** ** Geometry kinds of persisted rows *)

Lemma GeometryType_POLYGON (g : Geometry) :
  String.eqb (GeometryType g) "POLYGON" = true
  <-> exists rings, shape g = Polygon rings.
Proof.
  unfold GeometryType. destruct (shape g); simpl; split;
    try discriminate; try (intros [? ?]; discriminate); eauto.
Qed.

Lemma GeometryType_POINT (g : Geometry) :
  String.eqb (GeometryType g) "POINT" = true <-> exists c, shape g = Point c.
Proof.
  unfold GeometryType. destruct (shape g); simpl; split;
    try discriminate; try (intros [? ?]; discriminate); eauto.
Qed.

Lemma GeometryType_LINESTRING (g : Geometry) :
  String.eqb (GeometryType g) "LINESTRING" = true
  <-> exists pts, shape g = LineString pts.
Proof.
  unfold GeometryType. destruct (shape g); simpl; split;
    try discriminate; try (intros [? ?]; discriminate); eauto.
Qed.

Section GeometryKinds.
Context `{K : PostGIS} `{F : Float8}.

Lemma validate_bay_geometry_type_accepts (NEW : parking_bay) :
  validate_bay_geometry_type NEW = RETURN NEW
  <-> valid_polygon_4326 (pb_geom NEW).
Proof.
  unfold validate_bay_geometry_type, valid_polygon_4326.
  rewrite <- GeometryType_POLYGON.
  destruct (String.eqb (GeometryType (pb_geom NEW)) "POLYGON"); simpl.
  2:{ split; [discriminate|]. intros [? _]. discriminate. }
  destruct (ST_SRID (pb_geom NEW) =? 4326)%Z eqn:Es; simpl.
  2:{ apply Z.eqb_neq in Es. split; [discriminate|]. tauto. }
  apply Z.eqb_eq in Es.
  destruct (ST_IsValid (pb_geom NEW)); simpl.
  - tauto.
  - split; [discriminate|]. intros (_ & _ & ?). discriminate.
Qed.



Lemma validate_sensor_geometry_type_accepts (NEW : sensor) :
  validate_sensor_geometry_type NEW = RETURN NEW <-> point_4326 (sn_geom NEW).
Proof.
  unfold validate_sensor_geometry_type, point_4326.
  rewrite <- GeometryType_POINT.
  destruct (String.eqb (GeometryType (sn_geom NEW)) "POINT"); simpl.
  2:{ split; [discriminate|]. intros [? _]. discriminate. }
  destruct (ST_SRID (sn_geom NEW) =? 4326)%Z eqn:Es; simpl.
  - apply Z.eqb_eq in Es. tauto.
  - apply Z.eqb_neq in Es. split; [discriminate|]. tauto.
Qed.

Lemma validate_violation_geometry_type_accepts (NEW : violation) :
  validate_violation_geometry_type NEW = RETURN NEW
  <-> point_4326 (vl_geom NEW).
Proof.
  unfold validate_violation_geometry_type, point_4326.
  rewrite <- GeometryType_POINT.
  destruct (String.eqb (GeometryType (vl_geom NEW)) "POINT"); simpl.
  2:{ split; [discriminate|]. intros [? _]. discriminate. }
  destruct (ST_SRID (vl_geom NEW) =? 4326)%Z eqn:Es; simpl.
  - apply Z.eqb_eq in Es. tauto.
  - apply Z.eqb_neq in Es. split; [discriminate|]. tauto.
Qed.

(** What an accepted UPDATE of parking_bays says of the geometry. *)
Lemma UPDATE_parking_bays_geom (db db' : database) (bay_id : Z)
    (a : bay_assignment) (OLD : parking_bay) :
  parking_bays db !! bay_id = Some OLD ->
  UPDATE_parking_bays db bay_id a = inr db' ->
  db' = with_parking_bays db
          (<[bay_id := assign_bay a OLD]> (parking_bays db))
  /\ (is_Some (set_pb_geom a) -> valid_polygon_4326 (pb_geom (assign_bay a OLD))).
Proof.
  intros HO H.
  pose proof (UPDATE_parking_bays_inv _ _ _ _ H) as [[Hn _]|(O & HO' & -> & _)];
    [congruence|].
  rewrite HO in HO'. injection HO' as <-. split; [reflexivity|].
  intros Hg. unfold UPDATE_parking_bays in H. rewrite HO in H.
  cbv zeta in H.
  destruct (assigned_typmod _ _ _ _) as [e|]; [discriminate|].
  rewrite (bool_decide_eq_true_2 _ Hg) in H. unfold and_then, when in H.
  destruct (validate_bay_geometry_type (assign_bay a OLD)) as [r|] eqn:E;
    [|discriminate].
  pose proof (validate_bay_geometry_type_new _ _ E) as ->.
  apply validate_bay_geometry_type_accepts, E.
Qed.

(** X1. The geometry of every bay that an INSERT, or an UPDATE assigning
    geom, persists is a valid Polygon in SRID 4326; when all bays of the
    table are such, they still are after any accepted INSERT or UPDATE of
    parking_bays. An INSERT of any other geometry is rejected. *)
Theorem bay_writes_keep_valid_polygons (db : database) :
  (forall bay_id row db',
     INSERT_parking_bays db bay_id row = inr db' ->
     valid_polygon_4326 (pb_geom row)
     /\ (bays_are_polygons db -> bays_are_polygons db'))
  /\ (forall bay_id row,
        ~ valid_polygon_4326 (pb_geom row) ->
        exists e, INSERT_parking_bays db bay_id row = inl e)
  /\ (forall bay_id a db',
        UPDATE_parking_bays db bay_id a = inr db' ->
        (is_Some (set_pb_geom a) ->
         forall b, parking_bays db' !! bay_id = Some b ->
                   valid_polygon_4326 (pb_geom b))
        /\ (bays_are_polygons db -> bays_are_polygons db')).
Proof.
  split; [|split].
  - intros bay_id row db' H.
    apply INSERT_parking_bays_inv in H as (Ht & _ & _ & ->).
    apply validate_bay_geometry_type_accepts in Ht. split; [exact Ht|].
    intros Hall k b Hk. simpl in Hk.
    destruct (decide (bay_id = k)) as [->|Hne].
    + rewrite lookup_insert_eq in Hk. congruence.
    + rewrite lookup_insert_ne in Hk by done. eauto.
  - intros bay_id row Hno.
    destruct (INSERT_parking_bays db bay_id row) as [e|db'] eqn:E; [eauto|].
    apply INSERT_parking_bays_inv in E as (Ht & _).
    apply validate_bay_geometry_type_accepts in Ht. tauto.
  - intros bay_id a db' H.
    destruct (parking_bays db !! bay_id) as [OLD|] eqn:HO.
    + destruct (UPDATE_parking_bays_geom _ _ _ _ _ HO H) as [-> Hg].
      split.
      * intros Hs b Hb. simpl in Hb. rewrite lookup_insert_eq in Hb.
        injection Hb as <-. auto.
      * intros Hall k b Hk. simpl in Hk.
        destruct (decide (bay_id = k)) as [->|Hne].
        -- rewrite lookup_insert_eq in Hk. injection Hk as <-.
           destruct (set_pb_geom a) as [g|] eqn:Eg; [apply Hg; eauto|].
           unfold assign_bay. rewrite Eg. simpl. eauto.
        -- rewrite lookup_insert_ne in Hk by done. eauto.
    + unfold UPDATE_parking_bays in H. rewrite HO in H. injection H as <-.
      split; [|auto]. intros _ b Hb. congruence.
Qed.

End GeometryKinds.

Lemma bay_writes_keep_valid_polygons_witness :
  exists e,
    INSERT_parking_bays (K := Planar.kernel) (F := Planar.exact)
      Scenario.db0 10
      (Scenario.bay_at 1 "A-9" available Scenario.at_centre)
    = inl e.
Proof.
  destruct (bay_writes_keep_valid_polygons (K := Planar.kernel)
              (F := Planar.exact) Scenario.db0)
    as (_ & H & _).
  apply H. intros ([rings Hr] & _). vm_compute in Hr. discriminate Hr.
Defined.

Section PointsAndOfficers.
Context `{K : PostGIS} `{F : Float8}.

Lemma UPDATE_sensors_geom (db db' : database) (sensor_id : Z)
    (a : sensor_assignment) (OLD : sensor) :
  sensors db !! sensor_id = Some OLD ->
  is_Some (set_sn_geom a) ->
  UPDATE_sensors db sensor_id a = inr db' ->
  point_4326 (sn_geom (assign_sensor a OLD)).
Proof.
  intros HO Hg H. unfold UPDATE_sensors in H. rewrite HO in H.
  cbv zeta in H.
  destruct (assigned_typmod _ _ _ _) as [e|]; [discriminate|].
  rewrite (bool_decide_eq_true_2 _ Hg) in H. unfold and_then, when in H.
  destruct (validate_sensor_geometry_type (assign_sensor a OLD)) as [r|] eqn:E;
    [|discriminate].
  pose proof (validate_sensor_geometry_type_new _ _ E) as ->.
  apply validate_sensor_geometry_type_accepts, E.
Qed.

Lemma validate_officer_role_accepts (db : database) (NEW : violation) :
  validate_officer_role db NEW = RETURN NEW <-> issued_by_officer db NEW.
Proof.
  unfold validate_officer_role, issued_by_officer.
  destruct (users db !! vl_officer_id NEW) as [[]|]; simpl; split;
    try discriminate; try reflexivity; auto;
    intros [?|?]; discriminate.
Qed.

(** The first two triggers of an UPDATE of violations. *)
Lemma UPDATE_violations_checks (db db' : database) (violation_id : Z)
    (a : violation_assignment) (OLD : violation) :
  violations db !! violation_id = Some OLD ->
  UPDATE_violations db violation_id a = inr db' ->
  (is_Some (set_vl_officer_id a) ->
   issued_by_officer db (assign_violation a OLD))
  /\ (is_Some (set_vl_geom a) ->
      point_4326 (vl_geom (assign_violation a OLD))).
Proof.
  intros HO H. unfold UPDATE_violations in H. rewrite HO in H.
  cbv zeta in H.
  destruct (assigned_typmod _ _ _ _) as [e|]; [discriminate|].
  unfold and_then in H.
  destruct (when (bool_decide (is_Some (set_vl_officer_id a)))
                 (validate_officer_role db) (assign_violation a OLD))
    as [r0|] eqn:E0; [|discriminate].
  pose proof (when_new _ _ _ _ (validate_officer_role_new db _) E0) as ->.
  destruct (when (bool_decide (is_Some (set_vl_geom a)))
                 validate_violation_geometry_type (assign_violation a OLD))
    as [r1|] eqn:E1; [|discriminate].
  pose proof (when_new _ _ _ _ (validate_violation_geometry_type_new _) E1)
    as ->.
  unfold when in E0, E1. split; intros Hs.
  - rewrite (bool_decide_eq_true_2 _ Hs) in E0.
    apply validate_officer_role_accepts, E0.
  - rewrite (bool_decide_eq_true_2 _ Hs) in E1.
    apply validate_violation_geometry_type_accepts, E1.
Qed.

(** X2. The geometry of every sensor and of every violation that an INSERT,
    or an UPDATE assigning geom, persists is a Point in SRID 4326; any other
    geometry is rejected by the INSERT. *)
Theorem sensor_and_violation_writes_keep_points (db : database) :
  (forall sensor_id row db',
     INSERT_sensors db sensor_id row = inr db' -> point_4326 (sn_geom row))
  /\ (forall sensor_id row,
        ~ point_4326 (sn_geom row) ->
        exists e, INSERT_sensors db sensor_id row = inl e)
  /\ (forall sensor_id a db',
        is_Some (set_sn_geom a) ->
        UPDATE_sensors db sensor_id a = inr db' ->
        forall s, sensors db' !! sensor_id = Some s -> point_4326 (sn_geom s))
  /\ (forall violation_id row db',
        INSERT_violations db violation_id row = inr db' ->
        point_4326 (vl_geom row))
  /\ (forall violation_id row,
        ~ point_4326 (vl_geom row) ->
        exists e, INSERT_violations db violation_id row = inl e)
  /\ (forall violation_id a db',
        is_Some (set_vl_geom a) ->
        UPDATE_violations db violation_id a = inr db' ->
        forall v, violations db' !! violation_id = Some v ->
                  point_4326 (vl_geom v)).
Proof.
  split; [|split; [|split; [|split; [|split]]]].
  - intros sensor_id row db' H.
    apply INSERT_sensors_inv in H as (Ht & _).
    apply validate_sensor_geometry_type_accepts, Ht.
  - intros sensor_id row Hno.
    destruct (INSERT_sensors db sensor_id row) as [e|db'] eqn:E; [eauto|].
    apply INSERT_sensors_inv in E as (Ht & _).
    apply validate_sensor_geometry_type_accepts in Ht. tauto.
  - intros sensor_id a db' Hg H s Hs.
    pose proof (UPDATE_sensors_inv _ _ _ _ H)
      as [[Hn ->]|(OLD & HO & -> & _)]; [congruence|].
    simpl in Hs. rewrite lookup_insert_eq in Hs. injection Hs as <-.
    eapply UPDATE_sensors_geom; eauto.
  - intros violation_id row db' H.
    apply INSERT_violations_inv in H as (_ & Ht & _).
    apply validate_violation_geometry_type_accepts, Ht.
  - intros violation_id row Hno.
    destruct (INSERT_violations db violation_id row) as [e|db'] eqn:E;
      [eauto|].
    apply INSERT_violations_inv in E as (_ & Ht & _).
    apply validate_violation_geometry_type_accepts in Ht. tauto.
  - intros violation_id a db' Hg H v Hv.
    pose proof (UPDATE_violations_inv _ _ _ _ H)
      as [[Hn ->]|(OLD & HO & -> & _)]; [congruence|].
    simpl in Hv. rewrite lookup_insert_eq in Hv. injection Hv as <-.
    destruct (UPDATE_violations_checks _ _ _ _ _ HO H) as [_ Hp]. auto.
Qed.

(** X3. A violation is persisted by an INSERT, or by an UPDATE assigning
    officer_id, only when its officer is a user with role 'officer' or
    'admin'. For a row whose geometry is a Point in SRID 4326, an INSERT
    with an unknown user, a driver or an operator raises the error of the
    role, wherever the point is and whatever the bay: of the triggers, the
    one on the role fires first. A row with any other geometry is stopped
    by the type modifier of the column, before the role is looked at. *)
Theorem violations_are_issued_by_officers (db : database) :
  (forall violation_id row db',
     INSERT_violations db violation_id row = inr db' ->
     issued_by_officer db' row)
  /\ (forall violation_id row,
        point_4326 (vl_geom row) ->
        users db !! vl_officer_id row = None ->
        INSERT_violations db violation_id row
        = inl (user_does_not_exist (vl_officer_id row)))
  /\ (forall violation_id row role,
        point_4326 (vl_geom row) ->
        users db !! vl_officer_id row = Some role ->
        role = driver \/ role = operator ->
        INSERT_violations db violation_id row
        = inl (only_officers_or_admins role))
  /\ (forall violation_id row,
        ~ point_4326 (vl_geom row) ->
        INSERT_violations db violation_id row
        = inl (geometry_does_not_match_column "violations"))
  /\ (forall violation_id a db',
        is_Some (set_vl_officer_id a) ->
        UPDATE_violations db violation_id a = inr db' ->
        forall v, violations db' !! violation_id = Some v ->
                  issued_by_officer db' v).
Proof.
  assert (Htm : forall row, point_4326 (vl_geom row) ->
                  column_typmod "violations" "POINT" (vl_geom row) = None).
  { intros row Hp. apply column_typmod_None.
    apply validate_violation_geometry_type_typmod.
    apply validate_violation_geometry_type_accepts, Hp. }
  split; [|split; [|split; [|split]]].
  - intros violation_id row db' H.
    apply INSERT_violations_inv in H as (Hr & _ & _ & _ & ->).
    apply validate_officer_role_accepts in Hr. exact Hr.
  - intros violation_id row Hp Hu. unfold INSERT_violations, and_then.
    rewrite (Htm row Hp).
    unfold validate_officer_role. rewrite Hu. reflexivity.
  - intros violation_id row role Hp Hu Hrole.
    unfold INSERT_violations, and_then. rewrite (Htm row Hp).
    unfold validate_officer_role. rewrite Hu.
    destruct Hrole as [-> | ->]; reflexivity.
  - intros violation_id row Hno. unfold INSERT_violations.
    destruct (column_typmod "violations" "POINT" (vl_geom row)) as [e|] eqn:E.
    + apply column_typmod_Some in E as [-> _]. reflexivity.
    + exfalso. apply Hno. apply column_typmod_None in E as [Hk Hs].
      split; [|exact Hs]. apply GeometryType_POINT.
      rewrite Hk. reflexivity.
  - intros violation_id a db' Hs H v Hv.
    pose proof (UPDATE_violations_inv _ _ _ _ H)
      as [[Hn ->]|(OLD & HO & -> & _)]; [congruence|].
    simpl in Hv. rewrite lookup_insert_eq in Hv. injection Hv as <-.
    destruct (UPDATE_violations_checks _ _ _ _ _ HO H) as [Ho _].
    apply Ho, Hs.
Qed.

End PointsAndOfficers.

Lemma sensor_and_violation_writes_keep_points_witness :
  (exists e,
     INSERT_sensors (K := Planar.kernel) (F := Planar.exact) Scenario.db0 1
       (mkSensor None (Planar.rect 0 0 1 1)) = inl e)
  /\ (exists e,
        INSERT_violations (K := Planar.kernel) Scenario.db0 1
          (mkViolation (Some 1%Z) 1 (mkGeometry 3857 (Point (mkCoord 12 11))))
        = inl e).
Proof.
  split.
  - destruct (sensor_and_violation_writes_keep_points (K := Planar.kernel)
                (F := Planar.exact) Scenario.db0) as (_ & H & _).
    apply H. intros ([c Hc] & _). vm_compute in Hc. discriminate Hc.
  - destruct (sensor_and_violation_writes_keep_points (K := Planar.kernel)
                (F := Planar.exact) Scenario.db0) as (_ & _ & _ & _ & H & _).
    apply H. intros (_ & Hs). vm_compute in Hs. discriminate Hs.
Defined.

Lemma violations_are_issued_by_officers_witness :
  INSERT_violations (K := Planar.kernel) Scenario.db0 1
    (mkViolation (Some 1%Z) 2 Scenario.off_by_4)
  = inl (only_officers_or_admins driver)
  /\ INSERT_violations (K := Planar.kernel) Scenario.db0 1
       (mkViolation (Some 1%Z) 7 Scenario.at_centre)
     = inl (user_does_not_exist 7)
  /\ INSERT_violations (K := Planar.kernel) Scenario.db0 1
       (mkViolation (Some 1%Z) 7 (Planar.rect 0 0 1 1))
     = inl (geometry_does_not_match_column "violations").
Proof.
  destruct (violations_are_issued_by_officers (K := Planar.kernel)
              Scenario.db0) as (_ & Hnone & Hrole & Hgeom & _).
  split; [|split].
  - apply (Hrole 1%Z (mkViolation (Some 1%Z) 2 Scenario.off_by_4) driver).
    + split; [eexists; reflexivity|reflexivity].
    + vm_compute. reflexivity.
    + left. reflexivity.
  - apply (Hnone 1%Z (mkViolation (Some 1%Z) 7 Scenario.at_centre)).
    + split; [eexists; reflexivity|reflexivity].
    + vm_compute. reflexivity.
  - apply (Hgeom 1%Z (mkViolation (Some 1%Z) 7 (Planar.rect 0 0 1 1))).
    intros ([c Hc] & _). vm_compute in Hc. discriminate Hc.
Defined.

(** ** Writes of zones *)

Section ZoneWrites.
Context `{K : PostGIS}.






End ZoneWrites.


(** ** The normalisers, further *)

Lemma linestring_members_MultiLineString (g : Geometry)
    (ls : list (list coord)) :
  shape g = MultiLineString ls ->
  List.filter (λ _, true) (members g) = linestring_members g.
Proof.
  intros Hs. unfold linestring_members, members. rewrite Hs. clear Hs.
  induction ls as [|l ls IH]; [reflexivity|].
  simpl. f_equal. exact IH.
Qed.

Lemma members_SRID (g m : Geometry) : m ∈ members g -> ST_SRID m = ST_SRID g.
Proof.
  unfold members. intros Hm. apply list_elem_of_fmap in Hm as (s & -> & _).
  reflexivity.
Qed.

Lemma elem_of_polygon_members (g p : Geometry) :
  p ∈ polygon_members g ->
  (exists rings, shape p = Polygon rings) /\ ST_SRID p = ST_SRID g.
Proof.
  unfold polygon_members. intros Hp.
  apply list_elem_of_In, filter_In in Hp as [Hin Hk].
  split; [apply GeometryType_POLYGON, Hk|].
  apply members_SRID, list_elem_of_In, Hin.
Qed.

Lemma elem_of_linestring_members (g p : Geometry) :
  p ∈ linestring_members g ->
  (exists pts, shape p = LineString pts) /\ ST_SRID p = ST_SRID g.
Proof.
  unfold linestring_members. intros Hp.
  apply list_elem_of_In, filter_In in Hp as [Hin Hk].
  split; [apply GeometryType_LINESTRING, Hk|].
  apply members_SRID, list_elem_of_In, Hin.
Qed.

(** The loop keeps the first candidate of greatest measure. *)
Lemma foldl_greater_first (measure : Geometry -> Q) (l : list Geometry) :
  forall (m0 : Q) (r0 : option Geometry),
    (foldl (greater measure) (m0, r0) l = (m0, r0)
     /\ forall q, q ∈ l -> measure q <= m0)
    \/ exists p,
         foldl (greater measure) (m0, r0) l = (measure p, Some p)
         /\ m0 < measure p
         /\ first_greatest measure l p.
Proof.
  induction l as [|x l IH]; intros m0 r0; simpl.
  { left. split; [reflexivity|]. intros q Hq. inversion Hq. }
  replace (greater measure (m0, r0) x)
    with (if Qlt_bool m0 (measure x) then (measure x, Some x) else (m0, r0))
    by reflexivity.
  destruct (Qlt_bool m0 (measure x)) eqn:E.
  - apply Qlt_bool_iff in E. right.
    destruct (IH (measure x) (Some x)) as [[Hout Hmax]|(p & Hout & Hlt & Hf)].
    + exists x. split; [exact Hout|]. split; [exact E|].
      exists [], l. split; [reflexivity|].
      split; [intros q Hq; inversion Hq|exact Hmax].
    + exists p. split; [exact Hout|].
      split; [eapply Qlt_trans; eauto|].
      destruct Hf as (b & a & -> & Hb & Ha).
      exists (x :: b), a. split; [reflexivity|]. split; [|exact Ha].
      intros q Hq. apply elem_of_cons in Hq as [->|Hq]; auto.
  - apply Qlt_bool_false_iff in E.
    destruct (IH m0 r0) as [[Hout Hmax]|(p & Hout & Hlt & Hf)].
    + left. split; [exact Hout|].
      intros q Hq. apply elem_of_cons in Hq as [->|Hq]; auto.
    + right. exists p. split; [exact Hout|]. split; [exact Hlt|].
      destruct Hf as (b & a & -> & Hb & Ha).
      exists (x :: b), a. split; [reflexivity|]. split; [|exact Ha].
      intros q Hq. apply elem_of_cons in Hq as [->|Hq]; auto.
      eapply Qle_lt_trans; eauto.
Qed.

Section NormalisersFurther.
Context `{K : PostGIS}.

Lemma normalize_to_linestring_multi (g : Geometry) :
  (exists ls, shape g = MultiLineString ls)
  \/ (exists ms, shape g = GeometryCollection ms) ->
  normalize_to_linestring (Some g)
  = snd (foldl (greater ST_Length_geography) (0, None)
           (linestring_members g)).
Proof.
  intros [[ls Hs]|[ms Hs]]; unfold normalize_to_linestring, GeometryType;
    rewrite Hs; simpl; rewrite FOR_keep_greater.
  - rewrite (linestring_members_MultiLineString g ls Hs). reflexivity.
  - reflexivity.
Qed.

(** X5. normalize_to_linestring returns a LineString unchanged; for a
    MultiLineString or GeometryCollection it returns a member LineString of
    greatest geodesic length when that length is positive, and NULL when no
    member LineString has positive length; for every other kind (Point,
    Polygon, MultiPoint, MultiPolygon) and for NULL it returns NULL: unlike
    normalize_to_polygon it makes nothing out of a Point. *)
Theorem normalize_to_linestring_by_kind (g : Geometry) :
  (forall pts, shape g = LineString pts ->
     normalize_to_linestring (Some g) = Some g)
  /\ ((exists ls, shape g = MultiLineString ls)
      \/ (exists ms, shape g = GeometryCollection ms) ->
      (forall p, normalize_to_linestring (Some g) = Some p ->
         p ∈ linestring_members g
         /\ 0 < ST_Length_geography p
         /\ forall q, q ∈ linestring_members g ->
                      ST_Length_geography q <= ST_Length_geography p)
      /\ (normalize_to_linestring (Some g) = None
          <-> forall q, q ∈ linestring_members g ->
                        ST_Length_geography q <= 0))
  /\ ((exists c, shape g = Point c)
      \/ (exists rings, shape g = Polygon rings)
      \/ (exists pts, shape g = MultiPoint pts)
      \/ (exists ps, shape g = MultiPolygon ps) ->
      normalize_to_linestring (Some g) = None)
  /\ normalize_to_linestring None = None.
Proof.
  split.
  { intros pts Hs. unfold normalize_to_linestring, GeometryType.
    rewrite Hs. reflexivity. }
  split.
  { intros Hkind. rewrite (normalize_to_linestring_multi g Hkind).
    apply (greatest_from_zero ST_Length_geography (linestring_members g)). }
  split; [|reflexivity].
  intros [[c Hs]|[[r Hs]|[[pts Hs]|[ps Hs]]]];
    unfold normalize_to_linestring, GeometryType; rewrite Hs; reflexivity.
Qed.

Lemma normalize_to_polygon_not_Point (g r : Geometry) :
  (forall c, shape g <> Point c) ->
  normalize_to_polygon (Some g) = Some r ->
  (exists rings, shape r = Polygon rings) /\ ST_SRID r = ST_SRID g.
Proof.
  intros Hnp Hr.
  assert (Hmulti : (exists ps, shape g = MultiPolygon ps)
                   \/ (exists ms, shape g = GeometryCollection ms) ->
                   r ∈ polygon_members g).
  { intros Hkind. rewrite (normalize_to_polygon_multi g Hkind) in Hr.
    apply (greatest_from_zero ST_Area_geography (polygon_members g)), Hr. }
  destruct (shape g) eqn:Hs;
    try (apply elem_of_polygon_members, Hmulti; eauto; fail);
    unfold normalize_to_polygon, GeometryType in Hr; rewrite Hs in Hr;
    simpl in Hr; try discriminate.
  - exfalso. eapply Hnp. reflexivity.
  - injection Hr as <-. eauto.
Qed.

Lemma normalize_to_linestring_kind (g r : Geometry) :
  normalize_to_linestring (Some g) = Some r ->
  (exists pts, shape r = LineString pts) /\ ST_SRID r = ST_SRID g.
Proof.
  intros Hr.
  assert (Hmulti : (exists ls, shape g = MultiLineString ls)
                   \/ (exists ms, shape g = GeometryCollection ms) ->
                   r ∈ linestring_members g).
  { intros Hkind. rewrite (normalize_to_linestring_multi g Hkind) in Hr.
    apply (greatest_from_zero ST_Length_geography (linestring_members g)), Hr. }
  destruct (shape g) eqn:Hs;
    try (apply elem_of_linestring_members, Hmulti; eauto; fail);
    unfold normalize_to_linestring, GeometryType in Hr; rewrite Hs in Hr;
    simpl in Hr; try discriminate.
  injection Hr as <-. eauto.
Qed.

(** X6. A result of normalize_to_linestring is a LineString with the SRID
    of the input, and a result of normalize_to_polygon on anything but a
    Point is a Polygon with the SRID of the input. Normalising a second
    time therefore changes nothing: normalize_to_linestring is idempotent
    on every input, normalize_to_polygon on every input but a Point, and
    normalize_to_point returns NULL only for NULL. *)
Theorem normalisers_return_the_target_kind (geom : option Geometry) :
  (forall r, normalize_to_linestring geom = Some r ->
     exists g, geom = Some g
       /\ (exists pts, shape r = LineString pts)
       /\ ST_SRID r = ST_SRID g)
  /\ normalize_to_linestring (normalize_to_linestring geom)
     = normalize_to_linestring geom
  /\ (forall g r,
        geom = Some g -> (forall c, shape g <> Point c) ->
        normalize_to_polygon geom = Some r ->
        (exists rings, shape r = Polygon rings) /\ ST_SRID r = ST_SRID g)
  /\ ((forall g c, geom = Some g -> shape g <> Point c) ->
      normalize_to_polygon (normalize_to_polygon geom)
      = normalize_to_polygon geom)
  /\ (normalize_to_point geom = None <-> geom = None).
Proof.
  split; [|split; [|split; [|split]]].
  - intros r Hr. destruct geom as [g|]; [|discriminate].
    exists g. split; [reflexivity|]. apply normalize_to_linestring_kind, Hr.
  - destruct geom as [g|]; [|reflexivity].
    destruct (normalize_to_linestring (Some g)) as [r|] eqn:Hr; [|reflexivity].
    destruct (normalize_to_linestring_kind g r Hr) as [[pts Hs] _].
    unfold normalize_to_linestring, GeometryType. rewrite Hs. reflexivity.
  - intros g r -> Hnp Hr. eapply normalize_to_polygon_not_Point; eauto.
  - intros Hnp. destruct geom as [g|]; [|reflexivity].
    destruct (normalize_to_polygon (Some g)) as [r|] eqn:Hr; [|reflexivity].
    destruct (normalize_to_polygon_not_Point g r) as [[rings Hs] _];
      [intros c; eapply Hnp; reflexivity|exact Hr|].
    unfold normalize_to_polygon, GeometryType. rewrite Hs. reflexivity.
  - unfold normalize_to_point. destruct geom as [g|]; [|tauto].
    destruct (String.eqb (GeometryType g) "POINT"); split; discriminate.
Qed.

(** X7. Among member Polygons (resp. LineStrings) of equal greatest area
    (resp. length), the normalisers return the first in the order of
    ST_GeometryN: every candidate before the result is strictly smaller,
    every candidate after it is not greater. *)
Theorem normalisers_return_the_first_greatest (g p : Geometry) :
  ((exists ps, shape g = MultiPolygon ps)
   \/ (exists ms, shape g = GeometryCollection ms) ->
   normalize_to_polygon (Some g) = Some p ->
   first_greatest ST_Area_geography (polygon_members g) p)
  /\ ((exists ls, shape g = MultiLineString ls)
      \/ (exists ms, shape g = GeometryCollection ms) ->
      normalize_to_linestring (Some g) = Some p ->
      first_greatest ST_Length_geography (linestring_members g) p).
Proof.
  split; intros Hkind.
  - rewrite (normalize_to_polygon_multi g Hkind).
    destruct (foldl_greater_first ST_Area_geography (polygon_members g) 0 None)
      as [[-> _]|(q & -> & _ & Hf)]; simpl; [discriminate|].
    intros [= <-]. exact Hf.
  - rewrite (normalize_to_linestring_multi g Hkind).
    destruct (foldl_greater_first ST_Length_geography (linestring_members g)
                0 None) as [[-> _]|(q & -> & _ & Hf)]; simpl; [discriminate|].
    intros [= <-]. exact Hf.
Qed.

End NormalisersFurther.

Lemma normalize_to_linestring_by_kind_witness :
  (exists p,
     normalize_to_linestring (K := Planar.kernel)
       (Some Scenario2.multiline_5_9_9) = Some p
     /\ 0 < ST_Length_geography (PostGIS := Planar.kernel) p)
  /\ normalize_to_linestring (K := Planar.kernel) (Some (Planar.point 16 48))
     = None.
Proof.
  split.
  - destruct (normalize_to_linestring_by_kind (K := Planar.kernel)
                Scenario2.multiline_5_9_9) as (_ & H & _).
    destruct H as (Hsome & _); [left; eexists; reflexivity|].
    exists (mkGeometry 4326 (LineString Scenario2.line_9)).
    assert (Hr : normalize_to_linestring (K := Planar.kernel)
                   (Some Scenario2.multiline_5_9_9)
                 = Some (mkGeometry 4326 (LineString Scenario2.line_9)))
      by (vm_compute; reflexivity).
    split; [exact Hr|]. apply (Hsome _ Hr).
  - destruct (normalize_to_linestring_by_kind (K := Planar.kernel)
                (Planar.point 16 48)) as (_ & _ & H & _).
    apply H. left. eexists. reflexivity.
Defined.

Lemma normalisers_return_the_target_kind_witness :
  exists r,
    normalize_to_polygon (K := Planar.kernel) (Some Scenario.collection_10_30)
    = Some r
    /\ (exists rings, shape r = Polygon rings)
    /\ ST_SRID r = 4326%Z.
Proof.
  exists (mkGeometry 4326 (Polygon Scenario.part_30)).
  assert (Hr : normalize_to_polygon (K := Planar.kernel)
                 (Some Scenario.collection_10_30)
               = Some (mkGeometry 4326 (Polygon Scenario.part_30)))
    by (vm_compute; reflexivity).
  split; [exact Hr|].
  destruct (normalisers_return_the_target_kind (K := Planar.kernel)
              (Some Scenario.collection_10_30)) as (_ & _ & H & _).
  apply (H Scenario.collection_10_30); [reflexivity| |exact Hr].
  intros c Hc. vm_compute in Hc. discriminate Hc.
Defined.

(** Of the two lines of 9 m, the first. *)
Lemma normalisers_return_the_first_greatest_witness :
  first_greatest (ST_Length_geography (PostGIS := Planar.kernel))
    (linestring_members Scenario2.multiline_5_9_9)
    (mkGeometry 4326 (LineString Scenario2.line_9)).
Proof.
  destruct (normalisers_return_the_first_greatest (K := Planar.kernel)
              Scenario2.multiline_5_9_9
              (mkGeometry 4326 (LineString Scenario2.line_9))) as [_ H].
  apply H.
  - left. eexists. reflexivity.
  - vm_compute. reflexivity.
Defined.

(** ** The geometry type helper and the geometry type triggers *)

Lemma validate_geometry_type_exact (g : Geometry) (t : string) :
  validate_geometry_type (Some g) t false = true <-> GeometryType g = t.
Proof.
  unfold validate_geometry_type. simpl.
  destruct (String.eqb (GeometryType g) t) eqn:E.
  - apply String.eqb_eq in E. tauto.
  - apply String.eqb_neq in E. split; [discriminate|tauto].
Qed.

Lemma validate_geometry_type_multi (g : Geometry) (t : string) :
  validate_geometry_type (Some g) t true = true
  <-> GeometryType g = t \/ GeometryType g = ("MULTI" ++ t)%string.
Proof.
  unfold validate_geometry_type. simpl.
  destruct (String.eqb (GeometryType g) t) eqn:E.
  - apply String.eqb_eq in E. tauto.
  - apply String.eqb_neq in E.
    destruct (String.eqb (GeometryType g) ("MULTI" ++ t)) eqn:E'.
    + apply String.eqb_eq in E'. tauto.
    + apply String.eqb_neq in E'. split; [discriminate|tauto].
Qed.

Section HelperAndTriggers.
Context `{K : PostGIS}.

(** X8. validate_geometry_type is false on NULL; without allow_multi it
    holds exactly when the geometry's type is the expected one, with
    allow_multi also when it is 'MULTI' followed by the expected type (so
    never for a GEOMETRYCOLLECTION). A geometry that passes for 'POLYGON'
    (resp. 'LINESTRING') without allow_multi is returned as it is by
    normalize_to_polygon (resp. normalize_to_linestring); one that passes
    with allow_multi is turned by the normaliser into NULL or into a
    geometry that passes without it. *)
Theorem validate_geometry_type_and_normalisers (geom : option Geometry) :
  (forall t m, geom = None -> validate_geometry_type geom t m = false)
  /\ (forall g t, geom = Some g ->
        (validate_geometry_type geom t false = true <-> GeometryType g = t)
        /\ (validate_geometry_type geom t true = true
            <-> GeometryType g = t
                \/ GeometryType g = ("MULTI" ++ t)%string))
  /\ (forall g ms t,
        geom = Some g -> shape g = GeometryCollection ms ->
        t = "POLYGON" \/ t = "LINESTRING" \/ t = "POINT" ->
        validate_geometry_type geom t true = false)
  /\ (validate_geometry_type geom "POLYGON" false = true ->
      normalize_to_polygon geom = geom)
  /\ (validate_geometry_type geom "LINESTRING" false = true ->
      normalize_to_linestring geom = geom)
  /\ (validate_geometry_type geom "POLYGON" true = true ->
      forall r, normalize_to_polygon geom = Some r ->
                validate_geometry_type (Some r) "POLYGON" false = true)
  /\ (validate_geometry_type geom "LINESTRING" true = true ->
      forall r, normalize_to_linestring geom = Some r ->
                validate_geometry_type (Some r) "LINESTRING" false = true).
Proof.
  split; [intros t m ->; reflexivity|].
  split.
  { intros g t ->. split.
    - apply validate_geometry_type_exact.
    - apply validate_geometry_type_multi. }
  split.
  { intros g ms t -> Hs Ht. unfold validate_geometry_type, GeometryType.
    rewrite Hs. destruct Ht as [->|[->| ->]]; reflexivity. }
  split.
  { destruct geom as [g|]; [|discriminate]. intros H.
    apply validate_geometry_type_exact in H.
    unfold normalize_to_polygon. rewrite H. reflexivity. }
  split.
  { destruct geom as [g|]; [|discriminate]. intros H.
    apply validate_geometry_type_exact in H.
    unfold normalize_to_linestring. rewrite H. reflexivity. }
  split.
  { destruct geom as [g|]; [|discriminate]. intros H r Hr.
    apply validate_geometry_type_exact, String.eqb_eq, GeometryType_POLYGON.
    eapply normalize_to_polygon_not_Point; [|exact Hr].
    intros c Hc. apply validate_geometry_type_multi in H.
    unfold GeometryType in H. rewrite Hc in H.
    destruct H as [H|H]; discriminate H. }
  destruct geom as [g|]; [|discriminate]. intros H r Hr.
  apply validate_geometry_type_exact, String.eqb_eq, GeometryType_LINESTRING.
  eapply normalize_to_linestring_kind, Hr.
Qed.

Lemma validate_street_geometry_type_new (NEW r : street_segment) :
  validate_street_geometry_type NEW = RETURN r -> r = NEW.
Proof.
  unfold validate_street_geometry_type.
  repeat (case_match; try discriminate); congruence.
Qed.

Lemma validate_terminal_geometry_type_new (NEW r : payment_terminal) :
  validate_terminal_geometry_type NEW = RETURN r -> r = NEW.
Proof.
  unfold validate_terminal_geometry_type.
  repeat (case_match; try discriminate); congruence.
Qed.

(** X9. The triggers of street_segments and payment_terminals either raise
    or return the row as it came. A street segment passes exactly when its
    geometry is of type LINESTRING (validate_geometry_type without
    allow_multi), has SRID 4326 and is valid; a payment terminal passes
    exactly when its geometry is of type POINT and has SRID 4326, with no
    look at its validity. Of several defects the type is reported first,
    then the SRID. *)
Theorem street_and_terminal_geometry_triggers (s : street_segment)
    (t : payment_terminal) :
  (forall r, validate_street_geometry_type s = RETURN r -> r = s)
  /\ (validate_street_geometry_type s = RETURN s
      <-> validate_geometry_type (Some (ss_geom s)) "LINESTRING" false = true
          /\ ST_SRID (ss_geom s) = 4326%Z
          /\ ST_IsValid (ss_geom s) = true)
  /\ (GeometryType (ss_geom s) <> "LINESTRING" ->
      validate_street_geometry_type s
      = RAISE (geometry_must_be "StreetSegment" "LINESTRING"
                 (GeometryType (ss_geom s))))
  /\ (GeometryType (ss_geom s) = "LINESTRING" ->
      ST_SRID (ss_geom s) <> 4326%Z ->
      validate_street_geometry_type s
      = RAISE (geometry_must_have_SRID_4326 "StreetSegment"
                 (ST_SRID (ss_geom s))))
  /\ (forall r, validate_terminal_geometry_type t = RETURN r -> r = t)
  /\ (validate_terminal_geometry_type t = RETURN t
      <-> validate_geometry_type (Some (pt_geom t)) "POINT" false = true
          /\ ST_SRID (pt_geom t) = 4326%Z)
  /\ (GeometryType (pt_geom t) <> "POINT" ->
      validate_terminal_geometry_type t
      = RAISE (geometry_must_be "PaymentTerminal" "POINT"
                 (GeometryType (pt_geom t)))).
Proof.
  split; [apply validate_street_geometry_type_new|].
  split.
  { rewrite validate_geometry_type_exact, <- String.eqb_eq.
    unfold validate_street_geometry_type.
    destruct (String.eqb (GeometryType (ss_geom s)) "LINESTRING"); simpl.
    2:{ split; [discriminate|]. intros [? _]. discriminate. }
    destruct (ST_SRID (ss_geom s) =? 4326)%Z eqn:Es; simpl.
    2:{ apply Z.eqb_neq in Es. split; [discriminate|]. tauto. }
    apply Z.eqb_eq in Es.
    destruct (ST_IsValid (ss_geom s)); simpl; [tauto|].
    split; [discriminate|]. intros (_ & _ & ?). discriminate. }
  split.
  { intros Hk. apply String.eqb_neq in Hk.
    unfold validate_street_geometry_type. rewrite Hk. reflexivity. }
  split.
  { intros Hk Hs. apply String.eqb_eq in Hk. apply Z.eqb_neq in Hs.
    unfold validate_street_geometry_type. rewrite Hk, Hs. reflexivity. }
  split; [apply validate_terminal_geometry_type_new|].
  split.
  { rewrite validate_geometry_type_exact, <- String.eqb_eq.
    unfold validate_terminal_geometry_type.
    destruct (String.eqb (GeometryType (pt_geom t)) "POINT"); simpl.
    2:{ split; [discriminate|]. intros [? _]. discriminate. }
    destruct (ST_SRID (pt_geom t) =? 4326)%Z eqn:Es; simpl.
    - apply Z.eqb_eq in Es. tauto.
    - apply Z.eqb_neq in Es. split; [discriminate|]. tauto. }
  intros Hk. apply String.eqb_neq in Hk.
  unfold validate_terminal_geometry_type. rewrite Hk. reflexivity.
Qed.

End HelperAndTriggers.

Lemma validate_geometry_type_and_normalisers_witness :
  normalize_to_polygon (K := Planar.kernel) (Some (Planar.rect 0 0 5 2))
  = Some (Planar.rect 0 0 5 2)
  /\ validate_geometry_type
       (normalize_to_polygon (K := Planar.kernel) (Some Scenario.multi_10_30))
       "POLYGON" false
     = true.
Proof.
  split.
  - destruct (validate_geometry_type_and_normalisers (K := Planar.kernel)
                (Some (Planar.rect 0 0 5 2))) as (_ & _ & _ & H & _).
    apply H. vm_compute. reflexivity.
  - destruct (validate_geometry_type_and_normalisers (K := Planar.kernel)
                (Some Scenario.multi_10_30)) as (_ & _ & _ & _ & _ & H & _).
    assert (Hr : normalize_to_polygon (K := Planar.kernel)
                   (Some Scenario.multi_10_30)
                 = Some (mkGeometry 4326 (Polygon Scenario.part_30)))
      by (vm_compute; reflexivity).
    rewrite Hr. apply H; [vm_compute; reflexivity|exact Hr].
Defined.

Lemma street_and_terminal_geometry_triggers_witness :
  validate_street_geometry_type (K := Planar.kernel)
    (mkStreet "Ring" (Planar.point 16 48))
  = RAISE (geometry_must_be "StreetSegment" "LINESTRING" "POINT")
  /\ validate_terminal_geometry_type
       (mkTerminal None "T-1" (Planar.point 16 48))
     = RETURN (mkTerminal None "T-1" (Planar.point 16 48)).
Proof.
  destruct (street_and_terminal_geometry_triggers (K := Planar.kernel)
              (mkStreet "Ring" (Planar.point 16 48))
              (mkTerminal None "T-1" (Planar.point 16 48)))
    as (_ & _ & Hs & _ & _ & Ht & _).
  split.
  - apply Hs. vm_compute. discriminate.
  - apply Ht. split; vm_compute; reflexivity.
Defined.

(** ** Radius searches, further *)

Global Instance by_zone_distance_total : Total by_zone_distance.
Proof.
  intros r1 r2. unfold by_zone_distance.
  destruct (Qlt_le_dec (zn_distance_meters r2) (zn_distance_meters r1))
    as [H|H].
  - right. apply Qlt_le_weak, H.
  - left. exact H.
Qed.

Global Instance by_zone_distance_trans : Transitive by_zone_distance.
Proof. intros r1 r2 r3. unfold by_zone_distance. apply Qle_trans. Qed.

(** The keys of the rows that a scan keeps are keys of the table, once
    each. *)
Lemma keys_of_selected {A B C : Type} (join : Z * A -> option B)
    (p : B -> bool) (row : B -> C) (key : C -> Z) (l : list (Z * A)) :
  (forall x y, join x = Some y -> key (row y) = x.1) ->
  key <$> List.map row (List.filter p (omap join l)) `sublist_of` l.*1.
Proof.
  intros Hkey. induction l as [|x l IH]; [constructor|].
  rewrite fmap_cons. simpl. destruct (join x) as [y|] eqn:E; simpl.
  - destruct (p y); simpl.
    + rewrite ?fmap_cons. rewrite (Hkey x y E). apply sublist_skip, IH.
    + apply sublist_cons, IH.
  - apply sublist_cons, IH.
Qed.

Section RadiusSearchFurther.
Context `{K : PostGIS}.

Lemma elem_of_find_zones_near (db : database) (lat lng radius_meters : Q)
    (r : zone_near) :
  let center := ST_SetSRID (ST_MakePoint lng lat) 4326 in
  r ∈ find_zones_near db lat lng radius_meters
  <-> exists pz,
        parking_zones db !! zn_zone_id r = Some pz
        /\ pz_is_active pz = Some true
        /\ ST_Distance_geography (pz_geom pz) center <= radius_meters
        /\ r = mkZoneNear (zn_zone_id r) (pz_name pz) (pz_zone_type pz)
                 (pz_max_duration_minutes pz) (pz_tariff_schedule_id pz)
                 (ST_Distance_geography (pz_geom pz) center) (pz_geom pz).
Proof.
  intros center. unfold find_zones_near. fold center.
  rewrite merge_sort_Permutation, list_elem_of_In, in_map_iff. split.
  - intros ([zone_id pz] & <- & Hin).
    apply filter_In in Hin as [Hin Hsel].
    apply list_elem_of_In, elem_of_map_to_list in Hin.
    apply andb_true_iff in Hsel as [Ha Hd]. simpl in Ha, Hd.
    apply sql_eq_true in Ha. apply ST_DWithin_spec in Hd.
    exists pz. simpl. auto.
  - intros (pz & Hz & Ha & Hd & Hr).
    exists (zn_zone_id r, pz). split; [symmetry; exact Hr|].
    apply filter_In. split.
    + apply list_elem_of_In, elem_of_map_to_list, Hz.
    + apply sql_eq_true in Ha. apply ST_DWithin_spec in Hd. simpl.
      rewrite Ha, Hd. reflexivity.
Qed.

(** X10. find_zones_near returns exactly the zones with is_active true
    whose polygon is at a geodesic distance of at most radius_meters from
    the point, each with that distance, in ascending order of distance. A
    zone with is_active false or NULL, or farther than the radius, is not
    returned. *)
Theorem find_zones_near_active_within_radius_sorted (db : database)
    (lat lng radius_meters : Q) :
  let center := ST_SetSRID (ST_MakePoint lng lat) 4326 in
  let result := find_zones_near db lat lng radius_meters in
  (forall r, r ∈ result ->
     exists pz,
       parking_zones db !! zn_zone_id r = Some pz
       /\ pz_is_active pz = Some true
       /\ zn_name r = pz_name pz
       /\ zn_distance_meters r = ST_Distance_geography (pz_geom pz) center
       /\ zn_distance_meters r <= radius_meters)
  /\ (forall zone_id pz,
        parking_zones db !! zone_id = Some pz ->
        pz_is_active pz = Some true ->
        ST_Distance_geography (pz_geom pz) center <= radius_meters ->
        exists r, r ∈ result /\ zn_zone_id r = zone_id)
  /\ (forall zone_id pz,
        parking_zones db !! zone_id = Some pz ->
        pz_is_active pz <> Some true
        \/ radius_meters < ST_Distance_geography (pz_geom pz) center ->
        forall r, r ∈ result -> zn_zone_id r <> zone_id)
  /\ StronglySorted (λ r1 r2, zn_distance_meters r1 <= zn_distance_meters r2)
       result.
Proof.
  intros center result. split; [|split; [|split]].
  - intros r Hr. apply elem_of_find_zones_near in Hr
      as (pz & Hz & Ha & Hd & Hrow).
    exists pz. rewrite Hrow. simpl. auto.
  - intros zone_id pz Hz Ha Hd.
    exists (mkZoneNear zone_id (pz_name pz) (pz_zone_type pz)
              (pz_max_duration_minutes pz) (pz_tariff_schedule_id pz)
              (ST_Distance_geography (pz_geom pz) center) (pz_geom pz)).
    split; [|reflexivity].
    apply elem_of_find_zones_near. exists pz. simpl. auto.
  - intros zone_id pz Hz Hno r Hr <-.
    apply elem_of_find_zones_near in Hr as (pz' & Hz' & Ha & Hd & _).
    rewrite Hz in Hz'. injection Hz' as <-.
    destruct Hno as [Hno|Hfar]; [contradiction|].
    exact (Qlt_not_le _ _ Hfar Hd).
  - apply (StronglySorted_merge_sort by_zone_distance).
Qed.

(** X11. A larger radius loses nothing: every row that
    find_available_bays_near, or find_zones_near, returns for a radius is
    returned, the same, for every radius that is not smaller. *)
Theorem radius_searches_grow_with_the_radius (db : database)
    (lat lng radius_1 radius_2 : Q) :
  radius_1 <= radius_2 ->
  (forall r, r ∈ find_available_bays_near db lat lng radius_1 ->
             r ∈ find_available_bays_near db lat lng radius_2)
  /\ (forall r, r ∈ find_zones_near db lat lng radius_1 ->
                r ∈ find_zones_near db lat lng radius_2).
Proof.
  intros Hle. split; intros r Hr.
  - apply elem_of_find_available_bays_near in Hr
      as (pb & pz & Hb & Hz & Hs & Ha & Hd & Hrow).
    apply elem_of_find_available_bays_near. exists pb, pz.
    repeat (split; [assumption|]). split; [|exact Hrow].
    eapply Qle_trans; eauto.
  - apply elem_of_find_zones_near in Hr as (pz & Hz & Ha & Hd & Hrow).
    apply elem_of_find_zones_near. exists pz.
    repeat (split; [assumption|]). split; [|exact Hrow].
    eapply Qle_trans; eauto.
Qed.

(** X12. No bay is returned twice by find_available_bays_near and no zone
    twice by find_zones_near: the bay_id (resp. zone_id) of the rows of a
    result are pairwise distinct. *)
Theorem radius_searches_return_each_row_once (db : database)
    (lat lng radius_meters : Q) :
  NoDup (bn_bay_id <$> find_available_bays_near db lat lng radius_meters)
  /\ NoDup (zn_zone_id <$> find_zones_near db lat lng radius_meters).
Proof.
  split.
  - unfold find_available_bays_near. rewrite merge_sort_Permutation.
    eapply sublist_NoDup; [apply (NoDup_fst_map_to_list (parking_bays db))|].
    unfold bays_join_zones.
    apply (keys_of_selected
             (λ kb : Z * parking_bay,
                (λ pz, (kb.1, kb.2, pz))
                  <$> parking_zones db !! pb_zone_id kb.2)).
    intros [k b] [[k' b'] z] Hj. simpl in Hj.
    destruct (parking_zones db !! pb_zone_id b); [|discriminate].
    simpl in Hj. injection Hj as <- <- <-. reflexivity.
  - unfold find_zones_near. rewrite merge_sort_Permutation.
    eapply sublist_NoDup; [apply (NoDup_fst_map_to_list (parking_zones db))|].
    pose proof (keys_of_selected (A := parking_zone) (λ x, Some x)
                  (λ r : Z * parking_zone,
                     sql_eq (pz_is_active r.2) true
                     && ST_DWithin_geography (pz_geom r.2)
                          (ST_SetSRID (ST_MakePoint lng lat) 4326)
                          radius_meters)
                  (λ r : Z * parking_zone,
                     mkZoneNear r.1 (pz_name r.2) (pz_zone_type r.2)
                       (pz_max_duration_minutes r.2)
                       (pz_tariff_schedule_id r.2)
                       (ST_Distance_geography (pz_geom r.2)
                          (ST_SetSRID (ST_MakePoint lng lat) 4326))
                       (pz_geom r.2))
                  zn_zone_id (map_to_list (parking_zones db))) as Hsub.
    assert (Hid : forall l : list (Z * parking_zone), omap (λ x, Some x) l = l).
    { induction l as [|x l IH]; [reflexivity|]. simpl. f_equal. exact IH. }
    rewrite Hid in Hsub. apply Hsub.
    intros x y [= <-]. reflexivity.
Qed.

End RadiusSearchFurther.

Lemma find_zones_near_active_within_radius_sorted_witness :
  (exists r,
     r ∈ find_zones_near (K := Planar.kernel) Scenario.db0 11 16 300
     /\ zn_zone_id r = 1%Z)
  /\ Forall (λ r, zn_zone_id r <> 2%Z)
       (find_zones_near (K := Planar.kernel) Scenario.db0 11 16 300).
Proof.
  destruct (find_zones_near_active_within_radius_sorted (K := Planar.kernel)
              Scenario.db0 11 16 300) as (_ & Hin & Hout & _).
  split.
  - apply (Hin 1%Z Scenario.zone_A).
    + vm_compute. reflexivity.
    + reflexivity.
    + vm_compute. discriminate.
  - apply Forall_forall. intros r Hr.
    apply (Hout 2%Z Scenario.zone_closed); [vm_compute; reflexivity| |exact Hr].
    left. discriminate.
Defined.

Lemma radius_searches_grow_with_the_radius_witness :
  Forall
    (λ r,
       r ∈ find_available_bays_near (K := Planar.kernel) Scenario.db0
             11 16 300)
    (find_available_bays_near (K := Planar.kernel) Scenario.db0 11 16 10).
Proof.
  apply Forall_forall.
  apply (radius_searches_grow_with_the_radius (K := Planar.kernel)
           Scenario.db0 11 16 10 300).
  vm_compute. discriminate.
Defined.

(** ** Sessions and bay status, further *)

(** What a session statement leaves of the bays. *)
Lemma session_statement_shape (db db' : database) :
  (exists t, db' = with_parking_sessions db t)
  \/ (exists t now bay_id s,
        db' = UPDATE_bay_status (with_parking_sessions db t) now bay_id s) ->
  parking_zones db' = parking_zones db
  /\ forall k,
       (pb_geom <$> parking_bays db' !! k) = (pb_geom <$> parking_bays db !! k)
       /\ (pb_zone_id <$> parking_bays db' !! k)
          = (pb_zone_id <$> parking_bays db !! k).
Proof.
  intros [[t ->]|(t & now & bay_id & s & ->)]; simpl; [auto|].
  split; [reflexivity|]. intros k. rewrite lookup_alter.
  destruct (decide (bay_id = k)) as [->|]; [|auto].
  destruct (parking_bays db !! k); split; reflexivity.
Qed.

Lemma INSERT_parking_sessions_shape (db db' : database) (now : timestamp)
    (session_id : Z) (row : parking_session) :
  INSERT_parking_sessions db now session_id row = inr db' ->
  (exists t, db' = with_parking_sessions db t)
  \/ (exists t now bay_id s,
        db' = UPDATE_bay_status (with_parking_sessions db t) now bay_id s).
Proof.
  unfold INSERT_parking_sessions.
  destruct (parking_sessions db !! session_id); [discriminate|].
  destruct (parking_bays db !! ps_bay_id row); [|discriminate].
  rewrite update_bay_status_on_session_eq.
  destruct (status_written TG_INSERT row row); intros [= <-]; eauto 10.
Qed.

Lemma UPDATE_parking_sessions_shape (db db' : database) (now : timestamp)
    (session_id : Z) (a : session_assignment) :
  UPDATE_parking_sessions db now session_id a = inr db' ->
  db' = db
  \/ (exists t, db' = with_parking_sessions db t)
  \/ (exists t now bay_id s,
        db' = UPDATE_bay_status (with_parking_sessions db t) now bay_id s).
Proof.
  unfold UPDATE_parking_sessions.
  destruct (parking_sessions db !! session_id) as [OLD|];
    [|intros [= <-]; auto].
  destruct (negb _ && negb _); [discriminate|].
  destruct (bool_decide (is_Some (set_ps_status a))).
  - rewrite update_bay_status_on_session_eq.
    destruct (status_written TG_UPDATE OLD (assign_session a OLD));
      intros [= <-]; eauto 10.
  - intros [= <-]. eauto.
Qed.

Section SessionsFurther.
Context `{K : PostGIS} `{F : Float8}.

(** X13. A session started on a bay and then completed or cancelled leaves
    the bay 'available' whatever its status was before the start: a bay
    that was closed or reserved is not put back to that status. Both
    statements succeed, the session is stored with its final status, and no
    other bay changes status. *)
Theorem session_start_then_end_frees_the_bay (db : database)
    (now_1 now_2 : timestamp) (session_id bay_id : Z)
    (before : option bay_status) (final : session_status) :
  parking_sessions db !! session_id = None ->
  bay_status_of db bay_id = Some before ->
  final = completed \/ final = cancelled ->
  exists db_1 db_2,
    INSERT_parking_sessions db now_1 session_id
      (mkSession bay_id (Some active)) = inr db_1
    /\ bay_status_of db_1 bay_id = Some (Some occupied)
    /\ UPDATE_parking_sessions db_1 now_2 session_id
         (mkSessionSet None (Some (Some final))) = inr db_2
    /\ bay_status_of db_2 bay_id = Some (Some available)
    /\ parking_sessions db_2 !! session_id
       = Some (mkSession bay_id (Some final))
    /\ forall k, k <> bay_id -> bay_status_of db_2 k = bay_status_of db k.
Proof.
  intros Hfresh Hb Hfinal.
  assert (Hbay : is_Some (parking_bays db !! bay_id)).
  { unfold bay_status_of in Hb. destruct (parking_bays db !! bay_id); [eauto|].
    discriminate. }
  eexists. eexists.
  split; [apply INSERT_parking_sessions_eq; [exact Hfresh|exact Hbay]|].
  cbn [status_written ps_status ps_bay_id].
  split.
  { rewrite bay_status_of_UPDATE, decide_True by reflexivity.
    unfold bay_status_of in *. simpl. rewrite Hb. reflexivity. }
  split.
  { apply UPDATE_parking_sessions_status_eq. simpl. apply lookup_insert_eq. }
  cbv zeta. cbn [ps_bay_id].
  assert (Hw : status_written TG_UPDATE (mkSession bay_id (Some active))
                 (mkSession bay_id (Some final)) = Some available).
  { destruct Hfinal as [-> | ->]; reflexivity. }
  rewrite Hw. split.
  { rewrite bay_status_of_UPDATE, decide_True by reflexivity.
    unfold bay_status_of in *. simpl. rewrite lookup_alter.
    rewrite decide_True by reflexivity. rewrite <- option_fmap_compose.
    destruct (parking_bays db !! bay_id); [reflexivity|discriminate]. }
  split.
  { simpl. apply lookup_insert_eq. }
  intros k Hk. rewrite !bay_status_of_UPDATE.
  rewrite decide_False by congruence.
  unfold bay_status_of. simpl. rewrite lookup_alter.
  rewrite decide_False by congruence. reflexivity.
Qed.

(** X14. The status of a bay does not count its sessions: when two active
    sessions are started on the same bay and one of them is completed, the
    bay is 'available' although the other session is still active on it. *)
Theorem bay_is_freed_under_an_active_session (db : database)
    (now : timestamp) (session_1 session_2 bay_id : Z) :
  session_1 <> session_2 ->
  parking_sessions db !! session_1 = None ->
  parking_sessions db !! session_2 = None ->
  is_Some (parking_bays db !! bay_id) ->
  exists db_1 db_2 db_3,
    INSERT_parking_sessions db now session_1
      (mkSession bay_id (Some active)) = inr db_1
    /\ INSERT_parking_sessions db_1 now session_2
         (mkSession bay_id (Some active)) = inr db_2
    /\ UPDATE_parking_sessions db_2 now session_1
         (mkSessionSet None (Some (Some completed))) = inr db_3
    /\ bay_status_of db_3 bay_id = Some (Some available)
    /\ parking_sessions db_3 !! session_2
       = Some (mkSession bay_id (Some active)).
Proof.
  intros Hne H1 H2 [b Hb].
  eexists. eexists. eexists.
  split; [apply INSERT_parking_sessions_eq; [exact H1|eauto]|].
  cbn [status_written ps_status ps_bay_id]. cbv zeta.
  split.
  { apply INSERT_parking_sessions_eq.
    - simpl. rewrite lookup_insert_ne by done. exact H2.
    - simpl. rewrite lookup_alter, decide_True by reflexivity.
      rewrite Hb. simpl. eauto. }
  cbn [status_written ps_status ps_bay_id]. cbv zeta.
  split.
  { apply UPDATE_parking_sessions_status_eq. simpl.
    rewrite lookup_insert_ne by done. apply lookup_insert_eq. }
  cbn [status_written ps_status ps_bay_id]. cbv zeta.
  split.
  { rewrite bay_status_of_UPDATE, decide_True by reflexivity.
    unfold bay_status_of. simpl. rewrite !lookup_alter.
    rewrite !decide_True by reflexivity. rewrite Hb. reflexivity. }
  simpl. rewrite lookup_insert_ne by done. apply lookup_insert_eq.
Qed.

(** X15. An INSERT or UPDATE of parking_sessions leaves parking_zones as it
    was and changes neither the geometry nor the zone of any bay, nor the
    set of bays: every bay that was in its zone, and every bay that was a
    valid polygon, still is. *)
Theorem session_writes_keep_bay_geometry (db db' : database)
    (now : timestamp) (session_id : Z) :
  (exists row, INSERT_parking_sessions db now session_id row = inr db')
  \/ (exists a, UPDATE_parking_sessions db now session_id a = inr db') ->
  parking_zones db' = parking_zones db
  /\ (forall k,
        (pb_geom <$> parking_bays db' !! k)
        = (pb_geom <$> parking_bays db !! k)
        /\ (pb_zone_id <$> parking_bays db' !! k)
           = (pb_zone_id <$> parking_bays db !! k))
  /\ (bays_in_zones db -> bays_in_zones db')
  /\ (bays_are_polygons db -> bays_are_polygons db').
Proof.
  intros Hw.
  assert (Hshape : parking_zones db' = parking_zones db
                   /\ forall k,
                        (pb_geom <$> parking_bays db' !! k)
                        = (pb_geom <$> parking_bays db !! k)
                        /\ (pb_zone_id <$> parking_bays db' !! k)
                           = (pb_zone_id <$> parking_bays db !! k)).
  { destruct Hw as [[row H]|[a H]].
    - apply session_statement_shape, (INSERT_parking_sessions_shape _ _ _ _ _ H).
    - destruct (UPDATE_parking_sessions_shape _ _ _ _ _ H) as [->|Hs].
      + auto.
      + apply session_statement_shape, Hs. }
  destruct Hshape as [Hz Hk]. split; [exact Hz|]. split; [exact Hk|].
  split.
  - intros Hall k b' Hb'. destruct (Hk k) as [Hg Hzid].
    rewrite Hb' in Hg, Hzid. simpl in Hg, Hzid.
    destruct (parking_bays db !! k) as [b|] eqn:Hb; [|discriminate].
    simpl in Hg, Hzid. injection Hg as Hg. injection Hzid as Hzid.
    destruct (Hall k b Hb) as (z & Hz' & Hov).
    exists z. rewrite Hz, Hzid, Hg. auto.
  - intros Hall k b' Hb'. destruct (Hk k) as [Hg _].
    rewrite Hb' in Hg. simpl in Hg.
    destruct (parking_bays db !! k) as [b|] eqn:Hb; [|discriminate].
    simpl in Hg. injection Hg as Hg. rewrite Hg. eauto.
Qed.

End SessionsFurther.

Lemma session_start_then_end_frees_the_bay_witness :
  exists db_1 db_2,
    INSERT_parking_sessions Scenario.db0 10%Z 1
      (mkSession 6 (Some active)) = inr db_1
    /\ bay_status_of db_1 6 = Some (Some occupied)
    /\ UPDATE_parking_sessions db_1 20%Z 1
         (mkSessionSet None (Some (Some cancelled))) = inr db_2
    /\ bay_status_of db_2 6 = Some (Some available)
    /\ parking_sessions db_2 !! 1%Z = Some (mkSession 6 (Some cancelled))
    /\ forall k, k <> 6%Z ->
                 bay_status_of db_2 k = bay_status_of Scenario.db0 k.
Proof.
  apply (session_start_then_end_frees_the_bay Scenario.db0 10%Z 20%Z 1%Z 6%Z
           (Some closed) cancelled).
  - vm_compute. reflexivity.
  - vm_compute. reflexivity.
  - right. reflexivity.
Defined.

Lemma bay_is_freed_under_an_active_session_witness :
  exists db_1 db_2 db_3,
    INSERT_parking_sessions Scenario.db0 0%Z 1
      (mkSession 1 (Some active)) = inr db_1
    /\ INSERT_parking_sessions db_1 0%Z 2
         (mkSession 1 (Some active)) = inr db_2
    /\ UPDATE_parking_sessions db_2 0%Z 1
         (mkSessionSet None (Some (Some completed))) = inr db_3
    /\ bay_status_of db_3 1 = Some (Some available)
    /\ parking_sessions db_3 !! 2%Z = Some (mkSession 1 (Some active)).
Proof.
  apply (bay_is_freed_under_an_active_session Scenario.db0 0%Z 1%Z 2%Z 1%Z).
  - discriminate.
  - vm_compute. reflexivity.
  - vm_compute. reflexivity.
  - vm_compute. eauto.
Defined.

Lemma session_writes_keep_bay_geometry_witness :
  exists db',
    INSERT_parking_sessions Scenario.db0 0%Z 1 (mkSession 6 (Some active))
    = inr db'
    /\ parking_zones db' = parking_zones Scenario.db0.
Proof.
  destruct (INSERT_parking_sessions Scenario.db0 0%Z 1
              (mkSession 6 (Some active))) as [e|db'] eqn:H;
    [vm_compute in H; discriminate H|].
  exists db'. split; [reflexivity|].
  apply (session_writes_keep_bay_geometry (K := Planar.kernel)
           (F := Planar.exact) Scenario.db0 db' 0%Z 1%Z).
  left. exists (mkSession 6 (Some active)). exact H.
Defined.

(** ** Zone occupancy, further *)

Lemma calculate_zone_occupancy_eq (db : database) (p_zone_id : Z) :
  let n s := bays_where db (in_zone_with_status p_zone_id s) in
  let not_closed :=
    (n (Some available) + n (Some occupied) + n (Some reserved))%Z in
  calculate_zone_occupancy db p_zone_id
  = mkOccupancy
      (bays_where db (λ b, pb_zone_id b = p_zone_id))
      (n (Some available)) (n (Some occupied)) (n (Some reserved))
      (n (Some closed))
      (if (0 <? not_closed)%Z
       then ROUND2 (inject_Z (n (Some occupied)) / inject_Z not_closed * 100)
       else 0).
Proof.
  intros n not_closed. unfold calculate_zone_occupancy.
  set (rows := List.filter (λ pb, (pb_zone_id pb =? p_zone_id)%Z)
                 (snd <$> map_to_list (parking_bays db))).
  destruct (status_partition rows) as [_ Hden]. simpl in Hden.
  assert (Hn : forall s,
             COUNT_FILTER (λ pb, sql_eq (pb_status pb) s) rows = n (Some s)).
  { intros s. apply COUNT_FILTER_bays_where, in_zone_with_status_eq. }
  rewrite !Hn in Hden. rewrite Hden, !Hn.
  unfold rows. rewrite total_bays_where. reflexivity.
Qed.

Lemma bays_where_nonneg (db : database) (P : parking_bay -> Prop)
    `{forall b, Decision (P b)} :
  (0 <= bays_where db P)%Z.
Proof. unfold bays_where. lia. Qed.

Lemma bays_where_le (db : database) (P P' : parking_bay -> Prop)
    `{forall b, Decision (P b)} `{forall b, Decision (P' b)} :
  (forall b, P b -> P' b) -> (bays_where db P <= bays_where db P')%Z.
Proof.
  intros HPQ. unfold bays_where. apply inj_le.
  rewrite <- !length_map_to_list. apply submseteq_length.
  apply map_to_list_submseteq.
  apply map_subseteq_spec. intros k b Hk.
  apply map_lookup_filter_Some in Hk as [Hk HP].
  apply map_lookup_filter_Some. split; [exact Hk|]. apply HPQ, HP.
Qed.

Lemma bays_where_insert (db : database) (k : Z) (b : parking_bay)
    (P : parking_bay -> Prop) `{forall b, Decision (P b)} :
  parking_bays db !! k = None ->
  bays_where (with_parking_bays db (<[k := b]> (parking_bays db))) P
  = (bays_where db P + if decide (P b) then 1 else 0)%Z.
Proof.
  intros Hk. unfold bays_where. simpl.
  destruct (decide (P b)) as [HP|HP].
  - rewrite map_filter_insert_True by exact HP.
    rewrite map_size_insert_None by (apply map_lookup_filter_None; auto). lia.
  - rewrite map_filter_insert_False by exact HP.
    rewrite delete_id by exact Hk. lia.
Qed.

Lemma ROUND2_range (x : Q) : 0 <= x -> x <= 100 -> 0 <= ROUND2 x <= 100.
Proof.
  intros H0 H100. rewrite (ROUND2_nonneg x H0).
  assert (Hlo : (0 <= Qfloor (x * 100 + (1 # 2)))%Z).
  { change 0%Z with (Qfloor 0). apply Qfloor_resp_le. lra. }
  assert (Hhi : (Qfloor (x * 100 + (1 # 2)) <= 10000)%Z).
  { change 10000%Z with (Qfloor (10000 + (1 # 2))). apply Qfloor_resp_le. lra. }
  rewrite Zle_Qle in Hlo, Hhi.
  set (n := inject_Z (Qfloor (x * 100 + (1 # 2)))) in *.
  change (inject_Z 0) with 0 in Hlo. change (inject_Z 10000) with 10000 in Hhi.
  assert (E : n / 100 == n * (1 # 100)) by reflexivity.
  rewrite E. split; lra.
Qed.

Lemma percent_at_most_100 (a b : Z) :
  (0 <= a <= b)%Z -> (0 < b)%Z -> inject_Z a / inject_Z b * 100 <= 100.
Proof.
  intros Ha Hb.
  assert (Hb' : 0 < inject_Z b).
  { change 0 with (inject_Z 0). rewrite <- Zlt_Qlt. exact Hb. }
  assert (Hq : inject_Z a / inject_Z b <= 1).
  { apply Qle_shift_div_r; [exact Hb'|]. rewrite Qmult_1_l.
    rewrite <- Zle_Qle. lia. }
  lra.
Qed.

Lemma zone_total_partition (db : database) (p_zone_id : Z) :
  let n s := bays_where db (in_zone_with_status p_zone_id s) in
  (bays_where db (λ b, pb_zone_id b = p_zone_id)
   = n (Some available) + n (Some occupied) + n (Some reserved)
     + n (Some closed) + n None)%Z.
Proof.
  intros n.
  set (rows := List.filter (λ pb, (pb_zone_id pb =? p_zone_id)%Z)
                 (snd <$> map_to_list (parking_bays db))).
  destruct (status_partition rows) as [Htotal _]. simpl in Htotal.
  assert (Hn : forall s,
             COUNT_FILTER (λ pb, sql_eq (pb_status pb) s) rows = n (Some s)).
  { intros s. apply COUNT_FILTER_bays_where, in_zone_with_status_eq. }
  assert (Hnull :
            COUNT_FILTER (λ pb, bool_decide (pb_status pb = None)) rows
            = n None).
  { apply COUNT_FILTER_bays_where, in_zone_with_status_null. }
  rewrite !Hn, Hnull in Htotal. rewrite <- Htotal.
  symmetry. apply total_bays_where.
Qed.

(** X16. The row of calculate_zone_occupancy is within bounds: every count
    is between 0 and the total, the four counts by status add up to at most
    the total (to the total when no bay of the zone has a NULL status), and
    the percentage is between 0 and 100. *)
Theorem zone_occupancy_is_within_bounds (db : database) (p_zone_id : Z) :
  let o := calculate_zone_occupancy db p_zone_id in
  (0 <= available_bays o <= total_bays o)%Z
  /\ (0 <= occupied_bays o <= total_bays o)%Z
  /\ (0 <= reserved_bays o <= total_bays o)%Z
  /\ (0 <= closed_bays o <= total_bays o)%Z
  /\ (available_bays o + occupied_bays o + reserved_bays o + closed_bays o
      <= total_bays o)%Z
  /\ (bays_where db (in_zone_with_status p_zone_id None) = 0%Z ->
      (available_bays o + occupied_bays o + reserved_bays o + closed_bays o
       = total_bays o)%Z)
  /\ 0 <= occupancy_percent o <= 100.
Proof.
  intros o. subst o. rewrite calculate_zone_occupancy_eq. cbv zeta.
  cbn [total_bays available_bays occupied_bays reserved_bays closed_bays
       occupancy_percent].
  pose proof (zone_total_partition db p_zone_id) as Ht. cbv beta zeta in Ht.
  pose proof (bays_where_nonneg db (in_zone_with_status p_zone_id (Some available))).
  pose proof (bays_where_nonneg db (in_zone_with_status p_zone_id (Some occupied))).
  pose proof (bays_where_nonneg db (in_zone_with_status p_zone_id (Some reserved))).
  pose proof (bays_where_nonneg db (in_zone_with_status p_zone_id (Some closed))).
  pose proof (bays_where_nonneg db (in_zone_with_status p_zone_id None)).
  split; [lia|]. split; [lia|]. split; [lia|]. split; [lia|].
  split; [lia|]. split; [intros Hnull; lia|].
  destruct (0 <? _)%Z eqn:E.
  - apply Z.ltb_lt in E. apply ROUND2_range.
    + apply percent_nonneg; [lia|exact E].
    + apply percent_at_most_100; [lia|exact E].
  - split; discriminate.
Qed.

Lemma in_zone_with_status_other (zone_id : Z) (s : option bay_status)
    (b : parking_bay) :
  pb_zone_id b <> zone_id ->
  (if decide (in_zone_with_status zone_id s b) then 1 else 0)%Z = 0%Z.
Proof.
  intros Hz. rewrite decide_False; [reflexivity|]. intros [? _]. contradiction.
Qed.

(** X17. calculate_zone_occupancy looks at the bays of its zone only, and
    counts closed bays in the total alone. For a zone without bays, and so
    for a zone_id that names no zone, the row is all zeros. Adding a bay of
    another zone changes nothing in the row of the zone. Adding a closed
    bay to the zone adds one to total_bays and to closed_bays and leaves the
    other counts and the percentage as they were. *)
Theorem zone_occupancy_of_other_and_closed_bays (db : database)
    (p_zone_id : Z) :
  (bays_where db (λ b, pb_zone_id b = p_zone_id) = 0%Z ->
   calculate_zone_occupancy db p_zone_id = mkOccupancy 0 0 0 0 0 0)
  /\ (forall k b,
        parking_bays db !! k = None ->
        pb_zone_id b <> p_zone_id ->
        calculate_zone_occupancy
          (with_parking_bays db (<[k := b]> (parking_bays db))) p_zone_id
        = calculate_zone_occupancy db p_zone_id)
  /\ (forall k b,
        parking_bays db !! k = None ->
        pb_zone_id b = p_zone_id ->
        pb_status b = Some closed ->
        let o := calculate_zone_occupancy db p_zone_id in
        calculate_zone_occupancy
          (with_parking_bays db (<[k := b]> (parking_bays db))) p_zone_id
        = mkOccupancy (total_bays o + 1) (available_bays o) (occupied_bays o)
            (reserved_bays o) (closed_bays o + 1) (occupancy_percent o)).
Proof.
  split; [|split].
  - intros H0. rewrite calculate_zone_occupancy_eq. cbv zeta.
    pose proof (zone_total_partition db p_zone_id) as Ht. cbv beta zeta in Ht.
    pose proof (bays_where_nonneg db (in_zone_with_status p_zone_id (Some available))).
    pose proof (bays_where_nonneg db (in_zone_with_status p_zone_id (Some occupied))).
    pose proof (bays_where_nonneg db (in_zone_with_status p_zone_id (Some reserved))).
    pose proof (bays_where_nonneg db (in_zone_with_status p_zone_id (Some closed))).
    pose proof (bays_where_nonneg db (in_zone_with_status p_zone_id None)).
    rewrite H0.
    replace (bays_where db (in_zone_with_status p_zone_id (Some available)))
      with 0%Z by lia.
    replace (bays_where db (in_zone_with_status p_zone_id (Some occupied)))
      with 0%Z by lia.
    replace (bays_where db (in_zone_with_status p_zone_id (Some reserved)))
      with 0%Z by lia.
    replace (bays_where db (in_zone_with_status p_zone_id (Some closed)))
      with 0%Z by lia.
    reflexivity.
  - intros k b Hk Hz. rewrite !calculate_zone_occupancy_eq. cbv zeta.
    rewrite !(bays_where_insert db k b _ Hk).
    rewrite !in_zone_with_status_other by exact Hz.
    rewrite decide_False by exact Hz. rewrite !Z.add_0_r. reflexivity.
  - intros k b Hk Hz Hs o. subst o. rewrite !calculate_zone_occupancy_eq.
    cbv zeta. rewrite !(bays_where_insert db k b _ Hk).
    rewrite (decide_True (P := pb_zone_id b = p_zone_id)) by exact Hz.
    rewrite (decide_True (P := in_zone_with_status p_zone_id (Some closed) b))
      by (split; assumption).
    rewrite !(decide_False (P := in_zone_with_status p_zone_id (Some available) b))
      by (intros [_ ?]; congruence).
    rewrite !(decide_False (P := in_zone_with_status p_zone_id (Some occupied) b))
      by (intros [_ ?]; congruence).
    rewrite !(decide_False (P := in_zone_with_status p_zone_id (Some reserved) b))
      by (intros [_ ?]; congruence).
    rewrite !Z.add_0_r. reflexivity.
Qed.

Lemma zone_occupancy_is_within_bounds_witness :
  let o := calculate_zone_occupancy Scenario.db0 1 in
  (available_bays o + occupied_bays o + reserved_bays o + closed_bays o
   = total_bays o)%Z.
Proof.
  destruct (zone_occupancy_is_within_bounds Scenario.db0 1)
    as (_ & _ & _ & _ & _ & H & _).
  apply H. vm_compute. reflexivity.
Defined.

Lemma zone_occupancy_of_other_and_closed_bays_witness :
  calculate_zone_occupancy
    (with_parking_bays Scenario.db0
       (<[8%Z := Scenario.bay_yard]> (parking_bays Scenario.db0))) 1
  = calculate_zone_occupancy Scenario.db0 1
  /\ calculate_zone_occupancy Scenario.db0 77 = mkOccupancy 0 0 0 0 0 0.
Proof.
  destruct (zone_occupancy_of_other_and_closed_bays Scenario.db0 1)
    as (_ & H & _).
  destruct (zone_occupancy_of_other_and_closed_bays Scenario.db0 77)
    as (H0 & _).
  split.
  - apply H; [vm_compute; reflexivity|]. vm_compute. discriminate.
  - apply H0. vm_compute. reflexivity.
Defined.

(** ** Violations in an area *)

Global Instance by_issued_at_desc_total : Total by_issued_at_desc.
Proof.
  intros r1 r2. unfold by_issued_at_desc, later_first.
  destruct (va_issued_at r1), (va_issued_at r2); auto. lia.
Qed.

Global Instance by_issued_at_desc_trans : Transitive by_issued_at_desc.
Proof.
  intros r1 r2 r3. unfold by_issued_at_desc, later_first.
  destruct (va_issued_at r1), (va_issued_at r2), (va_issued_at r3);
    try tauto. lia.
Qed.

Lemma sql_ge_true (x : option timestamp) (v : timestamp) :
  sql_ge x v = true <-> exists t, x = Some t /\ (v <= t)%Z.
Proof.
  unfold sql_ge. destruct x as [t|].
  - rewrite Z.leb_le. split; [eauto|]. intros (t' & [= <-] & H). exact H.
  - split; [discriminate|]. intros (t & H & _). discriminate.
Qed.

Lemma sql_le_true (x : option timestamp) (v : timestamp) :
  sql_le x v = true <-> exists t, x = Some t /\ (t <= v)%Z.
Proof.
  unfold sql_le. destruct x as [t|].
  - rewrite Z.leb_le. split; [eauto|]. intros (t' & [= <-] & H). exact H.
  - split; [discriminate|]. intros (t & H & _). discriminate.
Qed.

Section ViolationsInArea.
Context `{K : PostGIS}.
Variable ST_GeomFromGeoJSON : string -> option Shape.
Variable columns : Z -> violation_columns.

Lemma elem_of_find_violations_in_area (db : database) (text : string)
    (parsed : Shape) (start_time end_time : timestamp)
    (rows : list violation_in_area) (r : violation_in_area) :
  ST_GeomFromGeoJSON text = Some parsed ->
  find_violations_in_area ST_GeomFromGeoJSON columns db text
    start_time end_time = Some rows ->
  r ∈ rows
  <-> exists v t,
        violations db !! va_violation_id r = Some v
        /\ ST_Contains (ST_SetSRID parsed 4326) (vl_geom v) = true
        /\ vc_issued_at (columns (va_violation_id r)) = Some t
        /\ (start_time <= t <= end_time)%Z
        /\ r = mkViolationInArea (va_violation_id r)
                 (vc_violation_type (columns (va_violation_id r)))
                 (vl_bay_id v) (vl_officer_id v)
                 (vc_fine_amount (columns (va_violation_id r)))
                 (Some t) (vl_geom v).
Proof.
  intros Hp. unfold find_violations_in_area. rewrite Hp. intros [= <-].
  rewrite merge_sort_Permutation, list_elem_of_In, in_map_iff. split.
  - intros ([id v] & <- & Hin).
    apply filter_In in Hin as [Hin Hsel].
    apply list_elem_of_In, elem_of_map_to_list in Hin.
    apply andb_true_iff in Hsel as [Hsel Hle].
    apply andb_true_iff in Hsel as [Hc Hge]. simpl in Hc, Hge, Hle.
    apply sql_ge_true in Hge as (t & Ht & Hge).
    apply sql_le_true in Hle as (t' & Ht' & Hle).
    rewrite Ht in Ht'. injection Ht' as <-.
    exists v, t. simpl. rewrite Ht. auto 10.
  - intros (v & t & Hv & Hc & Ht & [Hge Hle] & Hr).
    exists (va_violation_id r, v). simpl. split.
    + rewrite Ht. symmetry. exact Hr.
    + apply filter_In. split.
      * apply list_elem_of_In, elem_of_map_to_list, Hv.
      * simpl. rewrite Hc, Ht. simpl.
        rewrite (proj2 (Z.leb_le _ _) Hge), (proj2 (Z.leb_le _ _) Hle).
        reflexivity.
Qed.

(** X18. find_violations_in_area fails only when the polygon text cannot
    be read. Otherwise it returns exactly the violations whose point the
    polygon contains and whose issued_at lies between start_time and
    end_time, both included; a violation without issued_at is never
    returned; the rows come latest first; and a window whose end is before
    its start gives no row. *)
Theorem find_violations_in_area_window_latest_first (db : database)
    (text : string) (start_time end_time : timestamp) :
  let result :=
    find_violations_in_area ST_GeomFromGeoJSON columns db text
      start_time end_time in
  (result = None <-> ST_GeomFromGeoJSON text = None)
  /\ (forall parsed rows,
        ST_GeomFromGeoJSON text = Some parsed ->
        result = Some rows ->
        (forall violation_id v t,
           violations db !! violation_id = Some v ->
           ST_Contains (ST_SetSRID parsed 4326) (vl_geom v) = true ->
           vc_issued_at (columns violation_id) = Some t ->
           (start_time <= t <= end_time)%Z ->
           exists r, r ∈ rows /\ va_violation_id r = violation_id)
        /\ (forall r, r ∈ rows ->
              exists v t,
                violations db !! va_violation_id r = Some v
                /\ ST_Contains (ST_SetSRID parsed 4326) (vl_geom v) = true
                /\ va_geojson r = vl_geom v
                /\ va_issued_at r = Some t
                /\ vc_issued_at (columns (va_violation_id r)) = Some t
                /\ (start_time <= t <= end_time)%Z)
        /\ StronglySorted
             (λ r1 r2, later_first (va_issued_at r1) (va_issued_at r2)) rows
        /\ ((end_time < start_time)%Z -> rows = [])).
Proof.
  intros result. split.
  { subst result. unfold find_violations_in_area.
    destruct (ST_GeomFromGeoJSON text); split; congruence. }
  intros parsed rows Hp Hrows.
  pose proof (λ r, elem_of_find_violations_in_area db text parsed start_time
                     end_time rows r Hp Hrows) as Hin.
  split; [|split; [|split]].
  - intros violation_id v t Hv Hc Ht Hw.
    exists (mkViolationInArea violation_id
              (vc_violation_type (columns violation_id))
              (vl_bay_id v) (vl_officer_id v)
              (vc_fine_amount (columns violation_id)) (Some t) (vl_geom v)).
    split; [|reflexivity]. apply Hin. exists v, t. simpl. auto.
  - intros r Hr. apply Hin in Hr as (v & t & Hv & Hc & Ht & Hw & Hrow).
    exists v, t. rewrite Hrow. simpl. auto 10.
  - subst result. unfold find_violations_in_area in Hrows.
    rewrite Hp in Hrows. injection Hrows as <-.
    apply (StronglySorted_merge_sort by_issued_at_desc).
  - intros Hempty. apply elem_of_nil_inv. intros r Hr.
    apply Hin in Hr as (v & t & _ & _ & _ & Hw & _). lia.
Qed.

End ViolationsInArea.

(** Violations 1, 2 and 3 lie in the box; 3 has no issued_at. *)
Example find_violations_in_area_scenario :
  (λ rows : list violation_in_area, va_violation_id <$> rows)
    <$> find_violations_in_area (K := Planar.kernel) Scenario2.read_box
          Scenario2.issued Scenario2.db_violations "zone A" 0%Z 1000%Z
  = Some [2%Z; 1%Z]
  /\ find_violations_in_area (K := Planar.kernel) Scenario2.read_box
       Scenario2.issued Scenario2.db_violations "zone B" 0%Z 1000%Z
     = None.
Proof. split; vm_compute; reflexivity. Qed.

Lemma find_violations_in_area_window_latest_first_witness :
  find_violations_in_area (K := Planar.kernel) Scenario2.read_box
    Scenario2.issued Scenario2.db_violations "zone A" 500%Z 100%Z
  = Some [].
Proof.
  destruct (find_violations_in_area_window_latest_first
              (K := Planar.kernel) Scenario2.read_box Scenario2.issued
              Scenario2.db_violations "zone A" 500%Z 100%Z) as [_ H].
  destruct (find_violations_in_area (K := Planar.kernel) Scenario2.read_box
              Scenario2.issued Scenario2.db_violations "zone A" 500%Z 100%Z)
    as [rows|] eqn:E; [|vm_compute in E; discriminate E].
  destruct (H (shape (Planar.rect 0 0 50 30)) rows) as (_ & _ & _ & Hempty).
  - vm_compute. reflexivity.
  - reflexivity.
  - rewrite Hempty; [reflexivity|]. vm_compute. reflexivity.
Defined.

(** ** Sessions and the search for available bays *)

Section SessionsAndSearch.
Context `{K : PostGIS}.

(** X19. A bay on which an active session has just been started is not
    offered by find_available_bays_near, whatever the point and the radius;
    once that session is completed or cancelled the bay is offered again
    when its zone is active and it lies within the radius, with the
    distance it had: the session statements do not move the bay. *)
Theorem started_session_hides_the_bay_until_it_ends (db : database)
    (now_1 now_2 : timestamp) (session_id bay_id : Z) (b : parking_bay)
    (lat lng radius_meters : Q) :
  parking_sessions db !! session_id = None ->
  parking_bays db !! bay_id = Some b ->
  forall db_1,
    INSERT_parking_sessions db now_1 session_id
      (mkSession bay_id (Some active)) = inr db_1 ->
    (forall r, r ∈ find_available_bays_near db_1 lat lng radius_meters ->
               bn_bay_id r <> bay_id)
    /\ forall final db_2 pz,
         final = completed \/ final = cancelled ->
         UPDATE_parking_sessions db_1 now_2 session_id
           (mkSessionSet None (Some (Some final))) = inr db_2 ->
         parking_zones db !! pb_zone_id b = Some pz ->
         pz_is_active pz = Some true ->
         ST_Distance_geography (pb_geom b)
           (ST_SetSRID (ST_MakePoint lng lat) 4326) <= radius_meters ->
         exists r,
           r ∈ find_available_bays_near db_2 lat lng radius_meters
           /\ bn_bay_id r = bay_id
           /\ bn_distance_meters r
              = ST_Distance_geography (pb_geom b)
                  (ST_SetSRID (ST_MakePoint lng lat) 4326).
Proof.
  intros Hfresh Hb db_1 H1.
  rewrite INSERT_parking_sessions_eq in H1 by eauto.
  cbn [status_written ps_status ps_bay_id] in H1. cbv zeta in H1.
  injection H1 as <-. split.
  - intros r Hr <-.
    apply elem_of_find_available_bays_near in Hr
      as (pb & pz & Hpb & _ & Hs & _).
    simpl in Hpb. rewrite lookup_alter, decide_True in Hpb by reflexivity.
    rewrite Hb in Hpb. simpl in Hpb. injection Hpb as <-. discriminate Hs.
  - intros final db_2 pz Hfinal H2 Hz Ha Hd.
    rewrite (UPDATE_parking_sessions_status_eq _ _ _
               (mkSession bay_id (Some active))) in H2
      by (simpl; apply lookup_insert_eq).
    cbv zeta in H2. cbn [ps_bay_id] in H2.
    assert (Hw : status_written TG_UPDATE (mkSession bay_id (Some active))
                   (mkSession bay_id (Some final)) = Some available).
    { destruct Hfinal as [-> | ->]; reflexivity. }
    rewrite Hw in H2. injection H2 as <-.
    eexists (mkBayNear bay_id _ _ _ _ _ _ _ _).
    split; [|split; reflexivity].
    apply elem_of_find_available_bays_near. simpl.
    eexists. exists pz. split.
    { rewrite !lookup_alter. rewrite !decide_True by reflexivity.
      rewrite Hb. reflexivity. }
    simpl. auto 10.
Qed.

End SessionsAndSearch.

Lemma started_session_hides_the_bay_until_it_ends_witness :
  exists db_1,
    INSERT_parking_sessions Scenario.db0 0%Z 1 (mkSession 1 (Some active))
    = inr db_1
    /\ Forall (λ r, bn_bay_id r <> 1%Z)
         (find_available_bays_near (K := Planar.kernel) db_1 11 16 300).
Proof.
  destruct (INSERT_parking_sessions Scenario.db0 0%Z 1
              (mkSession 1 (Some active))) as [e|db_1] eqn:H;
    [vm_compute in H; discriminate H|].
  exists db_1. split; [reflexivity|]. apply Forall_forall.
  apply (started_session_hides_the_bay_until_it_ends (K := Planar.kernel)
           Scenario.db0 0%Z 0%Z 1%Z 1%Z Scenario.bay_inside 11 16 300).
  - vm_compute. reflexivity.
  - vm_compute. reflexivity.
  - exact H.
Defined.
